(** * chatlas: the chat orchestration engine

    A shallow embedding of [chatlas/_chat.py] (the [Chat] class: turn
    history, submission round, tool loop, data extraction) and of the parts
    of [chatlas/_openai.py] that turn a completion into a [Turn] and a
    history into a request, with the tool schemas of [chatlas/_tools.py].

    Python objects are embedded as follows.
    - A method of [Chat] is a computation in the monad [M Chat]: it reads and
      writes the chat, may raise, and (for the generator methods) yields text
      chunks.  A generator is modelled run to exhaustion, the way [Chat.chat]
      and [Chat.extract_data] consume it.
    - [display.update] feeds a rendering side channel and is not part of the
      state; only the check made by [emit_user_contents] is kept.
    - A tool is a callable object: a pure function from its call arguments
      to what the call does, return a value or raise an [Exception], and the
      [__name__] attribute if the object has one.  A call that does not end,
      and interpreter signals outside the [Exception] hierarchy
      ([KeyboardInterrupt], [SystemExit]), are not modelled.
    - A generator function is wrapped in [generator], which does what the
      interpreter does to a [StopIteration] raised by the body.
    - The [_tools] attribute is a [dict] in insertion order.
    - The classes of [chatlas/_content.py] and [chatlas/_turn.py], and
      [merge_dicts] of [chatlas/_merge.py], are not among the sources: they
      are modelled from the specification.  The OpenAI provider takes
      [merge_dicts] as a parameter; [Merge.merge_dicts] is the one of the
      specification. *)

From stdpp Require Import base option list strings gmap pretty.
From Stdlib Require Import ZArith Lia.

Open Scope string_scope.
Open Scope list_scope.

#[local] Set Warnings "-register-all".

(** ** Python values and exceptions *)

(** Plain Python data: what [json.loads] returns, what a tool receives and
    returns, what [model_dump] produces. *)
Inductive value : Type :=
  | VNone
  | VBool (b : bool)
  | VInt (z : Z)
  | VStr (s : string)
  | VList (l : list value)
  | VDict (d : gmap string value).

(** An exception object: its class name and [str(e)]. *)
Inductive exception : Type := Exception (cls msg : string).

Definition str_of_exception (e : exception) : string :=
  match e with Exception _ msg => msg end.

Definition class_of (e : exception) : string :=
  match e with Exception cls _ => cls end.

(** [isinstance(e, cls)], by the class name: a subclass is a class of its
    own here. *)
Definition is_instance (cls : string) (e : exception) : bool :=
  bool_decide (class_of e = cls).

Definition ValueError (msg : string) : exception := Exception "ValueError" msg.
Definition IndexError (msg : string) : exception := Exception "IndexError" msg.
Definition KeyError (msg : string) : exception := Exception "KeyError" msg.
Definition TypeError (msg : string) : exception := Exception "TypeError" msg.
Definition AssertionError : exception := Exception "AssertionError" "".
Definition StopIteration : exception := Exception "StopIteration" "".
Definition AttributeError (msg : string) : exception :=
  Exception "AttributeError" msg.
Definition RuntimeError (msg : string) : exception := Exception "RuntimeError" msg.
Definition JSONDecodeError (msg : string) : exception :=
  Exception "JSONDecodeError" msg.

Inductive result (A : Type) : Type :=
  | Ok (a : A)
  | Raise (e : exception).
Arguments Ok {A} a.
Arguments Raise {A} e.

(** ** The monad of chat methods: state, exceptions, yielded text *)

Record run (S A : Type) : Type := Run {
  yielded : list string;
  outcome : result A;
  final : S
}.
Arguments Run {S A} yielded outcome final.
Arguments yielded {S A} r.
Arguments outcome {S A} r.
Arguments final {S A} r.

Definition M (S A : Type) : Type := S -> run S A.

Definition ret {S A : Type} (a : A) : M S A := fun s => Run [] (Ok a) s.

Definition bind {S A B : Type} (m : M S A) (k : A -> M S B) : M S B :=
  fun s =>
    let r := m s in
    match outcome r with
    | Ok a =>
        let r' := k a (final r) in
        Run (yielded r ++ yielded r') (outcome r') (final r')
    | Raise e => Run (yielded r) (Raise e) (final r)
    end.

Definition raise {S A : Type} (e : exception) : M S A :=
  fun s => Run [] (Raise e) s.

Definition yield {S : Type} (text : string) : M S unit :=
  fun s => Run [text] (Ok tt) s.

Definition get {S : Type} : M S S := fun s => Run [] (Ok s) s.

Definition modify {S : Type} (f : S -> S) : M S unit :=
  fun s => Run [] (Ok tt) (f s).

Definition lift {S A : Type} (r : result A) : M S A :=
  match r with
  | Ok a => ret a
  | Raise e => raise e
  end.

(** The body of a generator function, run to exhaustion.  A [StopIteration]
    that the body raises does not leave the generator as it is: the
    interpreter replaces it by [RuntimeError("generator raised
    StopIteration")] (PEP 479); every other exception leaves unchanged. *)
Definition pep479 (e : exception) : exception :=
  if is_instance "StopIteration" e
  then RuntimeError "generator raised StopIteration"
  else e.

Definition generator {S A : Type} (body : M S A) : M S A :=
  fun s =>
    let r := body s in
    match outcome r with
    | Ok _ => r
    | Raise e => Run (yielded r) (Raise (pep479 e)) (final r)
    end.

Declare Scope chat_scope.
Delimit Scope chat_scope with chat.
Notation "x <- m ;; k" := (bind m (fun x => k))
  (at level 100, m at next level, right associativity) : chat_scope.
Notation "m ;; k" := (bind m (fun _ => k))
  (at level 100, right associativity) : chat_scope.
Open Scope chat_scope.

(** ** Content and Turn *)

(** Modelled from the spec: the content classes of [chatlas/_content.py]
    (absent from the sources), the closed set of variants of section 3. *)
Inductive Content : Type :=
  | ContentText (text : string)
  | ContentJson (value : value)
  | ContentImageRemote (url : string)
  | ContentImageInline (content_type data : string)
  | ContentToolRequest (id name : string) (arguments : value)
  | ContentToolResult (id : string) (value : value) (error : option string).

Inductive Role : Type := system | user | assistant.

#[global] Instance Role_eq_dec : EqDecision Role.
Proof. solve_decision. Defined.

(** Modelled from the spec: the [Turn] class of [chatlas/_turn.py] (absent
    from the sources): a role, ordered contents, optional token counts,
    finish reason and raw provider payload ([json]). *)
Record Turn : Type := mkTurn {
  role : Role;
  contents : list Content;
  tokens : option (Z * Z);
  finish_reason : option string;
  json : option value
}.

(** Modelled from the spec: [Turn(role, contents)] with a list of contents;
    the keyword arguments default to [None]. *)
Definition Turn_of_contents (r : Role) (cs : list Content) : Turn :=
  mkTurn r cs None None None.

(** Modelled from the spec: [Turn(role, "...")]; a string becomes a single
    Text content. *)
Definition Turn_of_str (r : Role) (s : string) : Turn :=
  Turn_of_contents r [ContentText s].

(** Modelled from the spec: [turn.text] of [chatlas/_turn.py], the text of
    the turn's Text contents, in order. *)
Fixpoint contents_text (cs : list Content) : string :=
  match cs with
  | [] => ""
  | ContentText s :: rest => s +:+ contents_text rest
  | _ :: rest => contents_text rest
  end.

Definition text (t : Turn) : string := contents_text (contents t).

(** Modelled from the spec: [user_turn] of [chatlas/_turn.py], applied to
    the caller inputs: string inputs become a Text content, Content objects
    pass through. *)
Definition user_turn (args : list (Content + string)) : Turn :=
  Turn_of_contents user
    (map (fun a => match a with inl c => c | inr s => ContentText s end) args).

(** ** Tools *)

(** How a tool is called: with keyword arguments or with one positional
    argument. *)
Inductive call_args : Type :=
  | Kwargs (kw : gmap string value)
  | Positional (arg : value).

(** What the call does: it returns a value or raises an [Exception].  A call
    that does not end, and a signal outside the [Exception] hierarchy, are
    not represented. *)
Inductive call_outcome : Type :=
  | Returned (v : value)
  | Raised (e : exception).

(** A callable object registered as a tool: what calling it does, its
    [__name__] attribute, [None] when the object has none (a
    [functools.partial] object, an instance of a class with [__call__]), and
    the name of its type, which the [AttributeError] for a missing attribute
    cites. *)
Record ToolFunc : Type := mkToolFunc {
  on_call : call_args -> call_outcome;
  func_name : option string;
  type_name : string
}.

(** The tool object of [chatlas/_tools.py]. *)
Record Tool : Type := mkTool {
  func : ToolFunc;
  _is_async : bool;
  schema : value;
  name : string
}.

(** ** Dicts in insertion order

    A Python [dict] with string keys where the order of the entries
    matters: [d[k] = v] replaces the value of a key that is present, in
    place, and appends a new key; [d.values()] lists the values in the order
    of insertion. *)
Record dict (A : Type) : Type := Dict { items : list (string * A) }.
Arguments Dict {A} items.
Arguments items {A} d.

(** [d.get(k, None)] *)
Definition dict_get {A : Type} (k : string) (d : dict A) : option A :=
  snd <$> List.find (fun kv => bool_decide (kv.1 = k)) (items d).

Fixpoint assign {A : Type} (k : string) (v : A) (l : list (string * A))
  : list (string * A) :=
  match l with
  | [] => [(k, v)]
  | (k', v') :: rest =>
      if bool_decide (k' = k) then (k, v) :: rest else (k', v') :: assign k v rest
  end.

(** [d[k] = v] *)
Definition dict_set {A : Type} (k : string) (v : A) (d : dict A) : dict A :=
  Dict (assign k v (items d)).

(** [d.values()] *)
Definition dict_values {A : Type} (d : dict A) : list A := (items d).*2.

#[global] Instance dict_lookup {A : Type} : Lookup string A (dict A) := dict_get.
#[global] Instance dict_insert {A : Type} : Insert string A (dict A) := dict_set.
#[global] Instance dict_empty {A : Type} : Empty (dict A) := Dict [].
#[global] Instance dict_singleton {A : Type} : SingletonM string A (dict A) :=
  fun k v => Dict [(k, v)].

(** Python truthiness of an optional string: [if text:]. *)
Definition truthy (s : option string) : bool :=
  match s with
  | Some (String _ _) => true
  | _ => false
  end.

(** ** The Chat object *)

Section ChatState.

(** The provider object held by the chat; its type is the provider's own. *)
Context {PS : Type}.

Record Chat : Type := mkChat {
  provider : PS;
  _turns : list Turn;
  _tools : dict Tool
}.

Definition with_turns (c : Chat) (ts : list Turn) : Chat :=
  mkChat (provider c) ts (_tools c).

Definition with_provider (c : Chat) (p : PS) : Chat :=
  mkChat p (_turns c) (_tools c).

Definition is_system (t : Turn) : bool := bool_decide (role t = system).

(** [Chat.get_turns] *)
Definition get_turns (include_system_prompt : bool) (c : Chat) : list Turn :=
  match _turns c with
  | [] => _turns c
  | t0 :: rest =>
      if negb include_system_prompt && is_system t0 then rest else _turns c
  end.

(** [Chat.get_last_turn]: the scan over [reversed(self._turns)]. *)
Fixpoint last_with_role (r : Role) (reversed : list Turn) : option Turn :=
  match reversed with
  | [] => None
  | turn :: rest =>
      if bool_decide (role turn = r) then Some turn else last_with_role r rest
  end.

Definition get_last_turn (r : Role) (c : Chat) : option Turn :=
  last_with_role r (rev (_turns c)).

(** [next(i for i, x in enumerate(turns) if x.role == "system")] *)
Fixpoint first_system_from (i : nat) (turns : list Turn) : option nat :=
  match turns with
  | [] => None
  | x :: rest => if is_system x then Some i else first_system_from (S i) rest
  end.

Definition set_turns_message (idx : nat) : string :=
  "Turn " +:+ pretty idx +:+ " has a role 'system', which is not allowed. "
  +:+ "The system prompt must be set separately using the `.system_prompt` property. "
  +:+ "Consider removing this turn and setting the `.system_prompt` separately "
  +:+ "if you want to change the system prompt.".

(** [Chat.set_turns] *)
Definition set_turns (turns : list Turn) : M Chat unit :=
  if existsb is_system turns then
    match first_system_from 0 turns with
    | Some idx => raise (ValueError (set_turns_message idx))
    | None => raise StopIteration
    end
  else modify (fun c => with_turns c turns).

(** [Chat.system_prompt] (getter) *)
Definition system_prompt (c : Chat) : option string :=
  match _turns c with
  | t0 :: _ => if is_system t0 then Some (text t0) else None
  | [] => None
  end.

(** [Chat.system_prompt] (setter) *)
Definition set_system_prompt (value : option string) : M Chat unit :=
  modify (fun c =>
    let popped :=
      match _turns c with
      | t0 :: rest => if is_system t0 then rest else _turns c
      | [] => _turns c
      end in
    match value with
    | Some v => with_turns c (Turn_of_str system v :: popped)
    | None => with_turns c popped
    end).

End ChatState.

Arguments Chat PS : clear implicits.

(** ** The provider contract ([chatlas/_provider.py]) *)

(** What iterating a streamed response does: deliver a chunk, end, or raise
    (a transport failure in the middle of the stream). *)
Inductive Stream (Chunk : Type) : Type :=
  | SNil
  | SCons (chunk : Chunk) (rest : Stream Chunk)
  | SRaise (e : exception).
Arguments SNil {Chunk}.
Arguments SCons {Chunk} chunk rest.
Arguments SRaise {Chunk} e.

(** A pydantic model class given as [data_model], represented by its
    parameter schema (a dict). *)
Definition BaseModel : Type := gmap string value.

(** The extra request arguments [kwargs], a dict. *)
Definition SubmitInputArgs : Type := gmap string value.

(** The abstract class [Provider].  [chat_perform] is declared with two
    overloads, one per value of [stream]: it returns a completion, or with
    [stream=True] an iterable of chunks.  The provider object itself (its
    client, a stub's script position) may change with a request. *)
Class Provider (PS Completion Chunk Dict : Type) : Type := {
  chat_perform :
    list Turn -> dict Tool -> option BaseModel -> option SubmitInputArgs ->
    PS -> result Completion * PS;
  chat_perform_stream :
    list Turn -> dict Tool -> option BaseModel -> option SubmitInputArgs ->
    PS -> result (Stream Chunk) * PS;
  stream_text : Chunk -> option string;
  stream_merge_chunks : option Dict -> Chunk -> Dict;
  stream_turn : option Dict -> bool -> Stream Chunk -> result Turn;
  value_turn : Completion -> bool -> result Turn
}.

Inductive Echo : Type := EchoText | EchoAll | EchoNone.

(** Why a run of the tool loop stopped: the [while] condition failed, or the
    model of the loop ran out of iterations. *)
Inductive loop_status : Type := Done | OutOfFuel.

(** ** Tool invocation *)

(** Modelled from the spec: [log_tool_error] of [chatlas/_logging.py] (absent
    from the sources) records the error and returns.  Its second argument is
    [str(arguments)], the text of the structured value. *)
Definition log_tool_error (name : string) (arguments : value) (e : exception)
  : unit := tt.

(** [func.__name__] *)
Definition get_name (f : ToolFunc) : result string :=
  match func_name f with
  | Some name => Ok name
  | None =>
      Raise (AttributeError
               ("'" +:+ type_name f +:+ "' object has no attribute '__name__'"))
  end.

(** [try: body except Exception as e: handler(e)] *)
Definition try_except {A : Type} (body : result A) (handler : exception -> result A)
  : result A :=
  match body with
  | Ok a => Ok a
  | Raise e => handler e
  end.

(** The call of a tool function: keyword arguments when [arguments] is a
    dict, one positional argument otherwise. *)
Definition apply_tool (f : ToolFunc) (arguments : value) : call_outcome :=
  match arguments with
  | VDict kw => on_call f (Kwargs kw)
  | _ => on_call f (Positional arguments)
  end.

(** [Chat._invoke_tool].  In the handler the arguments of [log_tool_error]
    are evaluated first: [func.__name__] raises [AttributeError] when the
    callable has no such attribute, and that exception leaves the handler. *)
Definition _invoke_tool (func : option ToolFunc) (arguments : value)
    (id_ : string) : result Content :=
  match func with
  | None => Ok (ContentToolResult id_ VNone (Some "Unknown tool"))
  | Some f =>
      try_except
        (match apply_tool f arguments with
         | Returned result => Ok (ContentToolResult id_ result None)
         | Raised e => Raise e
         end)
        (fun e =>
           match get_name f with
           | Raise e' => Raise e'
           | Ok name =>
               let _ := log_tool_error name arguments e in
               Ok (ContentToolResult id_ VNone (Some (str_of_exception e)))
           end)
  end.

(** [self._tools.get(x.name, None)] followed by
    [tool_def.func if tool_def is not None else None]. *)
Definition tool_func (tools : dict Tool) (name : string) : option ToolFunc :=
  let tool_def := tools !! name in
  match tool_def with
  | Some d => Some (func d)
  | None => None
  end.

Section Engine.

Context {PS Completion Chunk Dict : Type}.
Context {P : Provider PS Completion Chunk Dict}.

#[local] Abbreviation Chat := (Chat PS).

(** The loop body of [Chat._invoke_tools]: one content item. *)
Definition invoke_step (tools : dict Tool) (results : list Content)
    (x : Content) : result (list Content) :=
  match x with
  | ContentToolRequest id name arguments =>
      match _invoke_tool (tool_func tools name) arguments id with
      | Ok r => Ok (results ++ [r])
      | Raise e => Raise e
      end
  | _ => Ok results
  end.

Fixpoint invoke_loop (tools : dict Tool) (results : list Content)
    (xs : list Content) : result (list Content) :=
  match xs with
  | [] => Ok results
  | x :: rest =>
      match invoke_step tools results x with
      | Ok results' => invoke_loop tools results' rest
      | Raise e => Raise e
      end
  end.

(** [Chat._invoke_tools] *)
Definition _invoke_tools : M Chat (option Turn) :=
  c <- get ;;
  match get_last_turn assistant c with
  | None => ret None
  | Some turn =>
      results <- lift (invoke_loop (_tools c) [] (contents turn)) ;;
      match results with
      | [] => ret None
      | _ => ret (Some (Turn_of_contents user results))
      end
  end.

(** [emit_user_contents]: only the role check is kept. *)
Definition emit_user_contents (x : Turn) : M Chat unit :=
  if bool_decide (role x = user) then ret tt
  else raise (ValueError "Expected a user turn").

(** The [for chunk in response] loop of [Chat._submit_turns]; a
    [StopIteration] out of the iterator is how the loop ends. *)
Fixpoint consume_stream (response : Stream Chunk) (result : option Dict)
  : M Chat (option Dict) :=
  match response with
  | SNil => ret result
  | SRaise e => if is_instance "StopIteration" e then ret result else raise e
  | SCons chunk rest =>
      let text := stream_text chunk in
      (if truthy text then yield (default "" text) else ret tt) ;;
      consume_stream rest (Some (stream_merge_chunks result chunk))
  end.

(** [any(x._is_async for x in self._tools.values())] *)
Definition any_async (tools : dict Tool) : bool :=
  existsb _is_async (dict_values tools).

(** The provider request of a round: [self.provider.chat_perform(...)] over
    [[*self._turns, user_turn]], with [stream=False] and with [stream=True]. *)
Definition perform (user_turn : Turn) (data_model : option BaseModel)
    (kwargs : option SubmitInputArgs) : M Chat Completion :=
  fun c =>
    let rp :=
      chat_perform (_turns c ++ [user_turn]) (_tools c) data_model kwargs
        (provider c) in
    Run [] (fst rp) (with_provider c (snd rp)).

Definition perform_stream (user_turn : Turn) (data_model : option BaseModel)
    (kwargs : option SubmitInputArgs) : M Chat (Stream Chunk) :=
  fun c =>
    let rp :=
      chat_perform_stream (_turns c ++ [user_turn]) (_tools c) data_model kwargs
        (provider c) in
    Run [] (fst rp) (with_provider c (snd rp)).

(** [Chat._submit_turns], a generator function. *)
Definition _submit_turns (user_turn : Turn) (echo : Echo) (stream : bool)
    (data_model : option BaseModel) (kwargs : option SubmitInputArgs) : M Chat unit :=
  generator
    (c <- get ;;
     if any_async (_tools c) then
       raise (ValueError "Cannot use async tools in a synchronous chat")
     else
       (match echo with EchoAll => emit_user_contents user_turn | _ => ret tt end) ;;
       turn <-
         (if stream then
            response <- perform_stream user_turn data_model kwargs ;;
            result <- consume_stream response None ;;
            lift (stream_turn result (bool_decide (data_model <> None)) response)
          else
            response <- perform user_turn data_model kwargs ;;
            turn <- lift (value_turn response (bool_decide (data_model <> None))) ;;
            (if truthy (Some (text turn)) then yield (text turn) else ret tt) ;;
            ret turn) ;;
       modify (fun c => with_turns c (_turns c ++ [user_turn; turn]))).

(** [Chat._chat_impl]: the [while user_turn_result is not None] loop, with a
    bound on the number of iterations.  It is a generator function too; what
    its body can raise is what [_submit_turns] lets out, never a
    [StopIteration], and the [AttributeError] of [_invoke_tool], so there is
    nothing for the interpreter to replace. *)
Fixpoint _chat_impl (fuel : nat) (user_turn_result : option Turn) (echo : Echo)
    (stream : bool) (kwargs : option SubmitInputArgs) : M Chat loop_status :=
  match user_turn_result with
  | None => ret Done
  | Some user_turn =>
      match fuel with
      | O => ret OutOfFuel
      | S fuel' =>
          _submit_turns user_turn echo stream None kwargs ;;
          next <- _invoke_tools ;;
          _chat_impl fuel' next echo stream kwargs
      end
  end.

(** [Chat.chat] *)
Definition chat (fuel : nat) (args : list (Content + string)) (echo : Echo)
    (stream : bool) (kwargs : option SubmitInputArgs) : M Chat loop_status :=
  _chat_impl fuel (Some (user_turn args)) echo stream kwargs.

Definition json_items (cs : list Content) : list value :=
  omap (fun x => match x with ContentJson v => Some v | _ => None end) cs.

Definition extract_data_message (n : nat) : string :=
  "Data extraction failed: " +:+ pretty n +:+ " data results received.".

(** [Chat.extract_data] *)
Definition extract_data (args : list (Content + string)) (data_model : BaseModel)
    (echo : Echo) (stream : bool) : M Chat value :=
  _submit_turns (user_turn args) echo stream (Some data_model) None ;;
  c <- get ;;
  match get_last_turn assistant c with
  | None => raise AssertionError
  | Some turn =>
      let res := json_items (contents turn) in
      if bool_decide (length res <> 1) then
        raise (ValueError (extract_data_message (length res)))
      else
        match res with
        | json :: _ => ret json
        | [] => raise (IndexError "list index out of range")
        end
  end.

End Engine.

(** ** The OpenAI provider ([chatlas/_openai.py]) *)

Module OpenAI.

(** The fields of the OpenAI response types that the provider reads, and of
    the rest of the payload the identifier, the object kind
    (["chat.completion"], or ["chat.completion.chunk"] for a chunk), the
    creation time and the model name. *)
Record Function : Type := mkFunction {
  fn_name : string;
  fn_arguments : option string
}.

Record ToolCall : Type := mkToolCall {
  tc_id : string;
  tc_function : option Function
}.

(** [ChatCompletionMessage], and [ChoiceDelta] of a streamed chunk. *)
Record Message : Type := mkMessage {
  content : option string;
  tool_calls : option (list ToolCall)
}.

Record Usage : Type := mkUsage {
  prompt_tokens : Z;
  completion_tokens : Z
}.

(** [ChatCompletionChunk] *)
Record ChunkChoice : Type := mkChunkChoice {
  delta : Message;
  chunk_finish_reason : option string
}.

Record ChatCompletionChunk : Type := mkChunk {
  chunk_id : string;
  chunk_choices : list ChunkChoice;
  chunk_created : Z;
  chunk_model : string;
  chunk_object : string;
  chunk_usage : option Usage;
  chunk_x_groq : option Usage
}.

(** [ChatCompletionDict], the dictionary form of a completion, and the
    [ChatCompletion] object: [ChatCompletion.construct] builds the object from
    the dictionary without validation and [model_dump] gives the dictionary
    back, so one record serves for both.  A key of a choice that is absent
    is [None] here: a completion received from the service has [message], a
    dumped chunk has [delta]. *)
Record Choice : Type := mkChoice {
  choice_delta : option Message;
  message : option Message;
  choice_finish_reason : option string
}.

Record ChatCompletion : Type := mkCompletion {
  completion_id : string;
  choices : list Choice;
  created : Z;
  model : string;
  object : string;
  usage : option Usage;
  x_groq : option Usage
}.

(** [chunk.model_dump()] *)
Definition model_dump_chunk (chunk : ChatCompletionChunk) : ChatCompletion :=
  mkCompletion (chunk_id chunk)
    (map (fun c => mkChoice (Some (delta c)) None (chunk_finish_reason c))
       (chunk_choices chunk))
    (chunk_created chunk) (chunk_model chunk) (chunk_object chunk)
    (chunk_usage chunk) (chunk_x_groq chunk).

(** [completion.model_dump()] as plain data, for [Turn.json]. *)
Definition dump_opt_str (s : option string) : value :=
  match s with Some s => VStr s | None => VNone end.

Definition dump_function (f : Function) : value :=
  VDict {[ "name" := VStr (fn_name f); "arguments" := dump_opt_str (fn_arguments f) ]}.

Definition dump_tool_call (c : ToolCall) : value :=
  VDict {[ "id" := VStr (tc_id c);
           "function" := match tc_function c with
                         | Some f => dump_function f
                         | None => VNone
                         end ]}.

Definition dump_message (m : Message) : value :=
  VDict {[ "content" := dump_opt_str (content m);
           "tool_calls" := match tool_calls m with
                           | Some l => VList (map dump_tool_call l)
                           | None => VNone
                           end ]}.

Definition dump_usage (u : option Usage) : value :=
  match u with
  | Some u => VDict {[ "prompt_tokens" := VInt (prompt_tokens u);
                       "completion_tokens" := VInt (completion_tokens u) ]}
  | None => VNone
  end.

Definition dump_choice (c : Choice) : value :=
  let d : gmap string value :=
    {[ "finish_reason" := dump_opt_str (choice_finish_reason c) ]} in
  let d := match choice_delta c with
           | Some m => <["delta" := dump_message m]> d
           | None => d
           end in
  let d := match message c with
           | Some m => <["message" := dump_message m]> d
           | None => d
           end in
  VDict d.

Definition model_dump (completion : ChatCompletion) : value :=
  let d : gmap string value :=
    {[ "id" := VStr (completion_id completion);
       "choices" := VList (map dump_choice (choices completion));
       "created" := VInt (created completion);
       "model" := VStr (model completion);
       "object" := VStr (object completion);
       "usage" := dump_usage (usage completion) ]} in
  VDict match x_groq completion with
        | Some u => <["x_groq" := VDict {[ "usage" := dump_usage (Some u) ]}]> d
        | None => d
        end.

(** The [OpenAIProvider] object. *)
Record OpenAIProvider (Client : Type) : Type := mkProvider {
  _model : string;
  _seed : option Z;
  _client : Client
}.
Arguments mkProvider {Client} _ _ _.
Arguments _model {Client} _.
Arguments _seed {Client} _.
Arguments _client {Client} _.

Section Provider.

(** [json.loads]: the value of a document, or the exception it raises,
    [json.JSONDecodeError] with the parser's message on a malformed document,
    [RecursionError] on one nested too deep. *)
Variable json_loads : string -> result value.
(** [json.dumps] *)
Variable json_dumps : value -> string.
(** [ContentToolResult.get_final_value] of [chatlas/_content.py]. *)
Variable get_final_value : Content -> string.
(** [merge_dicts] of [chatlas/_merge.py]. *)
Variable merge_dicts : ChatCompletion -> ChatCompletion -> ChatCompletion.
(** The [openai] client: [client.chat.completions.create], without and with
    [stream=True]. *)
Variable Client : Type.
Variable create : gmap string value -> Client -> result ChatCompletion * Client.
Variable create_stream :
  gmap string value -> Client -> result (Stream ChatCompletionChunk) * Client.

(** [OpenAIProvider.stream_text] *)
Definition stream_text (chunk : ChatCompletionChunk) : option string :=
  match chunk_choices chunk with
  | [] => None
  | c0 :: _ => content (delta c0)
  end.

(** [OpenAIProvider.stream_merge_chunks] *)
Definition stream_merge_chunks (completion : option ChatCompletion)
    (chunk : ChatCompletionChunk) : ChatCompletion :=
  let chunkd := model_dump_chunk chunk in
  match completion with
  | None => chunkd
  | Some completion => merge_dicts completion chunkd
  end.

(** [json.loads(func.arguments) if func.arguments else {}] under
    [except json.JSONDecodeError]: the handler warns and leaves [args = {}];
    an exception of another class leaves the loop. *)
Definition tool_arguments (func : Function) : result value :=
  if truthy (fn_arguments func) then
    match json_loads (default "" (fn_arguments func)) with
    | Ok v => Ok v
    | Raise e => if is_instance "JSONDecodeError" e then Ok (VDict ∅) else Raise e
    end
  else Ok (VDict ∅).

(** The tool-call loop of [OpenAIProvider._as_turn]. *)
Fixpoint tool_requests_of (calls : list ToolCall) (contents : list Content)
  : result (list Content) :=
  match calls with
  | [] => Ok contents
  | call :: rest =>
      match tc_function call with
      | None => tool_requests_of rest contents
      | Some func =>
          match tool_arguments func with
          | Raise e => Raise e
          | Ok args =>
              tool_requests_of rest
                (contents ++ [ContentToolRequest (tc_id call) (fn_name func) args])
          end
      end
  end.

(** [OpenAIProvider._as_turn]; [tokens_log] feeds a global log and is left
    out. *)
Definition _as_turn (completion : ChatCompletion) (has_data_model : bool)
  : result Turn :=
  match choices completion with
  | [] => Raise (IndexError "list index out of range")
  | c0 :: _ =>
      match message c0 with
      | None =>
          Raise (Exception "AttributeError"
                   "'Choice' object has no attribute 'message'")
      | Some message =>
          let contents :=
            match content message with
            | Some text =>
                if has_data_model then
                  match json_loads text with
                  | Ok data => Ok [ContentJson data]
                  | Raise e => Raise e
                  end
                else Ok [ContentText text]
            | None => Ok []
            end in
          match contents with
          | Raise e => Raise e
          | Ok contents =>
              match
                match tool_calls message with
                | Some calls => tool_requests_of calls contents
                | None => Ok contents
                end
              with
              | Raise e => Raise e
              | Ok contents =>
              let tokens :=
                match usage completion with
                | None =>
                    match x_groq completion with
                    | Some u => (prompt_tokens u, completion_tokens u)
                    | None => (0, 0)%Z
                    end
                | Some u => (prompt_tokens u, completion_tokens u)
                end in
              Ok (mkTurn assistant contents (Some tokens)
                    (choice_finish_reason c0) (Some (model_dump completion)))
              end
          end
      end
  end.

(** [OpenAIProvider.stream_turn] *)
Definition stream_turn (completion : option ChatCompletion)
    (has_data_model : bool) (stream : Stream ChatCompletionChunk) : result Turn :=
  match completion with
  | None => Raise (TypeError "'NoneType' object is not subscriptable")
  | Some completion =>
      match choices completion with
      | [] => Raise (IndexError "list index out of range")
      | c0 :: rest =>
          match choice_delta c0 with
          | None => Raise (KeyError "'delta'")
          | Some delta =>
              let c0' := mkChoice None (Some delta) (choice_finish_reason c0) in
              _as_turn
                (mkCompletion (completion_id completion) (c0' :: rest)
                   (created completion) (model completion) (object completion)
                   (usage completion) (x_groq completion))
                has_data_model
          end
      end
  end.

(** [OpenAIProvider.value_turn] *)
Definition value_turn (completion : ChatCompletion) (has_data_model : bool)
  : result Turn :=
  _as_turn completion has_data_model.

(** [type(x)] as printed in the error messages of [_as_message_param]. *)
Definition type_repr (x : Content) : string :=
  "<class 'chatlas._content."
  +:+ match x with
      | ContentText _ => "ContentText"
      | ContentJson _ => "ContentJson"
      | ContentImageRemote _ => "ContentImageRemote"
      | ContentImageInline _ _ => "ContentImageInline"
      | ContentToolRequest _ _ _ => "ContentToolRequest"
      | ContentToolResult _ _ _ => "ContentToolResult"
      end
  +:+ "'>".

Definition text_part (s : string) : value :=
  VDict {[ "type" := VStr "text"; "text" := VStr s ]}.

(** The content loop of an assistant turn in [_as_message_param]. *)
Fixpoint assistant_parts (xs : list Content) (content_parts tool_calls : list value)
  : result (list value * list value) :=
  match xs with
  | [] => Ok (content_parts, tool_calls)
  | x :: rest =>
      match x with
      | ContentText s => assistant_parts rest (content_parts ++ [text_part s]) tool_calls
      | ContentJson _ => assistant_parts rest (content_parts ++ [text_part ""]) tool_calls
      | ContentToolRequest id name arguments =>
          assistant_parts rest content_parts
            (tool_calls ++
               [VDict {[ "id" := VStr id;
                         "function" :=
                           VDict {[ "name" := VStr name;
                                    "arguments" := VStr (json_dumps arguments) ]};
                         "type" := VStr "function" ]}])
      | _ =>
          Raise (ValueError ("Don't know how to handle content type "
                             +:+ type_repr x +:+ " for role='assistant'."))
      end
  end.

(** The content loop of a user turn in [_as_message_param]. *)
Fixpoint user_parts (xs : list Content) (contents tool_results : list value)
  : result (list value * list value) :=
  match xs with
  | [] => Ok (contents, tool_results)
  | x :: rest =>
      match x with
      | ContentText s => user_parts rest (contents ++ [text_part s]) tool_results
      | ContentJson _ => user_parts rest (contents ++ [text_part ""]) tool_results
      | ContentImageRemote url =>
          user_parts rest
            (contents ++
               [VDict {[ "type" := VStr "image_url";
                         "image_url" := VDict {[ "url" := VStr url ]} ]}])
            tool_results
      | ContentImageInline content_type data =>
          user_parts rest
            (contents ++
               [VDict {[ "type" := VStr "image_url";
                         "image_url" :=
                           VDict {[ "url" := VStr ("data:" +:+ content_type
                                                   +:+ ";base64," +:+ data) ]} ]}])
            tool_results
      | ContentToolResult id _ _ =>
          user_parts rest contents
            (tool_results ++
               [VDict {[ "content" := VStr (get_final_value x);
                         "tool_call_id" := VStr id;
                         "role" := VStr "tool" ]}])
      | _ =>
          Raise (ValueError ("Don't know how to handle content type "
                             +:+ type_repr x +:+ " for role='user'."))
      end
  end.

(** [OpenAIProvider._as_message_param]: the loop over the turns. *)
Fixpoint message_params (turns : list Turn) (res : list value)
  : result (list value) :=
  match turns with
  | [] => Ok res
  | turn :: rest =>
      match role turn with
      | system =>
          message_params rest
            (res ++ [VDict {[ "content" := VStr (text turn);
                              "role" := VStr "system" ]}])
      | assistant =>
          match assistant_parts (contents turn) [] [] with
          | Raise e => Raise e
          | Ok (content_parts, tool_calls) =>
              let args : gmap string value :=
                {[ "role" := VStr "assistant";
                   "content" := VList content_parts;
                   "tool_calls" := VList tool_calls ]} in
              let args := match content_parts with
                          | [] => delete "content" args
                          | _ => args
                          end in
              let args := match tool_calls with
                          | [] => delete "tool_calls" args
                          | _ => args
                          end in
              message_params rest (res ++ [VDict args])
          end
      | user =>
          match user_parts (contents turn) [] [] with
          | Raise e => Raise e
          | Ok (contents, tool_results) =>
              let res :=
                match contents with
                | [] => res
                | _ => res ++ [VDict {[ "content" := VList contents;
                                       "role" := VStr "user" ]}]
                end in
              message_params rest (res ++ tool_results)
          end
      end
  end.

Definition _as_message_param (turns : list Turn) : result (list value) :=
  message_params turns [].

(** [OpenAIProvider._chat_perform_args]; the parameter schema of the data
    model is the model's representation itself. *)
Definition _chat_perform_args (self : OpenAIProvider Client) (stream : bool)
    (turns : list Turn) (tools : dict Tool)
    (data_model : option BaseModel) (kwargs : option SubmitInputArgs)
  : result (gmap string value) :=
  let tool_schemas := map schema (dict_values tools) in
  match _as_message_param turns with
  | Raise e => Raise e
  | Ok messages =>
      let kwargs_full : gmap string value :=
        default ∅ kwargs ∪
        {[ "stream" := VBool stream;
           "messages" := VList messages;
           "model" := VStr (_model self);
           "seed" := match _seed self with Some z => VInt z | None => VNone end ]} in
      let kwargs_full :=
        match tool_schemas with
        | [] => kwargs_full
        | _ => <["tools" := VList tool_schemas]> kwargs_full
        end in
      let kwargs_full :=
        match data_model with
        | None => kwargs_full
        | Some params =>
            let params := <["additionalProperties" := VBool false]> params in
            delete "tools"
              (<["response_format" :=
                   VDict {[ "type" := VStr "json_schema";
                            "json_schema" :=
                              VDict {[ "name" := VStr "structured_data";
                                       "description" :=
                                         default (VStr "") (params !! "description");
                                       "schema" := VDict params;
                                       "strict" := VBool true ]} ]}]> kwargs_full)
        end in
      Ok (if stream && bool_decide (kwargs_full !! "stream_options" = None) then
            <["stream_options" := VDict {[ "include_usage" := VBool true ]}]>
              kwargs_full
          else kwargs_full)
  end.

(** [OpenAIProvider.chat_perform] with [stream=False] *)
Definition chat_perform (turns : list Turn) (tools : dict Tool)
    (data_model : option BaseModel) (kwargs : option SubmitInputArgs)
    (self : OpenAIProvider Client) : result ChatCompletion * OpenAIProvider Client :=
  match _chat_perform_args self false turns tools data_model kwargs with
  | Raise e => (Raise e, self)
  | Ok kwargs =>
      let rc := create kwargs (_client self) in
      (fst rc, mkProvider (_model self) (_seed self) (snd rc))
  end.

(** [OpenAIProvider.chat_perform] with [stream=True] *)
Definition chat_perform_stream (turns : list Turn) (tools : dict Tool)
    (data_model : option BaseModel) (kwargs : option SubmitInputArgs)
    (self : OpenAIProvider Client)
  : result (Stream ChatCompletionChunk) * OpenAIProvider Client :=
  match _chat_perform_args self true turns tools data_model kwargs with
  | Raise e => (Raise e, self)
  | Ok kwargs =>
      let rc := create_stream kwargs (_client self) in
      (fst rc, mkProvider (_model self) (_seed self) (snd rc))
  end.

Definition provider_instance :
  Provider (OpenAIProvider Client) ChatCompletion ChatCompletionChunk ChatCompletion :=
  Build_Provider _ _ _ _
    chat_perform chat_perform_stream stream_text stream_merge_chunks
    stream_turn value_turn.

End Provider.

End OpenAI.

(** ** Merging chunks ([chatlas/_merge.py]) *)

Module Merge.

Import OpenAI.

(** Modelled from the spec: [merge_dicts] of [chatlas/_merge.py] (absent
    from the sources), on the dictionary of a completion.  Section 4.1:
    scalar fields are overwritten by the later chunk; lists are merged
    positionally where both sides have an entry at the index, and the rest is
    appended; nested maps are merged key by key; a key absent on one side
    takes the value of the other; strings under keys that deliver text
    incrementally are concatenated: for this provider the content of a
    message and the arguments of a tool call.  A key that holds [None] is an
    absent key. *)
Definition merge_opt {A : Type} (merge : A -> A -> A) (left right : option A)
  : option A :=
  match left, right with
  | Some a, Some b => Some (merge a b)
  | Some a, None => Some a
  | None, _ => right
  end.

Fixpoint merge_lists {A : Type} (merge : A -> A -> A) (left right : list A)
  : list A :=
  match left, right with
  | a :: left', b :: right' => merge a b :: merge_lists merge left' right'
  | [], _ => right
  | _, [] => left
  end.

Definition overwrite {A : Type} (left right : A) : A := right.

Definition merge_function (left right : Function) : Function :=
  mkFunction (overwrite (fn_name left) (fn_name right))
    (merge_opt String.append (fn_arguments left) (fn_arguments right)).

Definition merge_tool_call (left right : ToolCall) : ToolCall :=
  mkToolCall (overwrite (tc_id left) (tc_id right))
    (merge_opt merge_function (tc_function left) (tc_function right)).

Definition merge_message (left right : Message) : Message :=
  mkMessage
    (merge_opt String.append (content left) (content right))
    (merge_opt (merge_lists merge_tool_call) (tool_calls left) (tool_calls right)).

Definition merge_choice (left right : Choice) : Choice :=
  mkChoice
    (merge_opt merge_message (choice_delta left) (choice_delta right))
    (merge_opt merge_message (message left) (message right))
    (merge_opt overwrite (choice_finish_reason left) (choice_finish_reason right)).

Definition merge_dicts (left right : ChatCompletion) : ChatCompletion :=
  mkCompletion
    (overwrite (completion_id left) (completion_id right))
    (merge_lists merge_choice (choices left) (choices right))
    (overwrite (created left) (created right))
    (overwrite (model left) (model right))
    (overwrite (object left) (object right))
    (merge_opt overwrite (usage left) (usage right))
    (merge_opt overwrite (x_groq left) (x_groq right)).

End Merge.

(** ** A scripted stub provider

    A test double of the provider contract: the [k]-th request (counting
    from 0) is answered from a script; the provider object is the number of
    requests served so far.  A completion is the turn itself; a streamed
    response is a sequence of turns, each a chunk, the last one received
    being the accumulated result. *)

Module Stub.

Record Script : Type := mkScript {
  answer : nat -> result Turn;
  answer_stream : nat -> result (Stream Turn)
}.

Definition stub_provider (s : Script) : Provider nat Turn Turn Turn :=
  Build_Provider nat Turn Turn Turn
    (fun _ _ _ _ k => (answer s k, S k))
    (fun _ _ _ _ k => (answer_stream s k, S k))
    (fun chunk => Some (text chunk))
    (fun _ chunk => chunk)
    (fun completion _ _ =>
       match completion with
       | Some t => Ok t
       | None => Raise (TypeError "no chunk received")
       end)
    (fun completion _ => Ok completion).

(** The script that answers the [k]-th request with [turns k]; streamed, the
    answer comes as one chunk. *)
Definition script_of (turns : nat -> Turn) : Script :=
  mkScript (fun k => Ok (turns k)) (fun k => Ok (SCons (turns k) SNil)).

End Stub.

(** ** Vocabulary of the properties *)

(** The history invariant: at most one system turn, and only at index 0. *)
Definition system_first (turns : list Turn) : Prop :=
  length (filter (fun t => role t = system) turns) <= 1 /\
  forall i t, turns !! i = Some t -> role t = system -> i = 0.

(** The tool requests of a turn, in the order of its contents. *)
Definition tool_requests (cs : list Content) : list (string * string * value) :=
  omap (fun x => match x with
                 | ContentToolRequest id name arguments => Some (id, name, arguments)
                 | _ => None
                 end) cs.

(** How [_invoke_tool] calls a tool with the arguments of a request: a dict
    is passed as keyword arguments, anything else as the one positional
    argument. *)
Definition call_args_of (arguments : value) : call_args :=
  match arguments with
  | VDict kw => Kwargs kw
  | _ => Positional arguments
  end.

(** Every registered tool whose call can raise is a callable with a
    [__name__]. *)
Definition errors_named (tools : dict Tool) : Prop :=
  forall tool a e,
    tool ∈ dict_values tools -> on_call (func tool) a = Raised e ->
    is_Some (func_name (func tool)).

(** [res] is the result of invoking the tool requested by [req]. *)
Definition answers (tools : dict Tool) (req : string * string * value)
    (res : Content) : Prop :=
  let '(id, name, arguments) := req in
  _invoke_tool (tool_func tools name) arguments id = Ok res.

(** The structured-data items of a turn: whether a content is one, and how
    many a list of contents holds. *)
Definition is_json (x : Content) : bool :=
  match x with ContentJson _ => true | _ => false end.

Definition count_json (cs : list Content) : nat :=
  length (List.filter is_json cs).

(** The history without its leading system turn. *)
Definition non_system_suffix (turns : list Turn) : list Turn :=
  match turns with
  | t0 :: rest => if is_system t0 then rest else turns
  | [] => []
  end.

(** The round trip through the history accessors: read the full history and
    the system prompt, set the non-system suffix, restore the prompt. *)
Definition history_round_trip {PS : Type} : M (Chat PS) unit :=
  c <- get ;;
  let full := get_turns true c in
  let prompt := system_prompt c in
  set_turns (non_system_suffix full) ;;
  set_system_prompt prompt.

(** The text yielded by a run, concatenated. *)
Definition concat_text (chunks : list string) : string :=
  foldr String.append "" chunks.

Section RoundVocabulary.

Context {PS Completion Chunk Dict : Type}.
Context {P : Provider PS Completion Chunk Dict}.

(** The text chunks that iterating a streamed response yields, up to its end
    or to the point where it raises. *)
Fixpoint stream_texts (s : Stream Chunk) : list string :=
  match s with
  | SCons chunk rest =>
      (if truthy (stream_text chunk) then [default "" (stream_text chunk)] else [])
      ++ stream_texts rest
  | _ => []
  end.

(** The accumulated result of a streamed response, or the exception that
    iterating it raises. *)
Fixpoint stream_result (s : Stream Chunk) (acc : option Dict)
  : result (option Dict) :=
  match s with
  | SNil => Ok acc
  | SRaise e => if is_instance "StopIteration" e then Ok acc else Raise e
  | SCons chunk rest => stream_result rest (Some (stream_merge_chunks acc chunk))
  end.

(** The provider object after the request of a round. *)
Definition round_provider (stream : bool) (U : Turn) (dm : option BaseModel)
    (kw : option SubmitInputArgs) (c : Chat PS) : PS :=
  if stream then
    snd (chat_perform_stream (_turns c ++ [U]) (_tools c) dm kw (provider c))
  else snd (chat_perform (_turns c ++ [U]) (_tools c) dm kw (provider c)).

(** The turn produced from the provider response of a round, or the
    exception raised by the request, by the iteration of the stream or by
    the conversion to a turn. *)
Definition round_turn (stream : bool) (U : Turn) (dm : option BaseModel)
    (kw : option SubmitInputArgs) (c : Chat PS) : result Turn :=
  if stream then
    match fst (chat_perform_stream (_turns c ++ [U]) (_tools c) dm kw (provider c)) with
    | Raise e => Raise e
    | Ok s =>
        match stream_result s None with
        | Raise e => Raise e
        | Ok d => stream_turn d (bool_decide (dm <> None)) s
        end
    end
  else
    match fst (chat_perform (_turns c ++ [U]) (_tools c) dm kw (provider c)) with
    | Raise e => Raise e
    | Ok response => value_turn response (bool_decide (dm <> None))
    end.

(** The text chunks yielded by a round. *)
Definition round_texts (stream : bool) (U : Turn) (dm : option BaseModel)
    (kw : option SubmitInputArgs) (c : Chat PS) : list string :=
  if stream then
    match fst (chat_perform_stream (_turns c ++ [U]) (_tools c) dm kw (provider c)) with
    | Raise e => []
    | Ok s => stream_texts s
    end
  else
    match round_turn false U dm kw c with
    | Ok A => if truthy (Some (text A)) then [text A] else []
    | Raise _ => []
    end.

(** The request of a round fails with [e]: [chat_perform] raises [e], or the
    iteration of the stream it returned raises [e]. *)
Definition request_fails (stream : bool) (U : Turn) (dm : option BaseModel)
    (kw : option SubmitInputArgs) (c : Chat PS) (e : exception) : Prop :=
  if stream then
    match fst (chat_perform_stream (_turns c ++ [U]) (_tools c) dm kw (provider c)) with
    | Raise e' => e' = e
    | Ok s => stream_result s None = Raise e
    end
  else
    fst (chat_perform (_turns c ++ [U]) (_tools c) dm kw (provider c)) = Raise e.

(** The entry checks of [_submit_turns] pass: no registered tool is async,
    and with [echo="all"] the submitted turn is a user turn. *)
Definition round_enters (U : Turn) (echo : Echo) (c : Chat PS) : Prop :=
  any_async (_tools c) = false /\ (echo = EchoAll -> role U = user).

(** A provider stub scripted for [N] tool rounds: whatever the request, it
    answers with an assistant turn, which holds tool requests on the first
    [N] requests and none on every request thereafter; [idx] reads from the
    provider object how many requests it has served. *)
Definition scripted (idx : PS -> nat) (N : nat) (stream : bool)
    (kw : option SubmitInputArgs) : Prop :=
  forall (c : Chat PS) (U : Turn),
    exists A,
      round_turn stream U None kw c = Ok A /\
      role A = assistant /\
      (tool_requests (contents A) = [] <-> N <= idx (provider c)) /\
      idx (round_provider stream U None kw c) = S (idx (provider c)).

End RoundVocabulary.


(** ** Vocabulary of the streaming equivalence *)

(** The text content of a completion. *)
Definition response_text (R : OpenAI.ChatCompletion) : string :=
  match OpenAI.choices R with
  | c0 :: _ =>
      match OpenAI.message c0 with
      | Some m => default "" (OpenAI.content m)
      | None => ""
      end
  | [] => ""
  end.

(** The answer [R] of the service to a request holds one choice, with a
    message, and the text pieces [pieces] make up the content of that
    message: they concatenate to it, and there is none when the message has
    no content. *)
Definition delivers (R : OpenAI.ChatCompletion) (pieces : list string) : Prop :=
  exists c0 m,
    OpenAI.choices R = [c0] /\
    OpenAI.choice_delta c0 = None /\
    OpenAI.message c0 = Some m /\
    match OpenAI.content m with
    | Some s => s = concat_text pieces
    | None => pieces = []
    end.

(** A chunk of the streamed answer: the identifier, creation time and model
    of [R], the object kind of a chunk, one choice. *)
Definition chunk_of (R : OpenAI.ChatCompletion) (delta : OpenAI.Message)
    (finish_reason : option string) : OpenAI.ChatCompletionChunk :=
  OpenAI.mkChunk (OpenAI.completion_id R)
    [OpenAI.mkChunkChoice delta finish_reason]
    (OpenAI.created R) (OpenAI.model R) "chat.completion.chunk" None None.

(** The content of [R] as the service streams it: an opening chunk with the
    tool calls and, when the message has a content, an empty text; one chunk
    per text piece; a chunk with the finish reason; and, as the request asks
    with [include_usage], a last chunk without choices that carries the
    usage. *)
Definition streamed (R : OpenAI.ChatCompletion) (pieces : list string)
  : list OpenAI.ChatCompletionChunk :=
  match OpenAI.choices R with
  | c0 :: _ =>
      match OpenAI.message c0 with
      | Some m =>
          chunk_of R
            (OpenAI.mkMessage
               (match OpenAI.content m with Some _ => Some "" | None => None end)
               (OpenAI.tool_calls m))
            None
          :: map (fun p => chunk_of R (OpenAI.mkMessage (Some p) None) None) pieces
          ++ [chunk_of R (OpenAI.mkMessage None None) (OpenAI.choice_finish_reason c0);
              OpenAI.mkChunk (OpenAI.completion_id R) []
                (OpenAI.created R) (OpenAI.model R) "chat.completion.chunk"
                (OpenAI.usage R) (OpenAI.x_groq R)]
      | None => []
      end
  | [] => []
  end.

(** The payload of [R] with the object kind of a chunk: what the chunks of
    [streamed R pieces] accumulate to, once [stream_turn] has moved the delta
    of the first choice under the key ["message"]. *)
Definition as_chunk_payload (R : OpenAI.ChatCompletion) : OpenAI.ChatCompletion :=
  OpenAI.mkCompletion (OpenAI.completion_id R) (OpenAI.choices R)
    (OpenAI.created R) (OpenAI.model R) "chat.completion.chunk"
    (OpenAI.usage R) (OpenAI.x_groq R).

(** The dictionary accumulated from the chunks of [R] seen so far: one
    choice, whose delta holds the content and the tool calls. *)
Definition accumulated (R : OpenAI.ChatCompletion) (content : option string)
    (tool_calls : option (list OpenAI.ToolCall)) (finish_reason : option string)
    (usage x_groq : option OpenAI.Usage) : OpenAI.ChatCompletion :=
  OpenAI.mkCompletion (OpenAI.completion_id R)
    [OpenAI.mkChoice (Some (OpenAI.mkMessage content tool_calls)) None finish_reason]
    (OpenAI.created R) (OpenAI.model R) "chat.completion.chunk" usage x_groq.

(** The turn [t] with another raw payload. *)
Definition with_json (t : Turn) (payload : option value) : Turn :=
  mkTurn (role t) (contents t) (tokens t) (finish_reason t) payload.

(** ** Further methods of the Chat object *)

(** [Chat.token_usage] *)
Definition token_usage {PS : Type} (c : Chat PS) : Z * Z :=
  match get_last_turn assistant c with
  | None => (0, 0)%Z
  | Some turn => default (0, 0)%Z (tokens turn)
  end.

(** [Chat.register_tool], from the tool object on: [self._tools[tool.name] =
    tool]. *)
Definition register_tool {PS : Type} (tool : Tool) : M (Chat PS) unit :=
  modify (fun c => mkChat (provider c) (_turns c) (<[name tool := tool]> (_tools c))).

(** [ChatResponse.get_content]: the chunks of the generator, accumulated in
    [self.content] by [__next__]. *)
Definition get_content (chunks : list string) : string :=
  fold_left (fun content chunk => content +:+ chunk) chunks "".

(** ** Vocabulary of the further properties *)

Definition is_tool_result (x : Content) : bool :=
  match x with ContentToolResult _ _ _ => true | _ => false end.

Definition result_id (x : Content) : option string :=
  match x with ContentToolResult id _ _ => Some id | _ => None end.

(** A turn as [_invoke_tools] builds it: a user turn made of tool results,
    at least one. *)
Definition tool_turn (u : Turn) : Prop :=
  exists results,
    u = Turn_of_contents user results /\ results <> [] /\
    forallb is_tool_result results = true.

(** The turns that a sequence of completed rounds appends: per round the
    submitted turn, then the answer. *)
Definition rounds_turns (rounds : list (Turn * Turn)) : list Turn :=
  flat_map (fun p => [p.1; p.2]) rounds.

(** The text that an unstreamed round yields for the answer [A]. *)
Definition answer_texts (A : Turn) : list string :=
  if truthy (Some (text A)) then [text A] else [].

(** The contents that [_as_message_param] handles in a turn of role [r]. *)
Definition sendable_content (r : Role) (x : Content) : bool :=
  match r, x with
  | system, _ => true
  | assistant, (ContentText _ | ContentJson _ | ContentToolRequest _ _ _) => true
  | user, (ContentText _ | ContentJson _ | ContentImageRemote _
           | ContentImageInline _ _ | ContentToolResult _ _ _) => true
  | _, _ => false
  end.

Definition sendable (t : Turn) : bool :=
  forallb (sendable_content (role t)) (contents t).

(** The exception that reaches the caller of a generator whose body raises
    [e]: a [StopIteration] arrives as a [RuntimeError]. *)
Definition out_of_generator (e : exception) : exception :=
  match e with
  | Exception cls _ =>
      if bool_decide (cls = "StopIteration")
      then Exception "RuntimeError" "generator raised StopIteration"
      else e
  end.

(** The content item of a tool request. *)
Definition request_content (req : string * string * value) : Content :=
  ContentToolRequest req.1.1 req.1.2 req.2.

(** [req] is the tool request that [_as_turn] makes of the tool call
    [call]: the id of the call, the name of its function, and as arguments
    the parsed JSON text of the call, or an empty dict when that text is
    absent or empty, or when the parser raises [JSONDecodeError] on it. *)
Definition requested_by (json_loads : string -> result value)
    (call : OpenAI.ToolCall) (req : string * string * value) : Prop :=
  exists f,
    OpenAI.tc_function call = Some f /\
    req.1.1 = OpenAI.tc_id call /\
    req.1.2 = OpenAI.fn_name f /\
    match OpenAI.fn_arguments f with
    | Some (String a s) =>
        match json_loads (String a s) with
        | Ok v => req.2 = v
        | Raise (Exception cls _) => cls = "JSONDecodeError" /\ req.2 = VDict ∅
        end
    | _ => req.2 = VDict ∅
    end.

(** On the arguments of every tool call of the message, the parser returns
    or raises [JSONDecodeError]. *)
Definition arguments_decodable (json_loads : string -> result value)
    (m : OpenAI.Message) : Prop :=
  forall calls call f a s cls msg,
    OpenAI.tool_calls m = Some calls -> call ∈ calls ->
    OpenAI.tc_function call = Some f ->
    OpenAI.fn_arguments f = Some (String a s) ->
    json_loads (String a s) = Raise (Exception cls msg) ->
    cls = "JSONDecodeError".

(** The tools of a chat after the registration of [tools], the first one
    first. *)
Definition registrations (tools : list Tool) : dict Tool :=
  fold_left (fun d tool => <[name tool := tool]> d) tools ∅.

(** The token counts that [_as_turn] reads from a completion. *)
Definition completion_tokens_of (R : OpenAI.ChatCompletion) : Z * Z :=
  match OpenAI.usage R, OpenAI.x_groq R with
  | Some u, _ => (OpenAI.prompt_tokens u, OpenAI.completion_tokens u)
  | None, Some u => (OpenAI.prompt_tokens u, OpenAI.completion_tokens u)
  | None, None => (0, 0)%Z
  end.

(** ** Tool schemas ([chatlas/_tools.py]) *)

(** An object met where a type annotation is expected, as [get_origin],
    [get_args], [is_typeddict] and the identity tests of
    [type_to_json_schema] tell them apart: [Annotated[...]], [list[...]] and
    [dict[...]] with their arguments, a [TypedDict] class, given by its
    name, the seven plain classes, a [str] value (the metadata of an
    [Annotated]), and any other object, with its [str()].  The type hints of
    a [TypedDict] class are not part of the object: [get_type_hints]
    computes them, and a class may occur in its own hints. *)
Inductive pyobj : Type :=
  | Annotated (args : list pyobj)
  | ListOf (args : list pyobj)
  | DictOf (args : list pyobj)
  | TypedDictClass (cls : string)
  | DictClass
  | ListClass
  | StrClass
  | IntClass
  | FloatClass
  | BoolClass
  | NoneTypeClass
  | StrValue (s : string)
  | OtherObject (str : string).

Definition RecursionError : exception :=
  Exception "RecursionError" "maximum recursion depth exceeded".

(** [x or y] on strings: [y] when [x] is [None] or empty. *)
Definition or_str (x : option string) (y : string) : string :=
  if truthy x then default "" x else y.

Definition or_else (x y : option string) : option string :=
  if truthy x then x else y.

(** [type_dict]; [description or ""] *)
Definition type_dict (type_ : string) (description : option string)
    (kwargs : gmap string value) : value :=
  VDict (kwargs ∪
         {[ "type" := VStr type_;
            "description" := VStr (or_str description "") ]}).

(** [inspect.Parameter.kind] *)
Inductive ParameterKind : Type :=
  | POSITIONAL_ONLY
  | POSITIONAL_OR_KEYWORD
  | VAR_POSITIONAL
  | KEYWORD_ONLY
  | VAR_KEYWORD.

(** A parameter of [inspect.signature(func)]: its name, whether it has a
    default, its kind. *)
Record Param : Type := mkParam {
  param_name : string;
  has_default : bool;
  kind : ParameterKind
}.

(** A Python function as [func_to_schema] and [ToolDef] inspect it: what
    calling it does, whether it is a coroutine function, its [__name__] and
    [__doc__], the parameters of its signature in order, and its type hints
    ([get_type_hints(func, include_extras=True)]) in order. *)
Record Callable : Type := mkCallable {
  call : call_args -> call_outcome;
  is_async_callable : bool;
  __name__ : string;
  __doc__ : option string;
  parameters : list Param;
  annotations : list (string * pyobj)
}.

(** The loop that collects [required]. *)
Definition is_required (param : Param) : bool :=
  negb (has_default param) &&
  match kind param with
  | VAR_POSITIONAL | VAR_KEYWORD => false
  | _ => true
  end.

Definition required_names (params : list Param) : list string :=
  param_name <$> List.filter is_required params.

Section Schemas.

(** [get_type_hints(t, include_extras=True)] on the [TypedDict] class of
    that name: its hints in order, or the exception raised ([NameError] for a
    forward reference that does not resolve). *)
Variable get_type_hints : string -> result (list (string * pyobj)).

(** [type_to_json_schema].  The function calls itself on the parts of [t],
    and on the hints of a [TypedDict] class, which may lead back to the
    class: [depth] is the number of nested calls that the recursion limit of
    the interpreter leaves room for, and the call that exceeds it raises
    [RecursionError]. *)
Fixpoint type_to_json_schema (depth : nat) (t : pyobj) (desc : option string)
    {struct depth} : result value :=
  match depth with
  | 0 => Raise RecursionError
  | S depth =>
      match t with
      | Annotated args =>
          match args with
          | [a0; a1] =>
              if truthy desc then Raise AssertionError
              else
                match a1 with
                | StrValue s => type_to_json_schema depth a0 (Some s)
                | _ => Raise AssertionError
                end
          | _ => Raise AssertionError
          end
      | ListOf args =>
          match args with
          | [a0] =>
              match type_to_json_schema depth a0 None with
              | Ok items => Ok (type_dict "array" desc {[ "items" := items ]})
              | Raise e => Raise e
              end
          | _ => Raise AssertionError
          end
      | DictOf args =>
          match args with
          | [a0; a1] =>
              match a0 with
              | StrClass =>
                  match type_to_json_schema depth a1 None with
                  | Ok schema =>
                      Ok (type_dict "object" desc {[ "additionalProperties" := schema ]})
                  | Raise e => Raise e
                  end
              | _ => Raise AssertionError
              end
          | _ => Raise AssertionError
          end
      | TypedDictClass cls =>
          match get_type_hints cls with
          | Raise e => Raise e
          | Ok annotations =>
              match
                (fix properties (items : list (string * pyobj))
                     (acc : gmap string value) : result (gmap string value) :=
                   match items with
                   | [] => Ok acc
                   | (k, v) :: rest =>
                       match type_to_json_schema depth v None with
                       | Ok schema => properties rest (<[k := schema]> acc)
                       | Raise e => Raise e
                       end
                   end) annotations ∅
              with
              | Ok properties =>
                  Ok (type_dict "object" desc {[ "properties" := VDict properties ]})
              | Raise e => Raise e
              end
          end
      | DictClass => Ok (type_dict "object" desc ∅)
      | ListClass => Ok (type_dict "array" desc ∅)
      | StrClass => Ok (type_dict "string" desc ∅)
      | IntClass => Ok (type_dict "integer" desc ∅)
      | FloatClass => Ok (type_dict "number" desc ∅)
      | BoolClass => Ok (type_dict "boolean" desc ∅)
      | NoneTypeClass => Ok (type_dict "null" desc ∅)
      | StrValue s => Raise (ValueError ("Unsupported type: " +:+ s))
      | OtherObject str => Raise (ValueError ("Unsupported type: " +:+ str))
      end
  end.

(** The dict comprehension of ["properties"]. *)
Fixpoint schema_properties (depth : nat) (items : list (string * pyobj))
    (param_desc : gmap string string) (acc : gmap string value)
  : result (gmap string value) :=
  match items with
  | [] => Ok acc
  | (k, v) :: rest =>
      if bool_decide (k <> "return") then
        match type_to_json_schema depth v (param_desc !! k) with
        | Ok schema => schema_properties depth rest param_desc (<[k := schema]> acc)
        | Raise e => Raise e
        end
      else schema_properties depth rest param_desc acc
  end.

(** [func_to_schema] *)
Definition func_to_schema (depth : nat) (func : Callable)
    (name description : option string)
    (parameter_descriptions : option (gmap string string)) : result value :=
  let required := required_names (parameters func) in
  let param_desc := default ∅ parameter_descriptions in
  match schema_properties depth (annotations func) param_desc ∅ with
  | Raise e => Raise e
  | Ok properties =>
      let params : gmap string value :=
        {[ "type" := VStr "object";
           "properties" := VDict properties;
           "required" := VList (VStr <$> required) ]} in
      let desc := or_else description (__doc__ func) in
      Ok (VDict
            {[ "type" := VStr "function";
               "function" :=
                 VDict {[ "name" := VStr (or_str name (__name__ func));
                          "description" := VStr (or_str desc "");
                          "parameters" := VDict params ]} ]})
  end.

(** [ToolDef.__init__]; [self.name = self.schema["function"]["name"]] *)
Definition ToolDef (depth : nat) (tool : Callable) (name description : option string)
    (parameter_descriptions : option (gmap string string)) : result Tool :=
  match func_to_schema depth tool name description parameter_descriptions with
  | Raise e => Raise e
  | Ok schema =>
      match schema with
      | VDict d =>
          match d !! "function" with
          | Some (VDict f) =>
              match f !! "name" with
              | Some (VStr nm) =>
                  Ok (mkTool
                        (mkToolFunc (call tool) (Some (__name__ tool)) "function")
                        (is_async_callable tool) schema nm)
              | Some _ => Raise (TypeError "name")
              | None => Raise (KeyError "'name'")
              end
          | Some _ => Raise (TypeError "function")
          | None => Raise (KeyError "'function'")
          end
      | _ => Raise (TypeError "schema")
      end
  end.

(** The annotations that [depth] nested calls turn into a schema: the seven
    plain classes, [list[T]], [dict[str, T]], [Annotated[T, "..."]] over a
    [T] that is not itself [Annotated], and the [TypedDict] classes whose
    hints resolve to such annotations. *)
Fixpoint supported (depth : nat) (t : pyobj) {struct depth} : bool :=
  match depth with
  | 0 => false
  | S depth =>
      match t with
      | Annotated [a; StrValue _] =>
          match a with
          | Annotated _ => false
          | _ => supported depth a
          end
      | ListOf [a] => supported depth a
      | DictOf [StrClass; a] => supported depth a
      | TypedDictClass cls =>
          match get_type_hints cls with
          | Ok annotations => forallb (fun kv => supported depth kv.2) annotations
          | Raise _ => false
          end
      | DictClass | ListClass | StrClass | IntClass | FloatClass | BoolClass
      | NoneTypeClass => true
      | _ => false
      end
  end.

End Schemas.

(** A [ToolSchemaProperty]: a dict with a JSON type name under "type" and
    a string under "description". *)
Definition json_type_names : list string :=
  ["object"; "array"; "string"; "integer"; "number"; "boolean"; "null"].

Definition schema_property (v : value) : Prop :=
  exists d ty descr,
    v = VDict d /\ d !! "type" = Some (VStr ty) /\ ty ∈ json_type_names /\
    d !! "description" = Some (VStr descr).

(** ** Example inputs *)

(** A chat whose system turn carries two text contents, and one whose system
    turn carries token counts. *)
Definition two_part_system_chat : Chat unit :=
  mkChat tt
    [mkTurn system [ContentText "Be terse."; ContentText " Reply in French."]
       None None None;
     Turn_of_str user "Hello"]
    ∅.

Definition counted_system_chat : Chat unit :=
  mkChat tt [mkTurn system [ContentText "Be terse."] (Some (3, 0)%Z) None None] ∅.

(** A tool that returns its positional argument, registered as async. *)
Definition async_echo_tool : Tool :=
  mkTool
    (mkToolFunc
       (fun a => match a with
                 | Positional v => Returned v
                 | Kwargs kw => Returned (VDict kw)
                 end)
       (Some "echo") "function")
    true (VDict ∅) "echo".

(** [functools.partial(operator.floordiv, 1)]: a callable object without a
    [__name__], which raises [ZeroDivisionError] when called with [0]. *)
Definition partial_floordiv : ToolFunc :=
  mkToolFunc
    (fun a => match a with
              | Positional (VInt z) =>
                  if bool_decide (z = 0%Z) then
                    Raised (Exception "ZeroDivisionError"
                              "integer division or modulo by zero")
                  else Returned (VInt (1 / z))
              | Positional _ =>
                  Raised (TypeError "unsupported operand type(s) for //")
              | Kwargs _ =>
                  Raised (TypeError "floordiv() takes no keyword arguments")
              end)
    None "functools.partial".

(** A chat over the stub provider whose tool "inverse" is that object, and
    whose last assistant turn requests it with the argument [0]. *)
Definition nameless_tool_chat : Chat nat :=
  mkChat 0
    [Turn_of_str user "Invert 0";
     Turn_of_contents assistant [ContentToolRequest "call_1" "inverse" (VInt 0)]]
    {[ "inverse" := mkTool partial_floordiv false (VDict ∅) "inverse" ]}.

(** [def lookup(key): raise KeyError(key)] registered as "lookup", and
    [def weather(city): return "sunny"] registered as "weather". *)
Definition lookup_tool : Tool :=
  mkTool
    (mkToolFunc (fun _ => Raised (KeyError "'missing'")) (Some "lookup") "function")
    false (VDict ∅) "lookup".

Definition sunny_tool : Tool :=
  mkTool
    (mkToolFunc (fun _ => Returned (VStr "sunny")) (Some "weather") "function")
    false (VDict ∅) "weather".

(** A chat over the stub provider with these two tools, whose last assistant
    turn requests both and a tool that is not registered. *)
Definition three_requests_chat : Chat nat :=
  mkChat 0
    [Turn_of_str user "Weather?";
     Turn_of_contents assistant
       [ContentText "Let me check.";
        ContentToolRequest "call_1" "weather" (VDict {[ "city" := VStr "Paris" ]});
        ContentToolRequest "call_2" "lookup" (VStr "Paris");
        ContentToolRequest "call_3" "time" VNone]]
    (<["weather" := sunny_tool]> {[ "lookup" := lookup_tool ]}).

(** A stub that serves its answers with [next()] from an iterator that is
    exhausted: the request raises [StopIteration]. *)
Definition exhausted_script : Stub.Script :=
  Stub.mkScript (fun _ => Raise StopIteration) (fun _ => Raise StopIteration).

(** A script with one tool round that requests "inverse" with the argument
    [0], and a chat over the stub provider with no history and that tool. *)
Definition inverse_round (k : nat) : Turn :=
  match k with
  | 0 => Turn_of_contents assistant [ContentToolRequest "call_1" "inverse" (VInt 0)]
  | _ => Turn_of_str assistant "Done."
  end.

Definition nameless_tool_start : Chat nat :=
  mkChat 0 [] {[ "inverse" := mkTool partial_floordiv false (VDict ∅) "inverse" ]}.

(** A chat over the stub provider, with no history and one async tool. *)
Definition async_tool_chat : Chat nat :=
  mkChat 0 [] {[ "echo" := async_echo_tool ]}.

(** A script with one tool round: the first answer requests the tool
    "lookup", every later answer is plain text. *)
Definition one_tool_round (k : nat) : Turn :=
  match k with
  | 0 => Turn_of_contents assistant [ContentToolRequest "call_1" "lookup" (VDict ∅)]
  | _ => Turn_of_str assistant "Done."
  end.

(** A stub script whose streamed answer delivers one chunk and then fails,
    and whose plain answer fails at once. *)
Definition connection_error : exception :=
  Exception "APIConnectionError" "Connection error.".

Definition failing_script : Stub.Script :=
  Stub.mkScript
    (fun _ => Raise connection_error)
    (fun _ => Ok (SCons (Turn_of_str assistant "Hel") (SRaise connection_error))).

(** A chat over the stub provider with one earlier exchange. *)
Definition greeted_chat : Chat nat :=
  mkChat 0 [Turn_of_str user "Hi"; Turn_of_str assistant "Hello"] ∅.

(** A chat whose last assistant turn holds text and two tool requests. *)
Definition two_requests_chat : Chat nat :=
  mkChat 0
    [Turn_of_str user "Weather?";
     Turn_of_contents assistant
       [ContentText "Let me check.";
        ContentToolRequest "call_1" "weather" (VDict {[ "city" := VStr "Paris" ]});
        ContentToolRequest "call_2" "time" VNone]]
    ∅.

(** A stub script that answers with one structured-data item. *)
Definition extraction_script : Stub.Script :=
  Stub.script_of
    (fun _ => Turn_of_contents assistant
                [ContentJson (VDict {[ "name" := VStr "Ada"; "age" := VInt 36 ]})]).

(** A stand-in for the OpenAI service: a client that answers every request
    with the same completion, streamed as the given chunks.  The JSON codec
    stand-ins read every text as a JSON string and print nothing. *)
Module Fixture.

Definition json_loads (s : string) : result value := Ok (VStr s).
Definition json_dumps (v : value) : string := "".
Definition get_final_value (x : Content) : string := "".

Definition create (completion : OpenAI.ChatCompletion) (kwargs : gmap string value)
    (client : unit) : result OpenAI.ChatCompletion * unit :=
  (Ok completion, client).

Definition create_stream (chunks : list OpenAI.ChatCompletionChunk)
    (kwargs : gmap string value) (client : unit)
  : result (Stream OpenAI.ChatCompletionChunk) * unit :=
  (Ok (foldr SCons SNil chunks), client).

(** The provider contract of an [OpenAIProvider] over this client. *)
Definition provider (completion : OpenAI.ChatCompletion)
    (chunks : list OpenAI.ChatCompletionChunk)
  : Provider (OpenAI.OpenAIProvider unit) OpenAI.ChatCompletion
      OpenAI.ChatCompletionChunk OpenAI.ChatCompletion :=
  OpenAI.provider_instance json_loads json_dumps get_final_value
    Merge.merge_dicts unit (create completion) (create_stream chunks).

(** A plain text completion, and the same content streamed in two text
    pieces. *)
Definition hello : OpenAI.ChatCompletion :=
  OpenAI.mkCompletion "chatcmpl-1"
    [OpenAI.mkChoice None (Some (OpenAI.mkMessage (Some "Hello there") None))
       (Some "stop")]
    1700000000 "gpt-4o-mini" "chat.completion"
    (Some (OpenAI.mkUsage 9 2)) None.

Definition hello_chunks : list OpenAI.ChatCompletionChunk :=
  streamed hello ["Hello"; " there"].

(** A chat with a system prompt over this client. *)
Definition chat0 : Chat (OpenAI.OpenAIProvider unit) :=
  mkChat (OpenAI.mkProvider "gpt-4o-mini" None tt)
    [Turn_of_str system "Be terse."] ∅.

End Fixture.

(** A completion carrying structured data as JSON text, and the same content
    as one chunk. *)
Definition json_answer : OpenAI.ChatCompletion :=
  OpenAI.mkCompletion "chatcmpl-2"
    [OpenAI.mkChoice None (Some (OpenAI.mkMessage (Some "[1, 2]") None))
       (Some "stop")]
    1700000001 "gpt-4o-mini" "chat.completion"
    (Some (OpenAI.mkUsage 12 4)) None.

Definition json_answer_chunk : OpenAI.ChatCompletionChunk :=
  OpenAI.mkChunk "chatcmpl-2"
    [OpenAI.mkChunkChoice (OpenAI.mkMessage (Some "[1, 2]") None) (Some "stop")]
    1700000001 "gpt-4o-mini" "chat.completion.chunk"
    (Some (OpenAI.mkUsage 12 4)) None.

(** A stand-in for [json.loads] on the documents of the examples: the list
    "[1, 2]"; a malformed object, on which the parser raises
    [JSONDecodeError] with its own message; [deep_json], which stands for a
    document nested deeper than the recursion limit, on which it raises
    [RecursionError]; on every other text it raises [JSONDecodeError]. *)
Definition deep_json : string := "[[[[[[[[[[[[[[[[".

Definition example_loads (s : string) : result value :=
  if bool_decide (s = "[1, 2]") then Ok (VList [VInt 1; VInt 2])
  else if bool_decide (s = "{city: Paris") then
    Raise (JSONDecodeError
             "Expecting property name enclosed in double quotes: line 1 column 2 (char 1)")
  else if bool_decide (s = deep_json) then
    Raise (Exception "RecursionError"
             "maximum recursion depth exceeded while decoding a JSON array from a unicode string")
  else Raise (JSONDecodeError "Expecting value: line 1 column 1 (char 0)").

(** A completion whose text is the malformed object. *)
Definition malformed_answer : OpenAI.ChatCompletion :=
  OpenAI.mkCompletion "chatcmpl-4"
    [OpenAI.mkChoice None (Some (OpenAI.mkMessage (Some "{city: Paris") None))
       (Some "stop")]
    1700000003 "gpt-4o-mini" "chat.completion"
    (Some (OpenAI.mkUsage 12 4)) None.

(** Two tools with schemas that tell them apart, "zeta" registered before
    "alpha". *)
Definition zeta_tool : Tool :=
  mkTool (mkToolFunc (fun _ => Returned VNone) (Some "zeta") "function")
    false (VDict {[ "name" := VStr "zeta" ]}) "zeta".

Definition alpha_tool : Tool :=
  mkTool (mkToolFunc (fun _ => Returned VNone) (Some "alpha") "function")
    false (VDict {[ "name" := VStr "alpha" ]}) "alpha".

(** [def weather(city: Annotated[str, "The city"], days: list[int] = ...,
    *extra, units) -> dict], with the docstring "Forecast." *)
Definition weather_function : Callable :=
  mkCallable (fun _ => Returned VNone) false "weather" (Some "Forecast.")
    [mkParam "city" false POSITIONAL_OR_KEYWORD;
     mkParam "days" true POSITIONAL_OR_KEYWORD;
     mkParam "extra" false VAR_POSITIONAL;
     mkParam "units" false KEYWORD_ONLY]
    [("city", Annotated [StrClass; StrValue "The city"]);
     ("days", ListOf [IntClass]);
     ("return", DictClass)].

(** The [TypedDict] classes of the examples: [class Place(TypedDict): city:
    str; zip: int], the self-referential [class Node(TypedDict): label: str;
    children: list["Node"]], and [class Broken(TypedDict): owner: "Missing"],
    whose hint names nothing. *)
Definition example_hints (cls : string) : result (list (string * pyobj)) :=
  if bool_decide (cls = "Place") then
    Ok [("city", StrClass); ("zip", IntClass)]
  else if bool_decide (cls = "Node") then
    Ok [("label", StrClass); ("children", ListOf [TypedDictClass "Node"])]
  else Raise (Exception "NameError" "name 'Missing' is not defined").

(** The schema of [weather_function]. *)
Definition weather_schema : value :=
  VDict
    {[ "type" := VStr "function";
       "function" :=
         VDict
           {[ "name" := VStr "weather";
              "description" := VStr "Forecast.";
              "parameters" :=
                VDict
                  {[ "type" := VStr "object";
                     "properties" :=
                       VDict
                         {[ "city" :=
                              VDict {[ "type" := VStr "string";
                                       "description" := VStr "The city" ]};
                            "days" :=
                              VDict {[ "type" := VStr "array";
                                       "description" := VStr "";
                                       "items" :=
                                         VDict {[ "type" := VStr "integer";
                                                  "description" := VStr "" ]} ]} ]};
                     "required" := VList [VStr "city"; VStr "units"] ]} ]} ]}.

(** A chat over the OpenAI stand-in whose history holds an assistant turn
    with an image, which no assistant message can carry. *)
Definition image_answer_chat : Chat (OpenAI.OpenAIProvider unit) :=
  mkChat (OpenAI.mkProvider "gpt-4o-mini" None tt)
    [Turn_of_str user "Draw a cat";
     Turn_of_contents assistant [ContentImageRemote "https://example.com/cat.png"]]
    ∅.

(** A completion with two tool calls, the second without a function, the
    first with arguments that are not JSON for the parser used with it. *)
Definition tool_call_answer : OpenAI.ChatCompletion :=
  OpenAI.mkCompletion "chatcmpl-3"
    [OpenAI.mkChoice None
       (Some (OpenAI.mkMessage None
                (Some [OpenAI.mkToolCall "call_1"
                         (Some (OpenAI.mkFunction "weather" (Some "{city: Paris")));
                       OpenAI.mkToolCall "call_2" None])))
       (Some "tool_calls")]
    1700000002 "llama-3.1-8b-instant" "chat.completion"
    None (Some (OpenAI.mkUsage 20 7)).

(** * Properties *)

(** ** History accessors *)

Section HistoryFacts.

Context {PS : Type}.
Implicit Types (c : Chat PS) (turns : list Turn) (t : Turn).

Lemma is_system_true t : is_system t = true <-> role t = system.
Proof. unfold is_system. apply bool_decide_eq_true. Qed.

Lemma is_system_false t : is_system t = false <-> role t <> system.
Proof. unfold is_system. apply bool_decide_eq_false. Qed.

Lemma existsb_is_system turns :
  existsb is_system turns = true <-> exists t, t ∈ turns /\ role t = system.
Proof.
  rewrite existsb_exists. split.
  - intros (t & Hin & Hs). exists t. split; [by apply list_elem_of_In|].
    by apply is_system_true.
  - intros (t & Hin & Hs). exists t. split; [by apply list_elem_of_In|].
    by apply is_system_true.
Qed.

(** The index found by the search is the first one with a system turn. *)
Lemma first_system_from_Some i turns k :
  first_system_from i turns = Some k ->
  exists j, k = i + j /\
    (exists t, turns !! j = Some t /\ role t = system) /\
    (forall j' t, j' < j -> turns !! j' = Some t -> role t <> system).
Proof.
  revert i. induction turns as [|x rest IH]; intros i; simpl; [done|].
  destruct (is_system x) eqn:Hx.
  - intros [= <-]. exists 0. split; [lia|]. split.
    + exists x. split; [done|]. by apply is_system_true.
    + intros j' t Hlt. lia.
  - intros Hk. destruct (IH _ Hk) as (j & -> & (t & Ht & Hs) & Hmin).
    exists (S j). split; [lia|]. split.
    + by exists t.
    + intros [|j'] t' Hlt; simpl.
      * intros [= <-]. by apply is_system_false.
      * apply Hmin. lia.
Qed.

Lemma first_system_from_None i turns :
  first_system_from i turns = None -> existsb is_system turns = false.
Proof.
  revert i. induction turns as [|x rest IH]; intros i; simpl; [done|].
  destruct (is_system x); [done|]. apply IH.
Qed.

(** C6.  [set_turns] raises if and only if the given sequence contains a
    turn with role system; the exception is the [ValueError] whose message
    starts with "Turn", the index of the first such turn in decimal, and
    "has a role 'system', which is not allowed.", and the chat is then left
    as it was.  Otherwise the given sequence becomes the history. *)
Theorem set_turns_rejects_system c turns :
  ((exists e, outcome (set_turns turns c) = Raise e) <->
   (exists t, t ∈ turns /\ role t = system)) /\
  (forall e, outcome (set_turns turns c) = Raise e ->
     final (set_turns turns c) = c /\
     exists idx,
       e = Exception "ValueError"
             ("Turn " +:+ pretty idx +:+
              " has a role 'system', which is not allowed. The system prompt must be set separately using the `.system_prompt` property. Consider removing this turn and setting the `.system_prompt` separately if you want to change the system prompt.") /\
       (exists t, turns !! idx = Some t /\ role t = system) /\
       (forall j t, j < idx -> turns !! j = Some t -> role t <> system)) /\
  (outcome (set_turns turns c) = Ok tt ->
     _turns (final (set_turns turns c)) = turns).
Proof.
  unfold set_turns.
  destruct (existsb is_system turns) eqn:Hex.
  - destruct (first_system_from 0 turns) as [idx|] eqn:Hidx.
    + destruct (first_system_from_Some _ _ _ Hidx) as (j & Hj & Hat & Hmin).
      simpl in Hj. subst j. simpl. split; [|split].
      * split; [|by eauto]. intros _. by apply existsb_is_system.
      * intros e [= <-]. split; [done|]. by exists idx.
      * done.
    + apply first_system_from_None in Hidx. congruence.
  - simpl. split; [|split].
    + split; [by intros [e ?]|].
      intros H. apply existsb_is_system in H. congruence.
    + done.
    + done.
Qed.

End HistoryFacts.

(** [set_turns] on a sequence whose turn 1 is the first system turn. *)
Example set_turns_second_is_system :
  let turns := [Turn_of_str user "Hi"; Turn_of_str system "Be terse.";
                Turn_of_str system "Be kind."] in
  @set_turns unit turns counted_system_chat =
    Run []
      (Raise (Exception "ValueError"
                "Turn 1 has a role 'system', which is not allowed. The system prompt must be set separately using the `.system_prompt` property. Consider removing this turn and setting the `.system_prompt` separately if you want to change the system prompt."))
      counted_system_chat.
Proof. reflexivity. Qed.

Section Invariant.

Context {PS : Type}.
Implicit Types (c : Chat PS) (turns : list Turn) (t : Turn).

Lemma filter_system_nil turns :
  Forall (fun t => role t <> system) turns ->
  filter (fun t => role t = system) turns = [].
Proof.
  induction 1 as [|t rest Ht _ IH]; [done|].
  rewrite filter_cons. by destruct (decide (role t = system)).
Qed.

(** The invariant says that no turn after the first is a system turn. *)
Lemma system_first_tail turns :
  system_first turns <-> Forall (fun t => role t <> system) (tail turns).
Proof.
  unfold system_first. split.
  - intros [_ Hidx]. apply Forall_lookup_2. intros i t Hi Hs.
    destruct turns as [|t0 rest]; [done|]. simpl in Hi.
    specialize (Hidx (S i) t Hi Hs). lia.
  - intros Htail. destruct turns as [|t0 rest]; simpl in *.
    + split; [simpl; lia|]. intros i t Hi. by rewrite lookup_nil in Hi.
    + split.
      * rewrite filter_cons, (filter_system_nil rest) by done.
        destruct (decide (role t0 = system)); simpl; lia.
      * intros [|i] t Hi Hs; [done|]. simpl in Hi.
        rewrite Forall_lookup in Htail. by destruct (Htail i t Hi).
Qed.

Lemma system_first_no_system turns :
  Forall (fun t => role t <> system) turns -> system_first turns.
Proof.
  intros H. apply system_first_tail. destruct turns; [done|].
  by apply Forall_inv_tail in H.
Qed.

Lemma existsb_is_system_false turns :
  existsb is_system turns = false -> Forall (fun t => role t <> system) turns.
Proof.
  intros H. apply Forall_forall. intros t Hin Hs.
  assert (existsb is_system turns = true); [|congruence].
  apply existsb_is_system. eauto.
Qed.

(** [set_turns] leaves a history that satisfies the invariant, whatever the
    history was when the new one is accepted. *)
Lemma set_turns_system_first c turns :
  system_first (_turns c) -> system_first (_turns (final (set_turns turns c))).
Proof.
  intros Hc. unfold set_turns.
  destruct (existsb is_system turns) eqn:Hex.
  - by destruct (first_system_from 0 turns).
  - simpl. by apply system_first_no_system, existsb_is_system_false.
Qed.

Lemma set_system_prompt_system_first c value :
  system_first (_turns c) ->
  system_first (_turns (final (set_system_prompt value c))).
Proof.
  intros Hc. apply system_first_tail in Hc.
  assert (Forall (fun t => role t <> system)
            match _turns c with
            | t0 :: rest => if is_system t0 then rest else _turns c
            | [] => _turns c
            end) as Hpopped.
  { destruct (_turns c) as [|t0 rest]; [done|]. simpl in Hc.
    destruct (is_system t0) eqn:H0; [done|].
    constructor; [by apply is_system_false|done]. }
  unfold set_system_prompt, modify. simpl.
  destruct value as [v|]; simpl.
  - by apply system_first_tail.
  - by apply system_first_no_system.
Qed.

(** Appending turns that are not system turns keeps the invariant. *)
Lemma system_first_app turns more :
  system_first turns -> Forall (fun t => role t <> system) more ->
  system_first (turns ++ more).
Proof.
  intros H Hmore. apply system_first_tail. apply system_first_tail in H.
  destruct turns as [|t0 rest]; simpl in *.
  - destruct more; [done|]. by apply Forall_inv_tail in Hmore.
  - by apply Forall_app.
Qed.

(** C9, amended.  On a chat whose history has at most one system turn, at
    index 0, and whose system turn, if any, is the plain turn that the
    [system_prompt] setter builds from its text, reading the full history
    and the system prompt, setting the non-system suffix and restoring the
    prompt succeeds and reproduces the chat. *)
Theorem history_round_trip_plain c :
  system_first (_turns c) ->
  (forall t0, head (_turns c) = Some t0 -> role t0 = system ->
     t0 = Turn_of_str system (text t0)) ->
  outcome (history_round_trip c) = Ok tt /\ final (history_round_trip c) = c.
Proof.
  intros Hinv Hplain. apply system_first_tail in Hinv.
  destruct c as [p turns tools]. simpl in *.
  unfold history_round_trip, bind, get, get_turns, system_prompt. simpl.
  destruct turns as [|t0 rest]; simpl.
  - done.
  - simpl in Hinv. destruct (is_system t0) eqn:H0; simpl.
    + unfold set_turns.
      assert (existsb is_system rest = false) as ->.
      { apply not_true_is_false. intros H. apply existsb_is_system in H.
        destruct H as (t & Hin & Hs). rewrite Forall_forall in Hinv.
        by apply (Hinv t). }
      simpl. split; [done|]. unfold with_turns. simpl.
      destruct rest as [|t1 rest']; simpl.
      * by rewrite <- (Hplain t0 eq_refl (proj1 (is_system_true t0) H0)).
      * apply Forall_inv in Hinv as H1. apply is_system_false in H1.
        rewrite H1.
        by rewrite <- (Hplain t0 eq_refl (proj1 (is_system_true t0) H0)).
    + unfold set_turns. simpl. rewrite H0. simpl.
      assert (existsb is_system rest = false) as ->.
      { apply not_true_is_false. intros H. apply existsb_is_system in H.
        destruct H as (t & Hin & Hs). rewrite Forall_forall in Hinv.
        by apply (Hinv t). }
      simpl. by rewrite H0.
Qed.

End Invariant.

(** C9 fails as stated: the round trip replaces the system turn by the one
    built from its text, which is another turn when the original had several
    contents or carried metadata. *)
Lemma history_round_trip_counterexample :
  _turns (final (history_round_trip two_part_system_chat)) =
    [Turn_of_str system "Be terse. Reply in French."; Turn_of_str user "Hello"] /\
  _turns (final (history_round_trip two_part_system_chat)) <>
    _turns two_part_system_chat /\
  _turns (final (history_round_trip counted_system_chat)) <>
    _turns counted_system_chat.
Proof. split; [reflexivity|]. split; intros H; discriminate H. Qed.

Lemma history_round_trip_plain_witness :
  let c : Chat unit :=
    mkChat tt [Turn_of_str system "Be terse."; Turn_of_str user "Hello"] ∅ in
  outcome (history_round_trip c) = Ok tt /\ final (history_round_trip c) = c.
Proof.
  apply history_round_trip_plain.
  - apply system_first_tail. simpl. by constructor.
  - intros t0 [= <-] _. reflexivity.
Defined.

(** ** Tool invocation *)

Lemma dict_lookup_values {A : Type} (d : dict A) (k : string) (v : A) :
  d !! k = Some v -> v ∈ dict_values d.
Proof.
  unfold lookup, dict_lookup, dict_get, dict_values.
  induction (items d) as [|[k' v'] rest IH]; simpl; [done|].
  destruct (bool_decide (k' = k)); simpl.
  - intros [= <-]. apply list_elem_of_here.
  - intros Hrest. apply list_elem_of_further. by apply IH.
Qed.

Lemma dict_lookup_insert_eq {A : Type} (d : dict A) (k : string) (v : A) :
  <[k := v]> d !! k = Some v.
Proof.
  unfold lookup, dict_lookup, dict_get, insert, dict_insert, dict_set. simpl.
  induction (items d) as [|[k' v'] rest IH]; simpl.
  - by rewrite bool_decide_eq_true_2.
  - destruct (bool_decide (k' = k)) eqn:Hk; simpl.
    + by rewrite bool_decide_eq_true_2.
    + by rewrite Hk.
Qed.

Lemma dict_lookup_insert_ne {A : Type} (d : dict A) (k k' : string) (v : A) :
  k <> k' -> <[k := v]> d !! k' = d !! k'.
Proof.
  intros Hne.
  unfold lookup, dict_lookup, dict_get, insert, dict_insert, dict_set. simpl.
  induction (items d) as [|[k0 v0] rest IH]; simpl.
  - by rewrite bool_decide_eq_false_2.
  - destruct (bool_decide (k0 = k)) eqn:Hk; simpl.
    + apply bool_decide_eq_true in Hk as ->.
      by rewrite !bool_decide_eq_false_2.
    + destruct (bool_decide (k0 = k')); [done|]. exact IH.
Qed.

(** C3, at the failing input.  [_invoke_tool] on the callable
    [functools.partial(operator.floordiv, 1)], the arguments [0] and the id
    "call_1": the call raises [ZeroDivisionError], the handler evaluates
    [func.__name__], which the object does not have, and the
    [AttributeError] leaves [_invoke_tool]; no [ContentToolResult] with the
    error [str(e)] is returned. *)
Theorem invoke_tool_raises_without_name :
  _invoke_tool (Some partial_floordiv) (VInt 0) "call_1" =
    Raise (AttributeError "'functools.partial' object has no attribute '__name__'").
Proof. reflexivity. Qed.

Lemma apply_tool_call_args (f : ToolFunc) (arguments : value) :
  apply_tool f arguments = on_call f (call_args_of arguments).
Proof. by destruct arguments. Qed.

(** What [_invoke_tool] does on a callable, by what the call does. *)
Lemma invoke_tool_returned (f : ToolFunc) (arguments : value) (id : string) v :
  on_call f (call_args_of arguments) = Returned v ->
  _invoke_tool (Some f) arguments id = Ok (ContentToolResult id v None).
Proof.
  intros Hcall. unfold _invoke_tool, try_except.
  by rewrite apply_tool_call_args, Hcall.
Qed.

Lemma invoke_tool_raised (f : ToolFunc) (arguments : value) (id : string) e :
  on_call f (call_args_of arguments) = Raised e ->
  _invoke_tool (Some f) arguments id =
    match func_name f with
    | Some _ => Ok (ContentToolResult id VNone (Some (str_of_exception e)))
    | None =>
        Raise (AttributeError
                 ("'" +:+ type_name f +:+ "' object has no attribute '__name__'"))
    end.
Proof.
  intros Hcall. unfold _invoke_tool, try_except, get_name.
  rewrite apply_tool_call_args, Hcall. by destruct (func_name f).
Qed.

(** [_invoke_tool] returns unless the callable raises and has no
    [__name__]. *)
Lemma invoke_tool_ok (f : option ToolFunc) (arguments : value) (id : string) :
  (forall g e, f = Some g -> on_call g (call_args_of arguments) = Raised e ->
               is_Some (func_name g)) ->
  exists res, _invoke_tool f arguments id = Ok res.
Proof.
  intros Hname. destruct f as [g|]; [|by eexists].
  destruct (on_call g (call_args_of arguments)) as [v|e] eqn:Hcall.
  - rewrite (invoke_tool_returned g arguments id v Hcall). by eexists.
  - rewrite (invoke_tool_raised g arguments id e Hcall).
    destruct (Hname g e eq_refl Hcall) as [nm ->]. by eexists.
Qed.

Lemma tool_func_Some (tools : dict Tool) (name : string) (g : ToolFunc) :
  tool_func tools name = Some g ->
  exists tool, tools !! name = Some tool /\ func tool = g.
Proof.
  unfold tool_func. destruct (tools !! name) as [tool|]; [|done].
  intros [= <-]. by exists tool.
Qed.

(** The loop of [_invoke_tools], when it returns, has extended the results by
    one answer per tool request, in the order of the requests. *)
Lemma invoke_loop_inv (tools : dict Tool) (xs acc out : list Content) :
  invoke_loop tools acc xs = Ok out ->
  exists results,
    out = acc ++ results /\
    Forall2 (answers tools) (tool_requests xs) results.
Proof.
  revert acc. induction xs as [|x rest IH]; intros acc; simpl.
  - intros [= <-]. exists []. split; [by rewrite app_nil_r|constructor].
  - destruct x as [s|v|u|ct d|id name arguments|id v err]; simpl;
      try (intros Hloop; destruct (IH acc Hloop) as (results & -> & Hall);
           by exists results).
    destruct (_invoke_tool (tool_func tools name) arguments id) as [res|e] eqn:Hres;
      [|done].
    intros Hloop. destruct (IH (acc ++ [res]) Hloop) as (results & -> & Hall).
    exists (res :: results). split.
    + by rewrite <- app_assoc.
    + constructor; [exact Hres|exact Hall].
Qed.

(** The loop calls no tool when there is no tool request. *)
Lemma invoke_loop_no_requests (tools : dict Tool) (xs acc : list Content) :
  tool_requests xs = [] -> invoke_loop tools acc xs = Ok acc.
Proof.
  induction xs as [|x rest IH]; [done|].
  destruct x; simpl; try exact IH. done.
Qed.

(** The loop returns when no requested tool raises without a [__name__]. *)
Lemma invoke_loop_ok (tools : dict Tool) (xs acc : list Content) :
  (forall id name arguments tool e,
     (id, name, arguments) ∈ tool_requests xs ->
     tools !! name = Some tool ->
     on_call (func tool) (call_args_of arguments) = Raised e ->
     is_Some (func_name (func tool))) ->
  exists out, invoke_loop tools acc xs = Ok out.
Proof.
  revert acc. induction xs as [|x rest IH]; intros acc Hname; simpl; [by eexists|].
  destruct x as [s|v|u|ct d|id name arguments|id v err]; simpl;
    try (by apply IH).
  destruct (invoke_tool_ok (tool_func tools name) arguments id) as [res ->].
  { intros g e Hg Hcall. apply tool_func_Some in Hg as (tool & Hlook & <-).
    apply (Hname id name arguments tool e); [|done..].
    cbn [tool_requests omap]. apply list_elem_of_here. }
  apply IH. intros id' name' arguments' tool e Hin.
  apply (Hname id' name' arguments' tool e).
  cbn [tool_requests omap]. by apply list_elem_of_further.
Qed.

Lemma invoke_loop_answers (tools : dict Tool) (xs acc : list Content) :
  (forall id name arguments tool e,
     (id, name, arguments) ∈ tool_requests xs ->
     tools !! name = Some tool ->
     on_call (func tool) (call_args_of arguments) = Raised e ->
     is_Some (func_name (func tool))) ->
  exists results,
    invoke_loop tools acc xs = Ok (acc ++ results) /\
    Forall2 (answers tools) (tool_requests xs) results.
Proof.
  intros Hname. destruct (invoke_loop_ok tools xs acc Hname) as [out Hout].
  destruct (invoke_loop_inv tools xs acc out Hout) as (results & -> & Hall).
  by exists results.
Qed.

Section ToolRound.

Context {PS Completion Chunk Dict : Type}.
Context {P : Provider PS Completion Chunk Dict}.


End ToolRound.

(** ** The submission round *)

Lemma generator_raise {S A : Type} (body : M S A) (s s' : S) ys e :
  body s = Run ys (Raise e) s' ->
  generator body s = Run ys (Raise (pep479 e)) s'.
Proof. unfold generator. by intros ->. Qed.

Lemma generator_ok {S A : Type} (body : M S A) (s s' : S) ys a :
  body s = Run ys (Ok a) s' ->
  generator body s = Run ys (Ok a) s'.
Proof. unfold generator. by intros ->. Qed.

Section RoundFacts.

Context {PS Completion Chunk Dict : Type}.
Context {P : Provider PS Completion Chunk Dict}.
Implicit Types (c : Chat PS) (U A : Turn).

Lemma consume_stream_run (s : Stream Chunk) (acc : option Dict) c :
  consume_stream s acc c = Run (stream_texts s) (stream_result s acc) c.
Proof.
  revert acc. induction s as [|chunk rest IH|e]; intros acc; simpl;
    [done| |by destruct (is_instance _ e)].
  unfold bind.
  destruct (truthy (stream_text chunk)); simpl; rewrite IH; simpl;
    by destruct (stream_result _ _).
Qed.

(** What a round does once its entry checks have passed. *)
Lemma submit_turns_run U echo stream dm kw c :
  round_enters U echo c ->
  _submit_turns U echo stream dm kw c =
    Run (round_texts stream U dm kw c)
      (match round_turn stream U dm kw c with
       | Ok _ => Ok tt
       | Raise e => Raise (pep479 e)
       end)
      (match round_turn stream U dm kw c with
       | Ok A =>
           mkChat (round_provider stream U dm kw c) (_turns c ++ [U; A]) (_tools c)
       | Raise _ => with_provider c (round_provider stream U dm kw c)
       end).
Proof.
  intros [Hasync Hecho].
  assert ((match echo with
           | EchoAll => emit_user_contents U
           | _ => ret tt
           end) c = Run [] (Ok tt) c) as Hemit.
  { destruct echo; try done. unfold emit_user_contents.
    rewrite bool_decide_eq_true_2; [done|by apply Hecho]. }
  unfold _submit_turns, generator, round_texts, round_turn, round_provider.
  unfold bind, perform, perform_stream, get, modify. simpl.
  rewrite Hasync. rewrite !Hemit. simpl.
  destruct stream.
  - destruct (chat_perform_stream _ _ _ _ _) as [[s|e] p']; simpl; [|done].
    rewrite !consume_stream_run. simpl.
    destruct (stream_result s None) as [d|e]; simpl; [|done].
    destruct (stream_turn d _ s) as [A|e]; simpl; by rewrite ?app_nil_r.
  - destruct (chat_perform _ _ _ _ _) as [[resp|e] p']; simpl; [|done].
    destruct (value_turn resp _) as [A|e]; simpl; [|done].
    destruct (text A); simpl; by rewrite ?app_nil_r.
Qed.

(** When an entry check fails the round raises [ValueError] at once. *)
Lemma submit_turns_refused U echo stream dm kw c :
  ~ round_enters U echo c ->
  exists msg, _submit_turns U echo stream dm kw c = Run [] (Raise (ValueError msg)) c.
Proof.
  intros Hno. unfold _submit_turns.
  match goal with |- context [generator ?b] => set (body := b) end.
  assert (exists msg, body c = Run [] (Raise (ValueError msg)) c) as [msg Hbody].
  { subst body. unfold bind at 1. simpl.
    destruct (any_async (_tools c)) eqn:Hasync; [by eauto|].
    unfold bind at 1.
    destruct echo; try (exfalso; apply Hno; by split).
    unfold emit_user_contents.
    destruct (bool_decide (role U = user)) eqn:Hrole.
    - exfalso. apply Hno. split; [done|]. intros _.
      by apply bool_decide_eq_true in Hrole.
    - simpl. by eauto. }
  exists msg. by rewrite (generator_raise _ _ _ _ _ Hbody).
Qed.

Lemma round_enters_dec U echo c : round_enters U echo c \/ ~ round_enters U echo c.
Proof.
  unfold round_enters.
  destruct (any_async (_tools c)); [right; by intros [? _]|].
  destruct echo; try (left; by split).
  destruct (decide (role U = user)) as [Hr|Hr]; [left; by split|].
  right. intros [_ H]. by apply Hr, H.
Qed.

End RoundFacts.

Section LoopFacts.

Context {PS Completion Chunk Dict : Type}.
Context {P : Provider PS Completion Chunk Dict}.
Implicit Types (c : Chat PS) (U A : Turn).

(** A round leaves the history as it was, or appends the pair of the
    submitted turn and the turn produced from the response. *)
Lemma submit_turns_history U echo stream dm kw c :
  (_turns (final (_submit_turns U echo stream dm kw c)) = _turns c /\
   exists e, outcome (_submit_turns U echo stream dm kw c) = Raise e) \/
  (exists A, round_turn stream U dm kw c = Ok A /\
     outcome (_submit_turns U echo stream dm kw c) = Ok tt /\
     _turns (final (_submit_turns U echo stream dm kw c)) = _turns c ++ [U; A]).
Proof.
  destruct (round_enters_dec U echo c) as [Hin|Hout].
  - rewrite (submit_turns_run _ _ _ _ _ _ Hin).
    destruct (round_turn stream U dm kw c) as [A|e]; simpl.
    + right. by exists A.
    + left. split; [done|]. by eexists.
  - destruct (submit_turns_refused U echo stream dm kw c Hout) as [msg ->].
    left. simpl. split; [done|]. by eauto.
Qed.

Lemma submit_turns_tools U echo stream dm kw c :
  _tools (final (_submit_turns U echo stream dm kw c)) = _tools c.
Proof.
  destruct (round_enters_dec U echo c) as [Hin|Hout].
  - rewrite (submit_turns_run _ _ _ _ _ _ Hin).
    by destruct (round_turn stream U dm kw c).
  - by destruct (submit_turns_refused U echo stream dm kw c Hout) as [msg ->].
Qed.

Lemma request_fails_round_turn U stream dm kw c e :
  request_fails stream U dm kw c e -> round_turn stream U dm kw c = Raise e.
Proof.
  unfold request_fails, round_turn. destruct stream.
  - destruct (fst (chat_perform_stream _ _ _ _ _)) as [s|e']; [|by intros ->].
    by intros ->.
  - by intros ->.
Qed.

Lemma last_with_role_app_last r (turns : list Turn) A :
  role A = r -> last_with_role r (rev (turns ++ [A])) = Some A.
Proof.
  intros Hr. rewrite rev_app_distr. simpl.
  by rewrite bool_decide_eq_true_2.
Qed.

(** What [_invoke_tools] does when the last assistant turn is [t]. *)
Lemma invoke_tools_run c t :
  get_last_turn assistant c = Some t ->
  _invoke_tools c =
    Run []
      (match invoke_loop (_tools c) [] (contents t) with
       | Ok results => Ok (match results with
                           | [] => None
                           | _ => Some (Turn_of_contents user results)
                           end)
       | Raise e => Raise e
       end) c.
Proof.
  intros Hlast. unfold _invoke_tools, bind, get. simpl. rewrite Hlast.
  destruct (invoke_loop (_tools c) [] (contents t)) as [results|e]; [|done].
  by destruct results.
Qed.

Lemma chat_impl_None fuel echo stream kw c :
  _chat_impl fuel None echo stream kw c = Run [] (Ok Done) c.
Proof. by destruct fuel. Qed.

(** One iteration of the loop of [_chat_impl], when the round completes with
    an assistant turn [A]: the tools requested by [A] are invoked and the
    loop goes on with their results, or stops when there is none. *)
Lemma chat_impl_step fuel U echo stream kw c A :
  round_enters U echo c ->
  round_turn stream U None kw c = Ok A ->
  role A = assistant ->
  let c' := mkChat (round_provider stream U None kw c) (_turns c ++ [U; A])
              (_tools c) in
  _chat_impl (S fuel) (Some U) echo stream kw c =
    match invoke_loop (_tools c) [] (contents A) with
    | Ok results =>
        let r := _chat_impl fuel
                   (match results with
                    | [] => None
                    | _ => Some (Turn_of_contents user results)
                    end) echo stream kw c' in
        Run (round_texts stream U None kw c ++ yielded r) (outcome r) (final r)
    | Raise e => Run (round_texts stream U None kw c ++ []) (Raise e) c'
    end.
Proof.
  intros Hin Hturn Hrole c'.
  assert (get_last_turn assistant c' = Some A) as Hlast.
  { unfold get_last_turn. simpl.
    replace (_turns c ++ [U; A]) with ((_turns c ++ [U]) ++ [A])
      by (by rewrite <- app_assoc).
    by apply last_with_role_app_last. }
  pose proof (invoke_tools_run c' A Hlast) as Hrun.
  change (_chat_impl (S fuel) (Some U) echo stream kw c)
    with (bind (_submit_turns U echo stream None kw)
            (fun _ => bind _invoke_tools
                        (fun next => _chat_impl fuel next echo stream kw)) c).
  unfold bind. rewrite (submit_turns_run _ _ _ _ _ _ Hin), Hturn.
  cbn [outcome final yielded]. fold c'. rewrite Hrun.
  cbn [outcome final yielded]. change (_tools c') with (_tools c).
  destruct (invoke_loop (_tools c) [] (contents A)) as [results|e]; [|done].
  cbv zeta. by destruct (outcome (_chat_impl fuel _ echo stream kw c')).
Qed.

(** The same iteration when every tool whose call can raise has a
    [__name__]: the tools answer every request. *)
Lemma chat_impl_step_named fuel U echo stream kw c A :
  round_enters U echo c ->
  round_turn stream U None kw c = Ok A ->
  role A = assistant ->
  errors_named (_tools c) ->
  exists results,
    Forall2 (answers (_tools c)) (tool_requests (contents A)) results /\
    let c' := mkChat (round_provider stream U None kw c) (_turns c ++ [U; A])
                (_tools c) in
    let r := _chat_impl fuel
               (match results with
                | [] => None
                | _ => Some (Turn_of_contents user results)
                end) echo stream kw c' in
    _chat_impl (S fuel) (Some U) echo stream kw c =
      Run (round_texts stream U None kw c ++ yielded r) (outcome r) (final r).
Proof.
  intros Hin Hturn Hrole Hnamed.
  destruct (invoke_loop_answers (_tools c) (contents A) []) as (results & Hloop & Hall).
  { intros id name arguments tool e _ Hlook Hcall.
    apply (Hnamed tool (call_args_of arguments) e); [|done].
    by apply (dict_lookup_values _ name). }
  exists results. split; [exact Hall|]. cbv zeta.
  rewrite (chat_impl_step fuel U echo stream kw c A Hin Hturn Hrole).
  cbv zeta. simpl in Hloop. by rewrite Hloop.
Qed.

(** C7, amended.  When the entry checks of the round have passed and the
    provider request fails with [e] ([chat_perform] raises [e], or iterating
    the stream it returned raises [e]), the round raises that same [e],
    unless [e] is a [StopIteration]: [_submit_turns] is a generator, and a
    [StopIteration] raised inside it reaches the caller as
    [RuntimeError("generator raised StopIteration")].  In both cases the
    turn list is what it was: neither the submitted turn nor an assistant
    turn is appended.  The tool loop started on that turn raises the same
    exception as the round, with the turn list unchanged. *)
Theorem request_failure_propagates U echo stream dm kw c e :
  round_enters U echo c ->
  request_fails stream U dm kw c e ->
  let raised :=
    if bool_decide (class_of e = "StopIteration")
    then Exception "RuntimeError" "generator raised StopIteration"
    else e in
  outcome (_submit_turns U echo stream dm kw c) = Raise raised /\
  _turns (final (_submit_turns U echo stream dm kw c)) = _turns c /\
  (dm = None -> forall fuel,
     outcome (_chat_impl (S fuel) (Some U) echo stream kw c) = Raise raised /\
     _turns (final (_chat_impl (S fuel) (Some U) echo stream kw c)) = _turns c).
Proof.
  intros Hin Hfail. apply request_fails_round_turn in Hfail as Hturn.
  rewrite (submit_turns_run _ _ _ _ _ _ Hin), Hturn. simpl.
  split; [done|]. split; [done|].
  intros -> fuel. simpl. unfold bind.
  rewrite (submit_turns_run _ _ _ _ _ _ Hin), Hturn. by simpl.
Qed.

End LoopFacts.

(** ** Termination of the tool loop *)

Section Termination.

Context {PS Completion Chunk Dict : Type}.
Context {P : Provider PS Completion Chunk Dict}.
Implicit Types (c : Chat PS) (U A : Turn).

Variable idx : PS -> nat.
Variable N : nat.
Variable echo : Echo.
Variable stream : bool.
Variable kw : option SubmitInputArgs.
Hypothesis Hstub : scripted idx N stream kw.

(** The loop entered when the stub has [n] tool rounds left ends after
    exactly [n + 1] rounds. *)
Lemma loop_rounds_left (n : nat) : forall c U,
  any_async (_tools c) = false -> errors_named (_tools c) -> role U = user ->
  idx (provider c) + n = N ->
  (forall fuel, n < fuel ->
     outcome (_chat_impl fuel (Some U) echo stream kw c) = Ok Done /\
     idx (provider (final (_chat_impl fuel (Some U) echo stream kw c))) = S N /\
     length (_turns (final (_chat_impl fuel (Some U) echo stream kw c))) =
       length (_turns c) + 2 * S n) /\
  (forall fuel, fuel <= n ->
     outcome (_chat_impl fuel (Some U) echo stream kw c) = Ok OutOfFuel).
Proof.
  induction n as [|m IH]; intros c U Hasync Hnamed Hrole Hidx.
  - destruct (Hstub c U) as (A & Hturn & HA & Hreq & Hnext).
    assert (tool_requests (contents A) = []) as Hnone by (apply Hreq; lia).
    split.
    + intros [|fuel] Hlt; [lia|].
      destruct (chat_impl_step_named fuel U echo stream kw c A)
        as (results & Hall & Hrun); [by split|done|done|done|].
      cbv zeta in Hrun. rewrite Hrun. rewrite Hnone in Hall.
      apply Forall2_nil_inv_l in Hall. subst results.
      rewrite chat_impl_None. simpl.
      split; [done|]. split; [lia|]. rewrite length_app. simpl. lia.
    + intros fuel Hle. assert (fuel = 0) as -> by lia. done.
  - destruct (Hstub c U) as (A & Hturn & HA & Hreq & Hnext).
    assert (tool_requests (contents A) <> []) as Hsome.
    { intros Hnil. apply Hreq in Hnil. lia. }
    split.
    + intros [|fuel] Hlt; [lia|].
      destruct (chat_impl_step_named fuel U echo stream kw c A)
        as (results & Hall & Hrun); [by split|done|done|done|].
      cbv zeta in Hrun. rewrite Hrun.
      destruct results as [|r rs].
      { apply Forall2_nil_inv_r in Hall. done. }
      cbn [outcome final yielded].
      set (c' := mkChat (round_provider stream U None kw c) (_turns c ++ [U; A])
                   (_tools c)).
      destruct (IH c' (Turn_of_contents user (r :: rs))) as [Hdone _];
        [done|done|done|simpl; lia|].
      destruct (Hdone fuel) as (Hout & Hprov & Hlen); [lia|].
      split; [done|]. split; [done|].
      rewrite Hlen. unfold c'. simpl. rewrite length_app. simpl. lia.
    + intros [|fuel] Hle; [done|].
      destruct (chat_impl_step_named fuel U echo stream kw c A)
        as (results & Hall & Hrun); [by split|done|done|done|].
      cbv zeta in Hrun. rewrite Hrun.
      destruct results as [|r rs].
      { apply Forall2_nil_inv_r in Hall. done. }
      cbn [outcome final yielded].
      set (c' := mkChat (round_provider stream U None kw c) (_turns c ++ [U; A])
                   (_tools c)).
      destruct (IH c' (Turn_of_contents user (r :: rs))) as [_ Hout];
        [done|done|done|simpl; lia|].
      apply Hout. lia.
Qed.

End Termination.


(** The scripted stub provider is a stub in the sense of [scripted]. *)
Lemma stub_scripted (turns : nat -> Turn) (N : nat) (stream : bool)
    (kw : option SubmitInputArgs) :
  (forall k, role (turns k) = assistant) ->
  (forall k, tool_requests (contents (turns k)) = [] <-> N <= k) ->
  @scripted nat Turn Turn Turn (Stub.stub_provider (Stub.script_of turns))
    (fun k => k) N stream kw.
Proof.
  intros Hrole Hreq c U. exists (turns (provider c)).
  split; [by destruct stream|]. split; [apply Hrole|].
  split; [apply Hreq|]. by destruct stream.
Qed.



Lemma request_failure_propagates_witness :
  let P := Stub.stub_provider failing_script in
  let U := Turn_of_str user "And now?" in
  outcome (_submit_turns U EchoNone true None None greeted_chat) =
    Raise connection_error /\
  _turns (final (_submit_turns U EchoNone true None None greeted_chat)) =
    _turns greeted_chat /\
  (@None BaseModel = None -> forall fuel,
     outcome (_chat_impl (S fuel) (Some U) EchoNone true None greeted_chat) =
       Raise connection_error /\
     _turns (final (_chat_impl (S fuel) (Some U) EchoNone true None greeted_chat)) =
       _turns greeted_chat).
Proof.
  intros P U.
  apply (@request_failure_propagates nat Turn Turn Turn P U EchoNone true None
           None greeted_chat connection_error).
  - split; [reflexivity|]. intros H. discriminate H.
  - reflexivity.
Defined.

(** C7 fails as stated: when the request raises [StopIteration], what
    reaches the caller of the round is a [RuntimeError]. *)
Lemma request_failure_counterexample :
  let P := Stub.stub_provider exhausted_script in
  let U := Turn_of_str user "And now?" in
  round_enters U EchoNone greeted_chat /\
  request_fails false U None None greeted_chat StopIteration /\
  outcome (_submit_turns U EchoNone false None None greeted_chat) =
    Raise (Exception "RuntimeError" "generator raised StopIteration") /\
  outcome (_submit_turns U EchoNone false None None greeted_chat) <>
    Raise StopIteration.
Proof.
  intros P U. split; [|split; [|split]].
  - split; [reflexivity|]. intros H. discriminate H.
  - reflexivity.
  - reflexivity.
  - intros H. discriminate H.
Qed.



(** The results of the round of [three_requests_chat], evaluated: the value
    returned, the error raised, and the unknown tool. *)
Example three_requests_results :
  outcome (@_invoke_tools nat three_requests_chat) =
    Ok (Some (Turn_of_contents user
                [ContentToolResult "call_1" (VStr "sunny") None;
                 ContentToolResult "call_2" VNone (Some "'missing'");
                 ContentToolResult "call_3" VNone (Some "Unknown tool")])).
Proof. reflexivity. Qed.

(** ** Data extraction *)

Section Extraction.

Context {PS Completion Chunk Dict : Type}.
Context {P : Provider PS Completion Chunk Dict}.

Lemma json_items_length (cs : list Content) :
  length (json_items cs) = count_json cs.
Proof.
  unfold json_items, count_json.
  induction cs as [|x rest IH]; [done|].
  destruct x; simpl; try exact IH. f_equal. exact IH.
Qed.

Lemma json_items_none (cs : list Content) :
  count_json cs = 0 -> json_items cs = [].
Proof.
  rewrite <- json_items_length. by destruct (json_items cs).
Qed.

Lemma json_items_app (a b : list Content) :
  json_items (a ++ b) = json_items a ++ json_items b.
Proof. unfold json_items. apply omap_app. Qed.

(** C10.  When the submission round of [extract_data] completes and [t] is
    then the last assistant turn: if the contents of [t] hold exactly one
    ContentJson item (an item [ContentJson v] with no ContentJson item before
    or after it), [extract_data] returns the value [v] of that item; if they
    hold none or more than one, [extract_data] raises the [ValueError] whose
    message reports the number of ContentJson items found. *)
Theorem extract_data_single_json (args : list (Content + string))
    (data_model : BaseModel) (echo : Echo) (stream : bool) (c : Chat PS)
    (t : Turn) :
  outcome (_submit_turns (user_turn args) echo stream (Some data_model) None c)
    = Ok tt ->
  get_last_turn assistant
    (final (_submit_turns (user_turn args) echo stream (Some data_model) None c))
    = Some t ->
  (forall before v after,
     contents t = before ++ ContentJson v :: after ->
     count_json before = 0 -> count_json after = 0 ->
     outcome (extract_data args data_model echo stream c) = Ok v) /\
  (count_json (contents t) <> 1 ->
     outcome (extract_data args data_model echo stream c) =
       Raise (Exception "ValueError"
                ("Data extraction failed: "
                 +:+ pretty (count_json (contents t))
                 +:+ " data results received."))).
Proof.
  intros Hok Hlast. unfold extract_data, bind, get.
  rewrite Hok. cbn [outcome final yielded]. rewrite Hlast. split.
  - intros before v after Hcs Hbefore Hafter.
    assert (json_items (contents t) = [v]) as ->; [|done].
    rewrite Hcs, json_items_app.
    change (json_items (ContentJson v :: after)) with (v :: json_items after).
    by rewrite (json_items_none _ Hbefore), (json_items_none _ Hafter).
  - intros Hlen. rewrite json_items_length.
    rewrite bool_decide_eq_true_2 by done. done.
Qed.

End Extraction.

Lemma extract_data_single_json_witness :
  let P := Stub.stub_provider extraction_script in
  let c : Chat nat := mkChat 0 [] ∅ in
  outcome (extract_data [inr "Ada is 36."] ∅ EchoNone false c) =
    Ok (VDict {[ "name" := VStr "Ada"; "age" := VInt 36 ]}).
Proof.
  intros P c.
  apply (proj1 (@extract_data_single_json nat Turn Turn Turn P [inr "Ada is 36."] ∅
                  EchoNone false c
                  (Turn_of_contents assistant
                     [ContentJson (VDict {[ "name" := VStr "Ada"; "age" := VInt 36 ]})])
                  eq_refl eq_refl) [] _ []); reflexivity.
Defined.

(** [extract_data] on concrete answers: one item is returned, none and two
    are reported by their number. *)
Example extract_data_counts :
  let c : Chat nat := mkChat 0 [] ∅ in
  outcome (@extract_data _ _ _ _ (Stub.stub_provider extraction_script)
             [inr "Ada is 36."] ∅ EchoNone false c) =
    Ok (VDict {[ "name" := VStr "Ada"; "age" := VInt 36 ]}) /\
  outcome (@extract_data _ _ _ _
             (Stub.stub_provider (Stub.script_of (fun _ => Turn_of_str assistant "?")))
             [inr "Ada is 36."] ∅ EchoNone false c) =
    Raise (ValueError "Data extraction failed: 0 data results received.") /\
  outcome (@extract_data _ _ _ _
             (Stub.stub_provider
                (Stub.script_of
                   (fun _ => Turn_of_contents assistant
                               [ContentJson VNone; ContentJson VNone])))
             [inr "Ada is 36."] ∅ EchoNone true c) =
    Raise (ValueError "Data extraction failed: 2 data results received.").
Proof. repeat split; reflexivity. Qed.

(** ** Rounds against the OpenAI provider *)

Section OpenAIFacts.

Variable json_loads : string -> result value.
Variable json_dumps : value -> string.
Variable get_final_value : Content -> string.
Variable merge_dicts :
  OpenAI.ChatCompletion -> OpenAI.ChatCompletion -> OpenAI.ChatCompletion.
Variable Client : Type.
Variable create :
  gmap string value -> Client -> result OpenAI.ChatCompletion * Client.
Variable create_stream :
  gmap string value -> Client ->
  result (Stream OpenAI.ChatCompletionChunk) * Client.

#[local] Instance openai :
  Provider (OpenAI.OpenAIProvider Client) OpenAI.ChatCompletion
    OpenAI.ChatCompletionChunk OpenAI.ChatCompletion :=
  OpenAI.provider_instance json_loads json_dumps get_final_value merge_dicts
    Client create create_stream.

Implicit Types (c : Chat (OpenAI.OpenAIProvider Client)) (U A : Turn).

(** The turn that [_as_turn] returns, by the parts of the completion: the
    contents made of the message content, extended by the tool calls; the
    token counts, the finish reason and the payload. *)
Lemma as_turn_inv completion has_data_model A :
  OpenAI._as_turn json_loads completion has_data_model = Ok A ->
  exists choice others m cs0 cs,
    OpenAI.choices completion = choice :: others /\
    OpenAI.message choice = Some m /\
    match OpenAI.content m with
    | Some text =>
        if has_data_model
        then exists data, json_loads text = Ok data /\ cs0 = [ContentJson data]
        else cs0 = [ContentText text]
    | None => cs0 = []
    end /\
    match OpenAI.tool_calls m with
    | Some calls => OpenAI.tool_requests_of json_loads calls cs0 = Ok cs
    | None => cs = cs0
    end /\
    A = mkTurn assistant cs (Some (completion_tokens_of completion))
          (OpenAI.choice_finish_reason choice)
          (Some (OpenAI.model_dump completion)).
Proof.
  unfold OpenAI._as_turn.
  destruct (OpenAI.choices completion) as [|choice others]; [done|].
  destruct (OpenAI.message choice) as [m|] eqn:Hm; [|done].
  assert (forall cs0 : list Content,
            match
              match OpenAI.tool_calls m with
              | Some calls => OpenAI.tool_requests_of json_loads calls cs0
              | None => Ok cs0
              end
            with
            | Raise e => Raise e
            | Ok cs =>
                Ok (mkTurn assistant cs
                      (Some match OpenAI.usage completion with
                            | None =>
                                match OpenAI.x_groq completion with
                                | Some u => (OpenAI.prompt_tokens u,
                                             OpenAI.completion_tokens u)
                                | None => (0, 0)%Z
                                end
                            | Some u => (OpenAI.prompt_tokens u,
                                         OpenAI.completion_tokens u)
                            end)
                      (OpenAI.choice_finish_reason choice)
                      (Some (OpenAI.model_dump completion)))
            end = Ok A ->
            exists cs,
              match OpenAI.tool_calls m with
              | Some calls => OpenAI.tool_requests_of json_loads calls cs0 = Ok cs
              | None => cs = cs0
              end /\
              A = mkTurn assistant cs (Some (completion_tokens_of completion))
                    (OpenAI.choice_finish_reason choice)
                    (Some (OpenAI.model_dump completion))) as Htail.
  { intros cs0. unfold completion_tokens_of.
    destruct (OpenAI.tool_calls m) as [calls|].
    - destruct (OpenAI.tool_requests_of json_loads calls cs0) as [cs|e]; [|done].
      intros [= <-]. exists cs. split; [done|].
      by destruct (OpenAI.usage completion), (OpenAI.x_groq completion).
    - intros [= <-]. exists cs0. split; [done|].
      by destruct (OpenAI.usage completion), (OpenAI.x_groq completion). }
  destruct (OpenAI.content m) as [s|] eqn:Hcontent.
  - destruct has_data_model.
    + destruct (json_loads s) as [data|e] eqn:Hs; [|done].
      intros HA. apply Htail in HA as (cs & Hcs & HA).
      exists choice, others, m, [ContentJson data], cs.
      rewrite Hcontent.
      split; [done|]. split; [done|]. split; [by exists data|]. by split.
    + intros HA. apply Htail in HA as (cs & Hcs & HA).
      exists choice, others, m, [ContentText s], cs. rewrite Hcontent.
      split; [done|]. split; [done|]. split; [done|]. by split.
  - intros HA. apply Htail in HA as (cs & Hcs & HA).
    exists choice, others, m, [], cs. rewrite Hcontent.
    split; [done|]. split; [done|]. split; [done|]. by split.
Qed.

Lemma as_turn_role completion has_data_model A :
  OpenAI._as_turn json_loads completion has_data_model = Ok A ->
  role A = assistant.
Proof.
  intros HA. by apply as_turn_inv in HA as (c0 & rest & m & cs0 & cs & _ & _ & _ & _ & ->).
Qed.

(** The turn that a round makes of an OpenAI response is an assistant turn. *)
Lemma round_turn_role stream U dm kw c A :
  round_turn stream U dm kw c = Ok A -> role A = assistant.
Proof.
  unfold round_turn. destruct stream.
  - destruct (fst (chat_perform_stream _ _ _ _ _)) as [s|e]; [|done].
    destruct (stream_result s None) as [d|e]; [|done].
    simpl. unfold OpenAI.stream_turn. destruct d as [d|]; [|done].
    destruct (OpenAI.choices d) as [|c0 rest]; [done|].
    destruct (OpenAI.choice_delta c0); [|done]. apply as_turn_role.
  - destruct (fst (chat_perform _ _ _ _ _)) as [resp|e]; [|done].
    simpl. unfold OpenAI.value_turn. apply as_turn_role.
Qed.

(** C1.  When a submission round against the OpenAI provider completes, the
    turn list is the earlier one followed by the submitted turn [U] and the
    turn [A] produced from the provider response, and [A] is an assistant
    turn.  When moreover [A] holds no tool request, the loop of [_chat_impl]
    started on [U] makes this one round only: it reaches [Done] having
    appended this pair once. *)
Theorem round_appends_user_assistant_pair U echo stream dm kw c :
  outcome (_submit_turns U echo stream dm kw c) = Ok tt ->
  exists A,
    round_turn stream U dm kw c = Ok A /\
    role A = assistant /\
    _turns (final (_submit_turns U echo stream dm kw c)) = _turns c ++ [U; A] /\
    (dm = None -> tool_requests (contents A) = [] -> forall fuel,
       outcome (_chat_impl (S fuel) (Some U) echo stream kw c) = Ok Done /\
       _turns (final (_chat_impl (S fuel) (Some U) echo stream kw c)) =
         _turns c ++ [U; A] /\
       yielded (_chat_impl (S fuel) (Some U) echo stream kw c) =
         yielded (_submit_turns U echo stream dm kw c)).
Proof.
  intros Hok.
  destruct (round_enters_dec U echo c) as [Hin|Hout].
  2:{ destruct (submit_turns_refused U echo stream dm kw c Hout) as [msg Hrun].
      rewrite Hrun in Hok. done. }
  rewrite (submit_turns_run _ _ _ _ _ _ Hin) in *.
  destruct (round_turn stream U dm kw c) as [A|e] eqn:Hturn; [|done].
  exists A. apply round_turn_role in Hturn as Hrole.
  split; [done|]. split; [done|]. split; [done|].
  intros -> Hnone fuel.
  rewrite (chat_impl_step fuel U echo stream kw c A Hin Hturn Hrole).
  rewrite (invoke_loop_no_requests _ _ _ Hnone). cbv zeta.
  rewrite chat_impl_None. simpl. by rewrite app_nil_r.
Qed.

(** C2.  On a chat whose turn list has at most one system turn, and that one
    at index 0, [set_turns], the [system_prompt] setter and a submission
    round of a user turn against the OpenAI provider each leave a turn list
    with at most one system turn, at index 0. *)
Theorem mutations_keep_system_first c :
  system_first (_turns c) ->
  (forall turns, system_first (_turns (final (set_turns turns c)))) /\
  (forall value, system_first (_turns (final (set_system_prompt value c)))) /\
  (forall U echo stream dm kw, role U = user ->
     system_first (_turns (final (_submit_turns U echo stream dm kw c)))).
Proof.
  intros Hinv. split; [|split].
  - intros turns. by apply set_turns_system_first.
  - intros value. by apply set_system_prompt_system_first.
  - intros U echo stream dm kw HU.
    destruct (submit_turns_history U echo stream dm kw c)
      as [[-> _]|(A & Hturn & _ & ->)]; [done|].
    apply round_turn_role in Hturn. apply system_first_app; [done|].
    repeat constructor; congruence.
Qed.

End OpenAIFacts.

Lemma round_appends_user_assistant_pair_witness :
  let P := Fixture.provider Fixture.hello Fixture.hello_chunks in
  let U := Turn_of_str user "Hi" in
  let c := Fixture.chat0 in
  exists A,
    round_turn true U None None c = Ok A /\
    role A = assistant /\
    _turns (final (_submit_turns U EchoAll true None None c)) = _turns c ++ [U; A] /\
    (@None BaseModel = None -> tool_requests (contents A) = [] -> forall fuel,
       outcome (_chat_impl (S fuel) (Some U) EchoAll true None c) = Ok Done /\
       _turns (final (_chat_impl (S fuel) (Some U) EchoAll true None c)) =
         _turns c ++ [U; A] /\
       yielded (_chat_impl (S fuel) (Some U) EchoAll true None c) =
         yielded (_submit_turns U EchoAll true None None c)).
Proof.
  intros P U c.
  apply (round_appends_user_assistant_pair Fixture.json_loads Fixture.json_dumps
           Fixture.get_final_value Merge.merge_dicts unit
           (Fixture.create Fixture.hello)
           (Fixture.create_stream Fixture.hello_chunks)
           U EchoAll true None None c).
  vm_compute. reflexivity.
Defined.

Lemma mutations_keep_system_first_witness :
  let P := Fixture.provider Fixture.hello Fixture.hello_chunks in
  let c := Fixture.chat0 in
  (forall turns, system_first (_turns (final (set_turns turns c)))) /\
  (forall value, system_first (_turns (final (set_system_prompt value c)))) /\
  (forall U echo stream dm kw, role U = user ->
     system_first (_turns (final (_submit_turns U echo stream dm kw c)))).
Proof.
  intros P c.
  apply (mutations_keep_system_first Fixture.json_loads Fixture.json_dumps
           Fixture.get_final_value Merge.merge_dicts unit
           (Fixture.create Fixture.hello)
           (Fixture.create_stream Fixture.hello_chunks) c).
  split; [simpl; lia|]. intros [|i] t Hi Hs; [done|]. discriminate Hi.
Defined.

(** The round of the witness, evaluated: the streamed text, and the turn
    appended to the history. *)
Example hello_round_streamed :
  let P := Fixture.provider Fixture.hello Fixture.hello_chunks in
  let r := _submit_turns (Turn_of_str user "Hi") EchoNone true None None
             Fixture.chat0 in
  yielded r = ["Hello"; " there"] /\
  outcome r = Ok tt /\
  (contents <$> _turns (final r)) =
    [[ContentText "Be terse."]; [ContentText "Hi"]; [ContentText "Hello there"]] /\
  (role <$> _turns (final r)) = [system; user; assistant] /\
  (tokens <$> last (_turns (final r))) = Some (Some (9, 2)%Z).
Proof. vm_compute. repeat split. Qed.

(** ** Streamed and unstreamed rounds *)

Lemma string_app_cons (a : Ascii.ascii) (s t : string) :
  String a s +:+ t = String a (s +:+ t).
Proof. reflexivity. Qed.

Lemma string_app_nil_r (s : string) : s +:+ "" = s.
Proof.
  induction s as [|a s IH]; [reflexivity|].
  by rewrite string_app_cons, IH.
Qed.

Lemma string_app_assoc (s t u : string) : (s +:+ t) +:+ u = s +:+ (t +:+ u).
Proof.
  induction s as [|a s IH]; [reflexivity|].
  by rewrite !string_app_cons, IH.
Qed.

Lemma concat_text_app (a b : list string) :
  concat_text (a ++ b) = concat_text a +:+ concat_text b.
Proof.
  unfold concat_text. induction a as [|x a IH]; [reflexivity|].
  cbn [foldr app]. by rewrite IH, string_app_assoc.
Qed.

(** The tool requests appended by [_as_turn] carry no text. *)
Lemma contents_text_app (a b : list Content) :
  contents_text (a ++ b) = contents_text a +:+ contents_text b.
Proof.
  induction a as [|x a IH]; [reflexivity|].
  destruct x; cbn [contents_text app]; try exact IH.
  by rewrite IH, string_app_assoc.
Qed.

Lemma contents_text_tool_requests loads calls cs cs' :
  OpenAI.tool_requests_of loads calls cs = Ok cs' ->
  contents_text cs' = contents_text cs.
Proof.
  revert cs. induction calls as [|call rest IH]; intros cs; [by intros [= <-]|].
  cbn [OpenAI.tool_requests_of].
  destruct (OpenAI.tc_function call) as [f|]; [|apply IH].
  destruct (OpenAI.tool_arguments loads f) as [args|e]; [|done].
  intros Hrest. rewrite (IH _ Hrest), contents_text_app. cbn [contents_text].
  by rewrite string_app_nil_r.
Qed.

Section RefusedRound.

Context {PS Completion Chunk Dict : Type}.
Context {P : Provider PS Completion Chunk Dict}.

(** A round refused at its entry checks does the same whatever the mode. *)
Lemma submit_turns_refused_msg (U : Turn) echo (c : Chat PS) stream dm kw :
  ~ round_enters U echo c ->
  _submit_turns U echo stream dm kw c =
    Run [] (Raise (ValueError
                     (if any_async (_tools c)
                      then "Cannot use async tools in a synchronous chat"
                      else "Expected a user turn"))) c.
Proof.
  intros Hno. unfold _submit_turns.
  match goal with |- context [generator ?b] => set (body := b) end.
  apply (generator_raise body c c [] (ValueError _)).
  subst body. unfold bind at 1. simpl.
  destruct (any_async (_tools c)) eqn:Hasync; [done|].
  unfold bind at 1.
  destruct echo; try (exfalso; apply Hno; by split).
  unfold emit_user_contents.
  destruct (bool_decide (role U = user)) eqn:Hrole; [|done].
  exfalso. apply Hno. split; [done|]. intros _.
  by apply bool_decide_eq_true in Hrole.
Qed.

Lemma submit_turns_refused_any (U : Turn) echo (c : Chat PS) stream stream' dm dm'
    kw kw' :
  ~ round_enters U echo c ->
  _submit_turns U echo stream dm kw c = _submit_turns U echo stream' dm' kw' c.
Proof.
  intros Hno.
  by rewrite (submit_turns_refused_msg U echo c stream dm kw Hno),
    (submit_turns_refused_msg U echo c stream' dm' kw' Hno).
Qed.

End RefusedRound.

Section Streaming.

Variable json_loads : string -> result value.
Variable json_dumps : value -> string.
Variable get_final_value : Content -> string.
Variable Client : Type.
Variable create :
  gmap string value -> Client -> result OpenAI.ChatCompletion * Client.
Variable create_stream :
  gmap string value -> Client ->
  result (Stream OpenAI.ChatCompletionChunk) * Client.

#[local] Instance openai_streaming :
  Provider (OpenAI.OpenAIProvider Client) OpenAI.ChatCompletion
    OpenAI.ChatCompletionChunk OpenAI.ChatCompletion :=
  OpenAI.provider_instance json_loads json_dumps get_final_value
    Merge.merge_dicts Client create create_stream.

Implicit Types (c : Chat (OpenAI.OpenAIProvider Client)) (U A : Turn).
Implicit Types (R : OpenAI.ChatCompletion).
Implicit Types (chunks : list OpenAI.ChatCompletionChunk).

Lemma stream_result_pieces R pieces s tool_calls chunks :
  stream_result
    (foldr SCons SNil
       (map (fun p => chunk_of R (OpenAI.mkMessage (Some p) None) None) pieces
        ++ chunks))
    (Some (accumulated R (Some s) tool_calls None None None)) =
  stream_result (foldr SCons SNil chunks)
    (Some (accumulated R (Some (s +:+ concat_text pieces)) tool_calls None None None)).
Proof.
  revert s. induction pieces as [|p rest IH]; intros s.
  - unfold concat_text. cbn [foldr map app]. by rewrite string_app_nil_r.
  - cbn [map app foldr stream_result]. 
    replace (stream_merge_chunks
               (Some (accumulated R (Some s) tool_calls None None None))
               (chunk_of R (OpenAI.mkMessage (Some p) None) None))
      with (accumulated R (Some (s +:+ p)) tool_calls None None None)
      by (by destruct tool_calls).
    rewrite IH. unfold concat_text. cbn [foldr].
    by rewrite string_app_assoc.
Qed.

(** The chunks of [streamed R pieces] accumulate to the choice of [R] with
    its message under the key delta, and the object kind of a chunk. *)
Lemma stream_result_streamed R pieces choice m :
  OpenAI.choices R = [choice] ->
  OpenAI.message choice = Some m ->
  match OpenAI.content m with
  | Some s => s = concat_text pieces
  | None => pieces = []
  end ->
  stream_result (foldr SCons SNil (streamed R pieces)) None =
    Ok (Some (accumulated R (OpenAI.content m) (OpenAI.tool_calls m)
                (OpenAI.choice_finish_reason choice)
                (OpenAI.usage R) (OpenAI.x_groq R))).
Proof.
  intros Hchoices Hm Hcontent. unfold streamed. rewrite Hchoices, Hm.
  destruct (OpenAI.content m) as [s|].
  - subst s. cbn [foldr stream_result].
    change (stream_merge_chunks None ?ch) with (OpenAI.model_dump_chunk ch).
    change (OpenAI.model_dump_chunk
              (chunk_of R (OpenAI.mkMessage (Some "") (OpenAI.tool_calls m)) None))
      with (accumulated R (Some "") (OpenAI.tool_calls m) None None None).
    rewrite stream_result_pieces. cbn [foldr stream_result].
    f_equal. f_equal. unfold accumulated.
    cbn. destruct (OpenAI.tool_calls m), (OpenAI.usage R), (OpenAI.x_groq R),
      (OpenAI.choice_finish_reason choice); reflexivity.
  - subst pieces. cbn [map app foldr stream_result].
    f_equal. f_equal. unfold accumulated.
    cbn. destruct (OpenAI.tool_calls m), (OpenAI.usage R), (OpenAI.x_groq R),
      (OpenAI.choice_finish_reason choice); reflexivity.
Qed.

(** Finalizing the accumulated dictionary is finalizing the payload of [R]
    with the object kind of a chunk. *)
Lemma stream_turn_accumulated R choice m has_data_model s :
  OpenAI.choices R = [choice] ->
  OpenAI.choice_delta choice = None ->
  OpenAI.message choice = Some m ->
  OpenAI.stream_turn json_loads
    (Some (accumulated R (OpenAI.content m) (OpenAI.tool_calls m)
             (OpenAI.choice_finish_reason choice)
             (OpenAI.usage R) (OpenAI.x_groq R))) has_data_model s =
    OpenAI._as_turn json_loads (as_chunk_payload R) has_data_model.
Proof.
  intros Hchoices Hdelta Hm. unfold OpenAI.stream_turn, accumulated, as_chunk_payload.
  cbn. rewrite Hchoices. destruct choice as [d msg fr]. cbn in *. subst d msg.
  by destruct m.
Qed.

(** The turn made of a payload does not depend on its object kind, except
    for the raw payload that it records. *)
Lemma as_turn_chunk_payload R has_data_model :
  OpenAI._as_turn json_loads (as_chunk_payload R) has_data_model =
    match OpenAI._as_turn json_loads R has_data_model with
    | Ok A => Ok (with_json A (Some (OpenAI.model_dump (as_chunk_payload R))))
    | Raise e => Raise e
    end.
Proof.
  unfold OpenAI._as_turn, as_chunk_payload. cbn.
  destruct (OpenAI.choices R) as [|choice others]; [done|].
  destruct (OpenAI.message choice) as [m|]; [|done].
  destruct (match OpenAI.content m with
            | Some text0 =>
                if has_data_model
                then match json_loads text0 with
                     | Ok data => Ok [ContentJson data]
                     | Raise e => Raise e
                     end
                else Ok [ContentText text0]
            | None => Ok []
            end) as [cs0|e]; [|done].
  by destruct (match OpenAI.tool_calls m with
               | Some calls => OpenAI.tool_requests_of json_loads calls cs0
               | None => Ok cs0
               end).
Qed.

Lemma as_turn_text R A :
  OpenAI._as_turn json_loads R false = Ok A -> text A = response_text R.
Proof.
  intros HA. apply as_turn_inv in HA
    as (choice & others & m & cs0 & cs & Hch & Hm & Hcs0 & Hcs & ->).
  unfold response_text, text. rewrite Hch, Hm. cbn [contents].
  assert (contents_text cs = contents_text cs0) as ->.
  { destruct (OpenAI.tool_calls m) as [calls|]; [|by subst].
    by apply (contents_text_tool_requests json_loads calls). }
  destruct (OpenAI.content m) as [s|]; subst cs0; cbn [contents_text default];
    [apply string_app_nil_r|done].
Qed.

(** The text that the chunks of [streamed R pieces] deliver is the pieces. *)
Lemma stream_texts_streamed R pieces choice m :
  OpenAI.choices R = [choice] ->
  OpenAI.message choice = Some m ->
  concat_text (stream_texts (foldr SCons SNil (streamed R pieces))) =
    concat_text pieces.
Proof.
  intros Hchoices Hm. unfold streamed. rewrite Hchoices, Hm.
  cbn [foldr stream_texts].
  assert (forall chunks,
            concat_text
              (stream_texts
                 (foldr SCons SNil
                    (map (fun p => chunk_of R (OpenAI.mkMessage (Some p) None) None)
                       pieces ++ chunks))) =
            concat_text pieces +:+
            concat_text (stream_texts (foldr SCons SNil chunks))) as Hpieces.
  { intros chunks. induction pieces as [|p rest IH]; [done|].
    cbn [map app foldr stream_texts]. rewrite concat_text_app, IH.
    unfold concat_text at 3. cbn [foldr]. fold (concat_text rest).
    rewrite <- string_app_assoc. f_equal.
    destruct p as [|a p]; [done|].
    unfold concat_text. cbn. by rewrite string_app_nil_r. }
  rewrite concat_text_app, Hpieces.
  destruct (OpenAI.content m); cbn; by rewrite string_app_nil_r.
Qed.

(** The request arguments are built, or fail, alike with and without
    streaming. *)
Lemma chat_perform_args_alike self turns tools dm kw :
  match OpenAI._chat_perform_args json_dumps get_final_value Client self true
          turns tools dm kw,
        OpenAI._chat_perform_args json_dumps get_final_value Client self false
          turns tools dm kw with
  | Ok _, Ok _ => True
  | Raise e, Raise e' => e = e'
  | _, _ => False
  end.
Proof.
  unfold OpenAI._chat_perform_args.
  by destruct (OpenAI._as_message_param json_dumps get_final_value turns).
Qed.


End Streaming.



(** * Further properties *)

(** ** History accessors *)

Section HistoryAccess.

Context {PS : Type}.
Implicit Types (c : Chat PS) (turns : list Turn) (t : Turn).

Lemma last_with_role_spec (r : Role) (reversed : list Turn) :
  match last_with_role r reversed with
  | Some t =>
      exists later earlier,
        reversed = later ++ t :: earlier /\ role t = r /\
        Forall (fun t' => role t' <> r) later
  | None => Forall (fun t' => role t' <> r) reversed
  end.
Proof.
  induction reversed as [|x rest IH]; simpl; [done|].
  destruct (bool_decide (role x = r)) eqn:Hx.
  - apply bool_decide_eq_true in Hx. exists [], rest. by repeat split.
  - apply bool_decide_eq_false in Hx.
    destruct (last_with_role r rest) as [t|].
    + destruct IH as (later & earlier & -> & Hr & Hlater).
      exists (x :: later), earlier. repeat split; [done|]. by constructor.
    + by constructor.
Qed.

(** X1.  [get_last_turn] returns the last turn of the history that has the
    requested role: the turn found has that role and no turn after it has;
    it returns [None] exactly when no turn of the history has that role. *)
Theorem get_last_turn_is_last (r : Role) c :
  match get_last_turn r c with
  | Some t =>
      exists before after,
        _turns c = before ++ t :: after /\ role t = r /\
        Forall (fun t' => role t' <> r) after
  | None => Forall (fun t' => role t' <> r) (_turns c)
  end.
Proof.
  unfold get_last_turn.
  pose proof (last_with_role_spec r (rev (_turns c))) as H.
  destruct (last_with_role r (rev (_turns c))) as [t|].
  - destruct H as (later & earlier & Hrev & Hr & Hlater).
    exists (rev earlier), (rev later).
    split; [|split; [done|]].
    + rewrite <- (rev_involutive (_turns c)), Hrev, rev_app_distr. simpl.
      by rewrite <- app_assoc.
    + by apply List.Forall_rev.
  - rewrite <- (rev_involutive (_turns c)). by apply List.Forall_rev.
Qed.

Lemma text_Turn_of_str (r : Role) (v : string) : text (Turn_of_str r v) = v.
Proof. unfold text. simpl. apply string_app_nil_r. Qed.

(** X2.  On a history with at most one system turn, at index 0: after the
    [system_prompt] setter is given a text, the getter returns that text;
    after it is given [None], the getter returns [None]; in both cases the
    turns read without the system prompt are the same as before. *)
Theorem system_prompt_set_then_get c (v : string) :
  system_first (_turns c) ->
  system_prompt (final (set_system_prompt (Some v) c)) = Some v /\
  get_turns false (final (set_system_prompt (Some v) c)) = get_turns false c /\
  system_prompt (final (set_system_prompt None c)) = None /\
  get_turns false (final (set_system_prompt None c)) = get_turns false c.
Proof.
  intros Hinv. apply system_first_tail in Hinv.
  destruct c as [p turns tools]. simpl in Hinv.
  unfold set_system_prompt, modify, system_prompt, get_turns, with_turns.
  cbn [final _turns provider _tools].
  change (is_system (Turn_of_str system v)) with true.
  rewrite text_Turn_of_str. cbn [negb andb].
  destruct turns as [|t0 rest]; [done|]. simpl in Hinv.
  destruct (is_system t0) eqn:H0.
  - split; [done|]. split; [done|].
    destruct rest as [|t1 rest']; [done|].
    apply Forall_inv in Hinv. apply is_system_false in Hinv. by rewrite Hinv.
  - by rewrite H0.
Qed.

(** X3.  A call of [set_turns] that succeeds replaces the whole history: the
    system prompt is gone, and the turns read back, with or without the
    system prompt, are the ones given. *)
Theorem set_turns_drops_system_prompt c turns :
  outcome (set_turns turns c) = Ok tt ->
  system_prompt (final (set_turns turns c)) = None /\
  forall include_system_prompt,
    get_turns include_system_prompt (final (set_turns turns c)) = turns.
Proof.
  unfold set_turns.
  destruct (existsb is_system turns) eqn:Hex.
  - by destruct (first_system_from 0 turns).
  - intros _. simpl. unfold system_prompt, get_turns. simpl.
    destruct turns as [|t0 rest]; [done|].
    simpl in Hex. apply orb_false_elim in Hex as [H0 _]. rewrite H0.
    split; [done|]. intros b. by rewrite andb_false_r.
Qed.

(** X4.  On a history with at most one system turn, at index 0, the turns
    read without the system prompt hold no system turn, and the full
    history is the system turn, when there is a system prompt, followed by
    them. *)
Theorem get_turns_without_system c :
  system_first (_turns c) ->
  Forall (fun t => role t <> system) (get_turns false c) /\
  get_turns true c =
    match system_prompt c, _turns c with
    | Some _, t0 :: _ => t0 :: get_turns false c
    | _, _ => get_turns false c
    end.
Proof.
  intros Hinv. apply system_first_tail in Hinv.
  unfold get_turns, system_prompt.
  destruct (_turns c) as [|t0 rest]; simpl in *; [done|].
  destruct (is_system t0) eqn:H0; simpl; [done|].
  split; [|done]. constructor; [|done]. by apply is_system_false.
Qed.

(** X5.  [token_usage] is [(0, 0)] on a history with no assistant turn, and
    otherwise the token counts of the last assistant turn, [(0, 0)] when it
    carries none. *)
Theorem token_usage_last_assistant c :
  (Forall (fun t => role t <> assistant) (_turns c) -> token_usage c = (0, 0)%Z) /\
  (forall before t after,
     _turns c = before ++ t :: after -> role t = assistant ->
     Forall (fun t' => role t' <> assistant) after ->
     token_usage c = default (0, 0)%Z (tokens t)).
Proof.
  unfold token_usage. split.
  - intros Hnone. unfold get_last_turn.
    pose proof (last_with_role_spec assistant (rev (_turns c))) as H.
    destruct (last_with_role assistant (rev (_turns c))) as [t|]; [|done].
    destruct H as (later & earlier & Hrev & Hr & _).
    apply List.Forall_rev in Hnone. rewrite Hrev in Hnone.
    apply Forall_app in Hnone as [_ Hnone]. by apply Forall_inv in Hnone.
  - intros before t after Hturns Hr Hafter. unfold get_last_turn.
    rewrite Hturns, rev_app_distr. simpl. rewrite <- app_assoc. simpl.
    assert (forall later rest,
              Forall (fun t' => role t' <> assistant) later ->
              last_with_role assistant (later ++ t :: rest) = Some t) as Hfind.
    { induction later as [|x later IH]; intros rest Hl; simpl.
      - by rewrite bool_decide_eq_true_2.
      - apply Forall_cons in Hl as [Hx Hl].
        rewrite bool_decide_eq_false_2 by done. by apply IH. }
    rewrite Hfind; [done|]. by apply List.Forall_rev.
Qed.

End HistoryAccess.

(** ** The tool loop *)

Lemma invoke_tool_is_result f arguments id res :
  _invoke_tool f arguments id = Ok res ->
  exists v err, res = ContentToolResult id v err.
Proof.
  unfold _invoke_tool, try_except, get_name. destruct f as [f|].
  - destruct (apply_tool f arguments); [intros [= <-]; by eauto|].
    destruct (func_name f); [|done]. intros [= <-]. by eauto.
  - intros [= <-]. by eauto.
Qed.

Lemma answers_results tools reqs results :
  Forall2 (answers tools) reqs results ->
  forallb is_tool_result results = true /\
  omap result_id results = map (fun r => r.1.1) reqs.
Proof.
  induction 1 as [|[[id name] arguments] res reqs results Hans _ [IH1 IH2]]; [done|].
  apply invoke_tool_is_result in Hans as (v & err & ->). simpl.
  split; [done|]. f_equal. exact IH2.
Qed.

Section Loop.

Context {PS Completion Chunk Dict : Type}.
Context {P : Provider PS Completion Chunk Dict}.
Implicit Types (c : Chat PS) (U A : Turn).

Lemma invoke_tools_shape c :
  exists res,
    _invoke_tools c = Run [] res c /\
    match res with Ok (Some u) => tool_turn u | _ => True end.
Proof.
  unfold _invoke_tools, bind, get. simpl.
  destruct (get_last_turn assistant c) as [t|]; [|by exists (Ok None)].
  destruct (invoke_loop (_tools c) [] (contents t)) as [results|e] eqn:Hloop;
    [|by exists (Raise e)].
  apply invoke_loop_inv in Hloop as (results' & Hres & Hall).
  simpl in Hres. subst results'. simpl.
  apply answers_results in Hall as [Hres _].
  destruct results as [|r rs]; [by exists (Ok None)|].
  exists (Ok (Some (Turn_of_contents user (r :: rs)))). split; [done|].
  by exists (r :: rs).
Qed.

Lemma chat_impl_unfold fuel U echo stream kw c :
  _chat_impl (S fuel) (Some U) echo stream kw c =
    bind (_submit_turns U echo stream None kw)
      (fun _ => bind _invoke_tools
                  (fun next => _chat_impl fuel next echo stream kw)) c.
Proof. reflexivity. Qed.

(** The rounds of a run of the tool loop. *)
Lemma chat_impl_rounds fuel : forall U echo stream kw c,
  exists rounds,
    _tools (final (_chat_impl fuel (Some U) echo stream kw c)) = _tools c /\
    _turns (final (_chat_impl fuel (Some U) echo stream kw c)) =
      _turns c ++ rounds_turns rounds /\
    head (fst <$> rounds) = (if rounds is [] then None else Some U) /\
    Forall tool_turn (tail (fst <$> rounds)) /\
    (stream = false ->
     yielded (_chat_impl fuel (Some U) echo stream kw c) =
       flat_map (fun p => answer_texts p.2) rounds).
Proof.
  induction fuel as [|fuel IH]; intros U echo stream kw c.
  - exists []. simpl. by rewrite app_nil_r.
  - remember (_chat_impl (S fuel) (Some U) echo stream kw c) as r eqn:Hr.
    rewrite chat_impl_unfold in Hr. unfold bind in Hr.
    destruct (round_enters_dec U echo c) as [Hin|Hout].
    + rewrite (submit_turns_run _ _ _ _ _ _ Hin) in Hr.
      destruct (round_turn stream U None kw c) as [A|e] eqn:Hturn;
        cbn [outcome final yielded] in Hr.
      * set (c' := mkChat _ _ _) in Hr.
        destruct (invoke_tools_shape c') as (next & Hinv & Hnext).
        rewrite Hinv in Hr. cbn [outcome final yielded app] in Hr.
        assert (round_texts stream U None kw c = answer_texts A \/ stream = true)
          as Htexts.
        { destruct stream; [by right|left]. unfold round_texts. by rewrite Hturn. }
        destruct next as [[U'|]|e].
        3:{ exists [(U, A)]. subst r. cbn [outcome final yielded].
            split; [done|]. split; [done|]. split; [done|]. split; [done|].
            intros ->. destruct Htexts as [Ht|?]; [|done].
            rewrite Ht. simpl. by rewrite !app_nil_r. }
        -- destruct (IH U' echo stream kw c')
             as (rounds & Htools & Hturns & Hhd & Htl & Hy).
           exists ((U, A) :: rounds). subst r. cbn [outcome final yielded].
           split; [exact Htools|]. split.
           { rewrite Hturns. unfold c'. simpl. by rewrite <- app_assoc. }
           split; [done|]. split.
           { simpl. destruct rounds as [|[u a] rest]; [done|].
             simpl in *. injection Hhd as ->. by constructor. }
           intros ->. destruct Htexts as [Ht|?]; [|done].
           by rewrite Ht, Hy.
        -- rewrite chat_impl_None in Hr. exists [(U, A)]. subst r.
           cbn [outcome final yielded].
           split; [done|]. split; [done|]. split; [done|]. split; [done|].
           intros ->. destruct Htexts as [Ht|?]; [|done].
           rewrite Ht. simpl. by rewrite !app_nil_r.
      * exists []. subst r. simpl. split; [done|]. split; [by rewrite app_nil_r|].
        split; [done|]. split; [done|].
        intros ->. unfold round_texts. by rewrite Hturn.
    + destruct (submit_turns_refused U echo stream None kw c Hout) as [msg Hmsg].
      rewrite Hmsg in Hr. exists []. subst r. simpl. by rewrite app_nil_r.
Qed.

(** A run of the loop keeps the history, or leaves one with the property [Q]
    that every completed round establishes. *)
Lemma chat_impl_establishes (Q : list Turn -> Prop) :
  (forall U echo stream kw c,
     outcome (_submit_turns U echo stream None kw c) = Ok tt ->
     Q (_turns (final (_submit_turns U echo stream None kw c)))) ->
  forall fuel U echo stream kw c,
    _turns (final (_chat_impl fuel (Some U) echo stream kw c)) = _turns c \/
    Q (_turns (final (_chat_impl fuel (Some U) echo stream kw c))).
Proof.
  intros HQ. induction fuel as [|fuel IH]; intros U echo stream kw c; [by left|].
  remember (_chat_impl (S fuel) (Some U) echo stream kw c) as r eqn:Hr.
  rewrite chat_impl_unfold in Hr. unfold bind in Hr.
  pose proof (HQ U echo stream kw c) as Hround.
  destruct (submit_turns_history U echo stream None kw c)
    as [[Hsame [e He]]|(A & _ & Hok & _)].
  - rewrite He in Hr. subst r. by left.
  - specialize (Hround Hok). rewrite Hok in Hr.
    destruct (invoke_tools_shape (final (_submit_turns U echo stream None kw c)))
      as (next & Hinv & _).
    rewrite Hinv in Hr. cbn [outcome final yielded] in Hr.
    destruct next as [[U'|]|e].
    + subst r. cbn [final]. right.
      destruct (IH U' echo stream kw (final (_submit_turns U echo stream None kw c)))
        as [->|HQ']; done.
    + rewrite chat_impl_None in Hr. subst r. by right.
    + subst r. by right.
Qed.

(** X6.  Whatever the provider answers and however the loop ends, the tool
    loop never changes the registered tools and only appends to the history,
    in whole rounds: each round adds the submitted turn followed by the
    answer; the first submitted turn is the caller's, and every later one is
    a user turn made of tool results. *)
Theorem chat_impl_extends_history fuel U echo stream kw c :
  _tools (final (_chat_impl fuel (Some U) echo stream kw c)) = _tools c /\
  exists rounds,
    _turns (final (_chat_impl fuel (Some U) echo stream kw c)) =
      _turns c ++ rounds_turns rounds /\
    head (fst <$> rounds) = (if rounds is [] then None else Some U) /\
    Forall tool_turn (tail (fst <$> rounds)).
Proof.
  destruct (chat_impl_rounds fuel U echo stream kw c)
    as (rounds & Htools & Hturns & Hhd & Htl & _).
  split; [exact Htools|]. by exists rounds.
Qed.

Lemma get_content_from (chunks : list string) (content : string) :
  fold_left (fun content chunk => content +:+ chunk) chunks content =
    content +:+ concat_text chunks.
Proof.
  revert content. induction chunks as [|x rest IH]; intros content; simpl.
  - by rewrite string_app_nil_r.
  - rewrite IH. unfold concat_text. cbn [foldr]. by rewrite string_app_assoc.
Qed.

Lemma concat_answer_texts (rounds : list (Turn * Turn)) :
  concat_text (flat_map (fun p => answer_texts p.2) rounds) =
    concat_text (text <$> (snd <$> rounds)).
Proof.
  induction rounds as [|[u a] rest IH]; [done|].
  cbn [flat_map fmap list_fmap snd]. rewrite concat_text_app, IH.
  unfold answer_texts, concat_text at 1 3. cbn [foldr].
  destruct (text a) as [|ch s]; cbn [truthy foldr]; [done|].
  by rewrite string_app_nil_r.
Qed.

(** X7.  The text of an unstreamed [chat] call, as its [ChatResponse]
    collects it, is the concatenated text of the answers that the call
    appended to the history: what the caller reads is what the history
    records, also over several tool rounds and when a later round fails. *)
Theorem chat_text_is_answer_text fuel args echo kw c :
  exists rounds,
    _turns (final (chat fuel args echo false kw c)) =
      _turns c ++ rounds_turns rounds /\
    get_content (yielded (chat fuel args echo false kw c)) =
      concat_text (text <$> (snd <$> rounds)).
Proof.
  unfold chat.
  destruct (chat_impl_rounds fuel (user_turn args) echo false kw c)
    as (rounds & _ & Hturns & _ & _ & Hy).
  exists rounds. split; [exact Hturns|].
  unfold get_content. rewrite get_content_from, Hy by done.
  rewrite concat_answer_texts. reflexivity.
Qed.

Lemma existsb_elem_of {A : Type} (f : A -> bool) (l : list A) (x : A) :
  x ∈ l -> f x = true -> existsb f l = true.
Proof.
  induction 1 as [y l|y z l _ IH]; intros Hx; simpl.
  - by rewrite Hx.
  - rewrite IH by done. by destruct (f z).
Qed.

Lemma any_async_insert (tools : dict Tool) (tool : Tool) :
  _is_async tool = true -> any_async (<[name tool := tool]> tools) = true.
Proof.
  intros Hasync. unfold any_async.
  apply (existsb_elem_of _ _ tool); [|done].
  apply (dict_lookup_values _ (name tool)). apply dict_lookup_insert_eq.
Qed.

(** X8.  Once an async tool has been registered, every synchronous round is
    refused: [_submit_turns], [chat] and [extract_data] raise [ValueError],
    yield nothing and leave the chat as it was: no request reaches the
    provider and no turn is recorded. *)
Theorem async_tool_blocks_chat (tool : Tool) c :
  _is_async tool = true ->
  let c' := final (register_tool tool c) in
  let e := ValueError "Cannot use async tools in a synchronous chat" in
  (forall U echo stream dm kw,
     _submit_turns U echo stream dm kw c' = Run [] (Raise e) c') /\
  (forall fuel args echo stream kw,
     chat (S fuel) args echo stream kw c' = Run [] (Raise e) c') /\
  (forall args dm echo stream,
     extract_data args dm echo stream c' = Run [] (Raise e) c').
Proof.
  intros Hasync c' e.
  assert (forall U echo stream dm kw,
            _submit_turns U echo stream dm kw c' = Run [] (Raise e) c') as Hround.
  { intros. unfold _submit_turns.
    match goal with |- context [generator ?b] => set (body := b) end.
    rewrite (generator_raise body c' c' [] e); [done|].
    subst body. unfold bind, get. cbn [outcome final yielded].
    unfold c', register_tool, modify. cbn [final _tools].
    by rewrite any_async_insert. }
  split; [exact Hround|]. split.
  - intros. unfold chat. rewrite chat_impl_unfold. unfold bind at 1.
    by rewrite Hround.
  - intros. unfold extract_data. unfold bind at 1. by rewrite Hround.
Qed.

(** X10.  The turn that [_invoke_tools] builds from the last assistant turn
    [t] is a user turn made of tool results only, and the ids of the results
    are the ids of the tool requests of [t], in the same order. *)
Theorem tool_results_match_requests c t (U' : Turn) :
  get_last_turn assistant c = Some t ->
  outcome (_invoke_tools c) = Ok (Some U') ->
  role U' = user /\
  forallb is_tool_result (contents U') = true /\
  omap result_id (contents U') = (fun r => r.1.1) <$> tool_requests (contents t).
Proof.
  intros Hlast Hout.
  rewrite (invoke_tools_run c t Hlast) in Hout. simpl in Hout.
  destruct (invoke_loop (_tools c) [] (contents t)) as [results|e] eqn:Hloop;
    [|done].
  apply invoke_loop_inv in Hloop as (results' & Hres & Hall).
  simpl in Hres. subst results'.
  apply answers_results in Hall as [Hres Hids].
  destruct results as [|r rs]; [done|]. injection Hout as <-.
  split; [done|]. split; [exact Hres|exact Hids].
Qed.

(** Iterating a stream never raises [StopIteration]: that is how it ends. *)
Lemma stream_result_not_stop (s : Stream Chunk) (acc : option Dict) e :
  stream_result s acc = Raise e -> pep479 e = e.
Proof.
  revert acc. induction s as [|chunk rest IH|e']; intros acc; simpl; [done|apply IH|].
  unfold pep479. destruct (is_instance "StopIteration" e') eqn:He'; [done|].
  intros [= <-]. by rewrite He'.
Qed.

(** X26.  A streamed round yields the text of every chunk as it arrives,
    before the turn is built: when the stream then fails, the round raises
    the exception of the stream and records no turn, but the text of the
    chunks received up to the failure has been yielded. *)
Theorem streamed_round_yields_chunks U echo dm kw c (s : Stream Chunk) :
  round_enters U echo c ->
  fst (chat_perform_stream (_turns c ++ [U]) (_tools c) dm kw (provider c)) = Ok s ->
  yielded (_submit_turns U echo true dm kw c) = stream_texts s /\
  forall e, stream_result s None = Raise e ->
    outcome (_submit_turns U echo true dm kw c) = Raise e /\
    _turns (final (_submit_turns U echo true dm kw c)) = _turns c.
Proof.
  intros Hin Hs. rewrite (submit_turns_run _ _ _ _ _ _ Hin).
  unfold round_texts, round_turn. rewrite Hs. cbn [yielded].
  split; [done|]. intros e He. rewrite He. cbn [outcome final].
  by rewrite (stream_result_not_stop s None e He).
Qed.

End Loop.


(** ** Messages of the OpenAI provider *)

Section OpenAIMessages.

Variable json_dumps : value -> string.
Variable get_final_value : Content -> string.

#[local] Abbreviation _as_message_param := (OpenAI._as_message_param json_dumps get_final_value).
#[local] Abbreviation message_params := (OpenAI.message_params json_dumps get_final_value).

Lemma assistant_parts_spec xs cp tc :
  match OpenAI.assistant_parts json_dumps xs cp tc with
  | Ok _ => forallb (sendable_content assistant) xs = true
  | Raise e =>
      forallb (sendable_content assistant) xs = false /\ exists msg, e = ValueError msg
  end.
Proof.
  revert cp tc. induction xs as [|x rest IH]; intros cp tc; [done|].
  destruct x; cbn [OpenAI.assistant_parts forallb sendable_content andb];
    try apply IH; by eauto.
Qed.

Lemma user_parts_spec xs cs trs :
  match OpenAI.user_parts get_final_value xs cs trs with
  | Ok _ => forallb (sendable_content user) xs = true
  | Raise e =>
      forallb (sendable_content user) xs = false /\ exists msg, e = ValueError msg
  end.
Proof.
  revert cs trs. induction xs as [|x rest IH]; intros cs trs; [done|].
  destruct x; cbn [OpenAI.user_parts forallb sendable_content andb];
    try apply IH; by eauto.
Qed.

Lemma sendable_system t : role t = system -> sendable t = true.
Proof.
  unfold sendable. intros ->. by induction (contents t).
Qed.

Lemma message_params_spec turns res :
  match message_params turns res with
  | Ok _ => forallb sendable turns = true
  | Raise e => forallb sendable turns = false /\ exists msg, e = ValueError msg
  end.
Proof.
  revert res. induction turns as [|t rest IH]; intros res; [done|].
  cbn [OpenAI.message_params forallb].
  destruct (role t) eqn:Hrole.
  - rewrite sendable_system by done. apply IH.
  - unfold sendable. rewrite Hrole.
    pose proof (user_parts_spec (contents t) [] []) as Hu.
    destruct (OpenAI.user_parts _ _ _ _) as [[cs trs]|e].
    + rewrite Hu. apply IH.
    + destruct Hu as [-> Hmsg]. by split.
  - unfold sendable. rewrite Hrole.
    pose proof (assistant_parts_spec (contents t) [] []) as Ha.
    destruct (OpenAI.assistant_parts _ _ _ _) as [[cp tc]|e].
    + rewrite Ha. apply IH.
    + destruct Ha as [-> Hmsg]. by split.
Qed.

(** X11.  [_as_message_param] converts a history exactly when every
    assistant turn holds only text, JSON and tool requests and every user
    turn holds only text, JSON, images and tool results (a system turn is
    always converted, by its text); otherwise it raises [ValueError]. *)
Theorem as_message_param_sendable turns :
  ((exists msgs, _as_message_param turns = Ok msgs) <->
   forallb sendable turns = true) /\
  (forall e, _as_message_param turns = Raise e -> exists msg, e = ValueError msg).
Proof.
  unfold OpenAI._as_message_param.
  pose proof (message_params_spec turns []) as H.
  destruct (message_params turns []) as [msgs|e].
  - split; [|done]. split; [done|by eauto].
  - destruct H as [Hno Hmsg]. split.
    + split; [by intros [? ?]|]. by rewrite Hno.
    + by intros ? [= <-].
Qed.

Lemma message_params_acc turns res :
  message_params turns res =
    match message_params turns [] with
    | Ok msgs => Ok (res ++ msgs)
    | Raise e => Raise e
    end.
Proof.
  revert res. induction turns as [|t rest IH]; intros res.
  - simpl. by rewrite app_nil_r.
  - cbn [OpenAI.message_params]. destruct (role t).
    + rewrite IH. rewrite (IH ([] ++ _)).
      destruct (message_params rest []); [|done]. by rewrite <- app_assoc.
    + destruct (OpenAI.user_parts _ _ _ _) as [[cs trs]|e]; [|done].
      rewrite IH. rewrite (IH (_ ++ trs)).
      destruct (message_params rest []); [|done].
      destruct cs; simpl; by rewrite <- ?app_assoc.
    + destruct (OpenAI.assistant_parts _ _ _ _) as [[cp tc]|e]; [|done].
      rewrite IH. rewrite (IH ([] ++ _)).
      destruct (message_params rest []); [|done]. by rewrite <- app_assoc.
Qed.

Lemma message_params_app a b res :
  message_params (a ++ b) res =
    match message_params a res with
    | Ok msgs => message_params b msgs
    | Raise e => Raise e
    end.
Proof.
  revert res. induction a as [|t rest IH]; intros res; [done|].
  cbn [app OpenAI.message_params]. destruct (role t).
  - apply IH.
  - destruct (OpenAI.user_parts _ _ _ _) as [[cs trs]|e]; [|done]. apply IH.
  - destruct (OpenAI.assistant_parts _ _ _ _) as [[cp tc]|e]; [|done]. apply IH.
Qed.

(** X12.  The messages of a history are the messages of its turns, one turn
    after the other: converting [a ++ b] gives the messages of [a] followed
    by those of [b], and fails with the exception of the first part that
    fails. *)
Theorem as_message_param_app a b :
  _as_message_param (a ++ b) =
    match _as_message_param a with
    | Raise e => Raise e
    | Ok ma =>
        match _as_message_param b with
        | Raise e => Raise e
        | Ok mb => Ok (ma ++ mb)
        end
    end.
Proof.
  unfold OpenAI._as_message_param. rewrite message_params_app.
  destruct (message_params a []) as [ma|e]; [|done].
  apply message_params_acc.
Qed.

Lemma user_parts_results xs cs trs :
  forallb is_tool_result xs = true ->
  exists msgs,
    OpenAI.user_parts get_final_value xs cs trs = Ok (cs, trs ++ msgs) /\
    Forall2 (fun x m =>
               exists d, m = VDict d /\
                 d !! "role" = Some (VStr "tool") /\
                 d !! "tool_call_id" = VStr <$> result_id x /\
                 d !! "content" = Some (VStr (get_final_value x))) xs msgs.
Proof.
  revert trs. induction xs as [|x rest IH]; intros trs Hall.
  - exists []. by rewrite app_nil_r.
  - destruct x as [| | | | |id v err]; try done.
    cbn [OpenAI.user_parts]. simpl in Hall.
    destruct (IH (trs ++
      [VDict {[ "content" := VStr (get_final_value (ContentToolResult id v err));
                "tool_call_id" := VStr id; "role" := VStr "tool" ]}]) Hall)
      as (msgs & -> & Hmsgs).
    eexists (_ :: msgs). split; [by rewrite <- app_assoc|].
    constructor; [|exact Hmsgs].
    eexists. split; [reflexivity|]. by simplify_map_eq.
Qed.

(** X13.  The user turn that carries the results of a tool round is sent as
    tool messages only: one message with role "tool" per result, in order,
    each with the id of its result as [tool_call_id], and no message with
    role "user". *)
Theorem tool_results_as_messages results :
  forallb is_tool_result results = true ->
  exists msgs,
    _as_message_param [Turn_of_contents user results] = Ok msgs /\
    Forall2 (fun x m =>
               exists d, m = VDict d /\
                 d !! "role" = Some (VStr "tool") /\
                 d !! "tool_call_id" = VStr <$> result_id x /\
                 d !! "content" = Some (VStr (get_final_value x))) results msgs.
Proof.
  intros Hall.
  destruct (user_parts_results results [] [] Hall) as (msgs & Hparts & Hmsgs).
  exists msgs. split; [|exact Hmsgs].
  unfold OpenAI._as_message_param. cbn [OpenAI.message_params role Turn_of_contents contents].
  rewrite Hparts. reflexivity.
Qed.

End OpenAIMessages.

Lemma forallb_app_true {A : Type} (f : A -> bool) (l k : list A) :
  forallb f (l ++ k) = forallb f l && forallb f k.
Proof. induction l as [|x l IH]; [done|]. simpl. by rewrite IH, andb_assoc. Qed.

Lemma pep479_out_of_generator (e : exception) : pep479 e = out_of_generator e.
Proof. by destruct e. Qed.

Lemma out_of_generator_class (cls msg : string) :
  cls <> "StopIteration" ->
  out_of_generator (Exception cls msg) = Exception cls msg.
Proof. intros Hne. unfold out_of_generator. by rewrite bool_decide_eq_false_2. Qed.

Section ToolCalls.

Variable json_loads : string -> result value.

Lemma tool_requests_app (cs cs' : list Content) :
  tool_requests (cs ++ cs') = tool_requests cs ++ tool_requests cs'.
Proof. unfold tool_requests. apply omap_app. Qed.

(** What [tool_arguments] does, by the text of the arguments. *)
Lemma tool_arguments_spec (f : OpenAI.Function) :
  match OpenAI.fn_arguments f with
  | Some (String a s) =>
      match json_loads (String a s) with
      | Ok v => OpenAI.tool_arguments json_loads f = Ok v
      | Raise (Exception cls msg) =>
          OpenAI.tool_arguments json_loads f =
            if bool_decide (cls = "JSONDecodeError") then Ok (VDict ∅)
            else Raise (Exception cls msg)
      end
  | _ => OpenAI.tool_arguments json_loads f = Ok (VDict ∅)
  end.
Proof.
  unfold OpenAI.tool_arguments.
  destruct (OpenAI.fn_arguments f) as [[|a s]|]; cbn [truthy default]; try done.
  unfold id. by destruct (json_loads (String a s)) as [v|[cls msg]].
Qed.

(** The loop over the tool calls, when it returns, has appended one request
    per call that carries a function, in the order of the calls. *)
Lemma tool_requests_of_inv calls cs cs' :
  OpenAI.tool_requests_of json_loads calls cs = Ok cs' ->
  exists reqs,
    cs' = cs ++ (request_content <$> reqs) /\
    Forall2 (requested_by json_loads)
      (filter (fun call => is_Some (OpenAI.tc_function call)) calls) reqs.
Proof.
  revert cs. induction calls as [|call rest IH]; intros cs.
  - intros [= <-]. exists []. split; [by rewrite app_nil_r|constructor].
  - cbn [OpenAI.tool_requests_of]. rewrite filter_cons.
    destruct (OpenAI.tc_function call) as [f|] eqn:Hf.
    + destruct (OpenAI.tool_arguments json_loads f) as [args|e] eqn:Hargs; [|done].
      intros Hrest. apply IH in Hrest as (reqs & -> & Hall).
      destruct (decide _) as [_|Hn]; [|exfalso; apply Hn; by eexists].
      exists ((OpenAI.tc_id call, OpenAI.fn_name f, args) :: reqs). split.
      { by rewrite <- app_assoc. }
      constructor; [|exact Hall].
      exists f. split; [done|]. split; [done|]. split; [done|]. cbn [snd].
      pose proof (tool_arguments_spec f) as Hspec. rewrite Hargs in Hspec.
      destruct (OpenAI.fn_arguments f) as [[|a s]|]; try congruence.
      destruct (json_loads (String a s)) as [v|[cls msg]]; [congruence|].
      destruct (bool_decide (cls = "JSONDecodeError")) eqn:Hcls; [|done].
      apply bool_decide_eq_true in Hcls. split; congruence.
    + destruct (decide _) as [[? ?]|_]; [done|]. apply IH.
Qed.

(** The loop raises only what the parser raised on the arguments of a call,
    and never a [JSONDecodeError]. *)
Lemma tool_requests_of_raise calls cs e :
  OpenAI.tool_requests_of json_loads calls cs = Raise e ->
  exists call f a s,
    call ∈ calls /\ OpenAI.tc_function call = Some f /\
    OpenAI.fn_arguments f = Some (String a s) /\
    json_loads (String a s) = Raise e /\
    class_of e <> "JSONDecodeError".
Proof.
  revert cs. induction calls as [|call rest IH]; intros cs; [done|].
  cbn [OpenAI.tool_requests_of].
  destruct (OpenAI.tc_function call) as [f|] eqn:Hf.
  - pose proof (tool_arguments_spec f) as Hspec.
    destruct (OpenAI.tool_arguments json_loads f) as [args|e'] eqn:Hargs.
    + intros Hrest. apply IH in Hrest as (call' & f' & a & s & Hin & Hrest).
      exists call', f', a, s. split; [by apply list_elem_of_further|done].
    + intros [= <-]. exists call, f.
      destruct (OpenAI.fn_arguments f) as [[|a s]|]; try done.
      destruct (json_loads (String a s)) as [v|[cls msg]] eqn:Hs; [done|].
      destruct (bool_decide (cls = "JSONDecodeError")) eqn:Hcls; [done|].
      apply bool_decide_eq_false in Hcls. injection Hspec as ->.
      exists a, s. split; [apply list_elem_of_here|]. by repeat split.
  - intros Hrest. apply IH in Hrest as (call' & f' & a & s & Hin & Hrest).
    exists call', f', a, s. split; [by apply list_elem_of_further|done].
Qed.

Lemma request_contents_requests (reqs : list (string * string * value)) :
  tool_requests (request_content <$> reqs) = reqs.
Proof.
  induction reqs as [|[[id name] args] rest IH]; [done|].
  cbn. f_equal. exact IH.
Qed.

Lemma request_contents_plain (reqs : list (string * string * value)) :
  count_json (request_content <$> reqs) = 0 /\
  contents_text (request_content <$> reqs) = "" /\
  forallb (sendable_content assistant) (request_content <$> reqs) = true.
Proof. by induction reqs as [|[[id name] args] rest IH]. Qed.

End ToolCalls.

Section OpenAIRounds.

Variable json_loads : string -> result value.
Variable json_dumps : value -> string.
Variable get_final_value : Content -> string.
Variable merge_dicts :
  OpenAI.ChatCompletion -> OpenAI.ChatCompletion -> OpenAI.ChatCompletion.
Variable Client : Type.
Variable create :
  gmap string value -> Client -> result OpenAI.ChatCompletion * Client.
Variable create_stream :
  gmap string value -> Client ->
  result (Stream OpenAI.ChatCompletionChunk) * Client.

#[local] Instance openai_rounds :
  Provider (OpenAI.OpenAIProvider Client) OpenAI.ChatCompletion
    OpenAI.ChatCompletionChunk OpenAI.ChatCompletion :=
  OpenAI.provider_instance json_loads json_dumps get_final_value merge_dicts
    Client create create_stream.

Implicit Types (c : Chat (OpenAI.OpenAIProvider Client)) (U A : Turn).
Implicit Types (R : OpenAI.ChatCompletion).

#[local] Abbreviation _as_message_param :=
  (OpenAI._as_message_param json_dumps get_final_value).
#[local] Abbreviation _as_turn := (OpenAI._as_turn json_loads).

(** The contents of the turn that [_as_turn] returns: what the message
    content gives, then the tool requests. *)
Lemma as_turn_contents R has_data_model A
    (first : OpenAI.Choice) (others : list OpenAI.Choice) (m : OpenAI.Message) :
  _as_turn R has_data_model = Ok A ->
  OpenAI.choices R = first :: others ->
  OpenAI.message first = Some m ->
  exists cs0 reqs,
    contents A = cs0 ++ (request_content <$> reqs) /\
    match OpenAI.content m with
    | Some text =>
        if has_data_model
        then exists data, json_loads text = Ok data /\ cs0 = [ContentJson data]
        else cs0 = [ContentText text]
    | None => cs0 = []
    end /\
    Forall2 (requested_by json_loads)
      (filter (fun call => is_Some (OpenAI.tc_function call))
         (default [] (OpenAI.tool_calls m))) reqs.
Proof.
  intros HA Hchoices Hmsg.
  apply as_turn_inv in HA
    as (first' & others' & m' & cs0 & cs & Hch & Hm & Hcs0 & Hcs & ->).
  rewrite Hchoices in Hch. injection Hch as <- <-.
  rewrite Hmsg in Hm. injection Hm as <-. cbn [contents].
  destruct (OpenAI.tool_calls m) as [calls|]; cbn [default].
  - apply tool_requests_of_inv in Hcs as (reqs & -> & Hall). by exists cs0, reqs.
  - subst cs. exists cs0, []. split; [by rewrite app_nil_r|]. split; [done|].
    constructor.
Qed.

Lemma as_turn_sendable R has_data_model A :
  _as_turn R has_data_model = Ok A -> sendable A = true.
Proof.
  intros HA. pose proof (as_turn_role _ _ _ _ HA) as Hrole.
  pose proof HA as HA'.
  apply as_turn_inv in HA'
    as (first & others & m & cs0' & cs' & Hch & Hm & _ & _ & _).
  destruct (as_turn_contents R has_data_model A first others m HA Hch Hm)
    as (cs0 & reqs & Hcs & Hcs0 & _).
  unfold sendable. rewrite Hrole, Hcs, forallb_app_true.
  destruct (request_contents_plain reqs) as (_ & _ & ->). rewrite andb_true_r.
  destruct (OpenAI.content m) as [s|]; [|by subst].
  destruct has_data_model; [|by subst].
  by destruct Hcs0 as (data & _ & ->).
Qed.

(** Where the turn of a completed round comes from: the history with the
    submitted turn was converted to messages, and the turn was built by
    [_as_turn] from a completion. *)
Lemma round_turn_inv stream U dm kw c A :
  round_turn stream U dm kw c = Ok A ->
  (exists msgs, _as_message_param (_turns c ++ [U]) = Ok msgs) /\
  exists R, _as_turn R (bool_decide (dm <> None)) = Ok A.
Proof.
  unfold round_turn. destruct stream.
  - cbn [chat_perform_stream openai_rounds OpenAI.provider_instance stream_turn].
    unfold OpenAI.chat_perform_stream, OpenAI._chat_perform_args.
    destruct (_as_message_param (_turns c ++ [U])) as [msgs|e]; [|done].
    cbn [fst]. destruct (fst (create_stream _ _)) as [s|e]; [|done].
    destruct (stream_result s None) as [d|e]; [|done].
    unfold OpenAI.stream_turn. destruct d as [d|]; [|done].
    destruct (OpenAI.choices d) as [|first others]; [done|].
    destruct (OpenAI.choice_delta first); [|done]. by eauto.
  - cbn [chat_perform openai_rounds OpenAI.provider_instance value_turn].
    unfold OpenAI.chat_perform, OpenAI._chat_perform_args.
    destruct (_as_message_param (_turns c ++ [U])) as [msgs|e]; [|done].
    cbn [fst]. destruct (fst (create _ _)) as [R|e]; [|done].
    unfold OpenAI.value_turn. by eauto.
Qed.

Lemma completed_round_sendable U echo stream dm kw c :
  outcome (_submit_turns U echo stream dm kw c) = Ok tt ->
  forallb sendable (_turns (final (_submit_turns U echo stream dm kw c))) = true.
Proof.
  intros Hok.
  destruct (submit_turns_history U echo stream dm kw c)
    as [[_ [e He]]|(A & Hturn & _ & ->)]; [congruence|].
  apply round_turn_inv in Hturn as [[msgs Hmsgs] [R HA]].
  apply as_turn_sendable in HA.
  pose proof (message_params_spec json_dumps get_final_value (_turns c ++ [U]) [])
    as Hsent.
  unfold OpenAI._as_message_param in Hmsgs. rewrite Hmsgs in Hsent.
  change [U; A] with ([U] ++ [A]). rewrite app_assoc, forallb_app_true, Hsent.
  simpl. by rewrite HA.
Qed.

Lemma sendable_converted turns :
  forallb sendable turns = true -> exists msgs, _as_message_param turns = Ok msgs.
Proof.
  intros Hs. unfold OpenAI._as_message_param.
  pose proof (message_params_spec json_dumps get_final_value turns []) as H.
  destruct (OpenAI.message_params _ _ turns []) as [msgs|e]; [by eauto|].
  destruct H as [H _]. congruence.
Qed.

(** X14.  A completed round against the OpenAI provider leaves a history
    that can be sent again: [_as_message_param] converts it without an
    exception.  So does the tool loop: it leaves the history as it was, or
    one that can be sent again. *)
Theorem history_stays_sendable U echo stream kw c :
  (forall dm,
     outcome (_submit_turns U echo stream dm kw c) = Ok tt ->
     exists msgs,
       _as_message_param (_turns (final (_submit_turns U echo stream dm kw c))) =
         Ok msgs) /\
  (forall fuel,
     _turns (final (_chat_impl fuel (Some U) echo stream kw c)) = _turns c \/
     exists msgs,
       _as_message_param (_turns (final (_chat_impl fuel (Some U) echo stream kw c))) =
         Ok msgs).
Proof.
  split.
  - intros dm Hok. by apply sendable_converted, completed_round_sendable.
  - intros fuel.
    apply (chat_impl_establishes
             (fun turns => exists msgs, _as_message_param turns = Ok msgs)).
    intros U' echo' stream' kw' c' Hok.
    by apply sendable_converted, completed_round_sendable.
Qed.

(** X15.  When the history with the submitted turn cannot be converted to
    messages, the round raises the exception of the conversion before the
    client is called: nothing is yielded and the chat, its provider object
    included, is as it was. *)
Theorem unsendable_round_refused U echo stream dm kw c e :
  round_enters U echo c ->
  _as_message_param (_turns c ++ [U]) = Raise e ->
  _submit_turns U echo stream dm kw c = Run [] (Raise e) c.
Proof.
  intros Hin Hconv. rewrite (submit_turns_run _ _ _ _ _ _ Hin).
  assert (pep479 e = e) as Hclass.
  { pose proof (message_params_spec json_dumps get_final_value (_turns c ++ [U]) [])
      as Hspec.
    unfold OpenAI._as_message_param in Hconv. rewrite Hconv in Hspec.
    by destruct Hspec as [_ [msg ->]]. }
  unfold round_texts, round_turn, round_provider.
  cbn [chat_perform chat_perform_stream openai_rounds OpenAI.provider_instance].
  unfold OpenAI.chat_perform, OpenAI.chat_perform_stream, OpenAI._chat_perform_args.
  rewrite Hconv. destruct c. destruct stream; cbn; by rewrite Hclass.
Qed.

Lemma as_turn_tokens R has_data_model A :
  _as_turn R has_data_model = Ok A -> tokens A = Some (completion_tokens_of R).
Proof.
  intros HA. by apply as_turn_inv in HA as (? & ? & ? & ? & ? & _ & _ & _ & _ & ->).
Qed.

(** X16.  After a completed unstreamed round against the OpenAI provider,
    [token_usage] reports the token counts of the completion that the
    client returned for this round: its [usage], else its [x_groq] usage,
    else [(0, 0)]. *)
Theorem token_usage_after_round U echo dm kw c R :
  outcome (_submit_turns U echo false dm kw c) = Ok tt ->
  fst (chat_perform (_turns c ++ [U]) (_tools c) dm kw (provider c)) = Ok R ->
  token_usage (final (_submit_turns U echo false dm kw c)) = completion_tokens_of R.
Proof.
  intros Hok HR.
  destruct (submit_turns_history U echo false dm kw c)
    as [[_ [e He]]|(A & Hturn & _ & Hturns)]; [congruence|].
  unfold token_usage, get_last_turn. rewrite Hturns.
  change [U; A] with ([U] ++ [A]). rewrite app_assoc.
  unfold round_turn in Hturn. rewrite HR in Hturn.
  cbn [value_turn openai_rounds OpenAI.provider_instance] in Hturn.
  unfold OpenAI.value_turn in Hturn.
  rewrite last_with_role_app_last by (by eapply as_turn_role).
  by rewrite (as_turn_tokens _ _ _ Hturn).
Qed.

(** X17.  A streamed round whose response ends without a chunk raises
    [TypeError]: nothing is yielded and no turn is recorded. *)
Theorem empty_stream_raises U echo dm kw c :
  round_enters U echo c ->
  fst (chat_perform_stream (_turns c ++ [U]) (_tools c) dm kw (provider c)) = Ok SNil ->
  outcome (_submit_turns U echo true dm kw c) =
    Raise (TypeError "'NoneType' object is not subscriptable") /\
  yielded (_submit_turns U echo true dm kw c) = [] /\
  _turns (final (_submit_turns U echo true dm kw c)) = _turns c.
Proof.
  intros Hin Hempty. rewrite (submit_turns_run _ _ _ _ _ _ Hin).
  unfold round_texts, round_turn. rewrite Hempty. by simpl.
Qed.

Lemma tool_part_ok (m : OpenAI.Message) (cs0 : list Content) :
  arguments_decodable json_loads m ->
  exists reqs,
    match OpenAI.tool_calls m with
    | Some calls => OpenAI.tool_requests_of json_loads calls cs0
    | None => Ok cs0
    end = Ok (cs0 ++ (request_content <$> reqs)) /\
    Forall2 (requested_by json_loads)
      (filter (fun call => is_Some (OpenAI.tc_function call))
         (default [] (OpenAI.tool_calls m))) reqs.
Proof.
  intros Hdec. destruct (OpenAI.tool_calls m) as [calls|] eqn:Hcalls.
  - destruct (OpenAI.tool_requests_of json_loads calls cs0) as [cs|e] eqn:Hcs.
    + apply tool_requests_of_inv in Hcs as (reqs & -> & Hall). by exists reqs.
    + apply tool_requests_of_raise in Hcs
        as (call & f & a & s & Hin & Hf & Hargs & Hs & Hcls).
      destruct e as [cls msg]. exfalso. apply Hcls. cbn.
      by apply (Hdec calls call f a s cls msg).
  - exists []. split; [by rewrite app_nil_r|constructor].
Qed.

(** X18.  [extract_data] against the OpenAI provider, unstreamed, when the
    client returns a completion whose first message has the text [s] and
    tool calls, if any, with arguments that the parser reads or rejects with
    [JSONDecodeError]: when the parser returns a value for [s], the call
    returns that value, yields nothing and records the round, with the
    value as the one ContentJson item of the answer; when the parser raises
    on [s], the call raises the exception of the parser (a [StopIteration]
    as [RuntimeError]) and records nothing.  When the message has no text
    the call raises [ValueError] for 0 data results after the round has
    been recorded. *)
Theorem extract_data_parses_content args dm echo c R
    (first : OpenAI.Choice) (others : list OpenAI.Choice) (m : OpenAI.Message) :
  any_async (_tools c) = false ->
  fst (chat_perform (_turns c ++ [user_turn args]) (_tools c) (Some dm) None
         (provider c)) = Ok R ->
  OpenAI.choices R = first :: others ->
  OpenAI.message first = Some m ->
  arguments_decodable json_loads m ->
  match OpenAI.content m with
  | Some s =>
      match json_loads s with
      | Ok v =>
          outcome (extract_data args dm echo false c) = Ok v /\
          yielded (extract_data args dm echo false c) = [] /\
          exists A requests,
            contents A = ContentJson v :: requests /\
            count_json requests = 0 /\
            _turns (final (extract_data args dm echo false c)) =
              _turns c ++ [user_turn args; A]
      | Raise e =>
          outcome (extract_data args dm echo false c) =
            Raise (out_of_generator e) /\
          _turns (final (extract_data args dm echo false c)) = _turns c
      end
  | None =>
      outcome (extract_data args dm echo false c) =
        Raise (Exception "ValueError"
                 "Data extraction failed: 0 data results received.") /\
      exists A,
        _turns (final (extract_data args dm echo false c)) =
          _turns c ++ [user_turn args; A]
  end.
Proof.
  intros Hasync HR Hchoices Hmsg Hdec.
  assert (round_enters (user_turn args) echo c) as Hin by (by split).
  unfold extract_data, bind.
  rewrite (submit_turns_run _ _ _ _ _ _ Hin).
  unfold round_texts, round_turn. rewrite HR.
  cbn [value_turn openai_rounds OpenAI.provider_instance].
  unfold OpenAI.value_turn, OpenAI._as_turn. rewrite Hchoices, Hmsg.
  rewrite bool_decide_eq_true_2 by done.
  assert (forall A, role A = assistant ->
            get_last_turn assistant
              (mkChat (round_provider false (user_turn args) (Some dm) None c)
                 (_turns c ++ [user_turn args; A]) (_tools c)) = Some A) as Hlast.
  { intros A HA. unfold get_last_turn. cbn [_turns].
    change [user_turn args; A] with ([user_turn args] ++ [A]). rewrite app_assoc.
    by apply last_with_role_app_last. }
  destruct (OpenAI.content m) as [s|].
  - destruct (json_loads s) as [v|e]; [|by rewrite pep479_out_of_generator].
    destruct (tool_part_ok m [ContentJson v] Hdec) as (reqs & -> & _).
    destruct (request_contents_plain reqs) as (Hcount & Htext & _).
    unfold text. cbn [contents contents_text app]. rewrite Htext.
    cbn [truthy outcome final yielded get]. rewrite Hlast by done.
    cbn [contents].
    change (json_items (ContentJson v :: (request_content <$> reqs)))
      with (v :: json_items (request_content <$> reqs)).
    rewrite (json_items_none _ Hcount). cbn [length].
    rewrite bool_decide_eq_false_2 by (intros Hne; by apply Hne).
    cbn [ret raise outcome yielded final app _turns].
    split; [done|]. split; [done|]. eexists _, (request_content <$> reqs).
    split; [|split]; last first.
    { reflexivity. }
    { exact Hcount. }
    reflexivity.
  - destruct (tool_part_ok m [] Hdec) as (reqs & -> & _).
    destruct (request_contents_plain reqs) as (Hcount & Htext & _).
    unfold text. cbn [contents contents_text app]. rewrite Htext.
    cbn [truthy outcome final yielded get]. rewrite Hlast by done.
    cbn [contents]. rewrite (json_items_none _ Hcount). cbn [length].
    rewrite bool_decide_eq_true_2 by done.
    cbn [ret raise outcome yielded final app _turns].
    split; [done|]. by eexists.
Qed.

End OpenAIRounds.

(** ** Turns and request arguments of the OpenAI provider *)

Section AsTurn.

Variable json_loads : string -> result value.

#[local] Abbreviation _as_turn := (OpenAI._as_turn json_loads).

(** X19.  The tool requests of the turn that [_as_turn] builds are the tool
    calls of the first message that carry a function, in their order; each
    request has the id of its call and the name of the function, and as
    arguments the parsed JSON text of the call, or an empty dict when that
    text is absent or empty or when the parser raises [JSONDecodeError] on
    it.  Such arguments never make [_as_turn] raise: when the parser raises
    nothing but [JSONDecodeError] on the arguments of the tool calls, and
    returns a value for the text of the message if a data model was given,
    [_as_turn] returns a turn. *)
Theorem as_turn_tool_requests R has_data_model
    (first : OpenAI.Choice) (others : list OpenAI.Choice) (m : OpenAI.Message) :
  OpenAI.choices R = first :: others ->
  OpenAI.message first = Some m ->
  (forall A, _as_turn R has_data_model = Ok A ->
     Forall2 (requested_by json_loads)
       (filter (fun call => is_Some (OpenAI.tc_function call))
          (default [] (OpenAI.tool_calls m)))
       (tool_requests (contents A))) /\
  (arguments_decodable json_loads m ->
   (has_data_model = true ->
    forall s, OpenAI.content m = Some s -> exists v, json_loads s = Ok v) ->
   exists A, _as_turn R has_data_model = Ok A).
Proof.
  intros Hchoices Hmsg. split.
  - intros A HA.
    destruct (as_turn_contents json_loads R has_data_model A first others m
                HA Hchoices Hmsg) as (cs0 & reqs & -> & Hcs0 & Hall).
    rewrite tool_requests_app, request_contents_requests.
    assert (tool_requests cs0 = []) as ->; [|done].
    destruct (OpenAI.content m) as [s|]; [|by subst].
    destruct has_data_model; [|by subst].
    by destruct Hcs0 as (data & _ & ->).
  - intros Hdec Hcontent. unfold OpenAI._as_turn. rewrite Hchoices, Hmsg.
    destruct (OpenAI.content m) as [s|].
    + destruct has_data_model.
      * destruct (Hcontent eq_refl s eq_refl) as [v ->].
        destruct (tool_part_ok json_loads m [ContentJson v] Hdec) as (reqs & -> & _).
        by eexists.
      * destruct (tool_part_ok json_loads m [ContentText s] Hdec) as (reqs & -> & _).
        by eexists.
    + destruct (tool_part_ok json_loads m [] Hdec) as (reqs & -> & _).
      by eexists.
Qed.

(** X20.  On a completion whose first choice has a message, [_as_turn]
    raises only what the JSON parser raised: on the text of the message,
    when a data model was given, or on the arguments of a tool call, when
    the exception is not a [JSONDecodeError]. *)
Theorem as_turn_raises_only_on_bad_json R has_data_model e
    (first : OpenAI.Choice) (others : list OpenAI.Choice) (m : OpenAI.Message) :
  OpenAI.choices R = first :: others ->
  OpenAI.message first = Some m ->
  _as_turn R has_data_model = Raise e ->
  (has_data_model = true /\
   exists s, OpenAI.content m = Some s /\ json_loads s = Raise e) \/
  (exists calls call f a s,
     OpenAI.tool_calls m = Some calls /\ call ∈ calls /\
     OpenAI.tc_function call = Some f /\
     OpenAI.fn_arguments f = Some (String a s) /\
     json_loads (String a s) = Raise e /\
     class_of e <> "JSONDecodeError").
Proof.
  intros Hchoices Hmsg. unfold OpenAI._as_turn. rewrite Hchoices, Hmsg.
  assert (forall cs0,
            match
              match OpenAI.tool_calls m with
              | Some calls => OpenAI.tool_requests_of json_loads calls cs0
              | None => Ok cs0
              end
            with
            | Ok cs =>
                Ok (mkTurn assistant cs
                      (Some match OpenAI.usage R with
                            | None =>
                                match OpenAI.x_groq R with
                                | Some u => (OpenAI.prompt_tokens u,
                                             OpenAI.completion_tokens u)
                                | None => (0, 0)%Z
                                end
                            | Some u => (OpenAI.prompt_tokens u,
                                         OpenAI.completion_tokens u)
                            end)
                      (OpenAI.choice_finish_reason first)
                      (Some (OpenAI.model_dump R)))
            | Raise e => Raise e
            end = Raise e ->
            exists calls call f a s,
              OpenAI.tool_calls m = Some calls /\ call ∈ calls /\
              OpenAI.tc_function call = Some f /\
              OpenAI.fn_arguments f = Some (String a s) /\
              json_loads (String a s) = Raise e /\
              class_of e <> "JSONDecodeError") as Htail.
  { intros cs0. destruct (OpenAI.tool_calls m) as [calls|]; [|done].
    destruct (OpenAI.tool_requests_of json_loads calls cs0) as [cs|e'] eqn:Hcs;
      [done|].
    intros [= ->].
    apply tool_requests_of_raise in Hcs as (call & f & a & s & Hrest).
    by exists calls, call, f, a, s. }
  destruct (OpenAI.content m) as [s|].
  - destruct has_data_model.
    + destruct (json_loads s) as [v|e'] eqn:Hs.
      * intros HA. right. by apply (Htail [ContentJson v]).
      * intros [= ->]. left. split; [done|]. by exists s.
    + intros HA. right. by apply (Htail [ContentText s]).
  - intros HA. right. by apply (Htail []).
Qed.

End AsTurn.

Lemma assign_fresh {A : Type} (k : string) (v : A) (l : list (string * A)) :
  k ∉ l.*1 -> assign k v l = l ++ [(k, v)].
Proof.
  induction l as [|[k' v'] rest IH]; [done|].
  intros Hnot. cbn [assign]. cbn [fmap list_fmap fst] in Hnot.
  apply not_elem_of_cons in Hnot as [Hne Hnot].
  rewrite bool_decide_eq_false_2 by (intros ->; by apply Hne).
  cbn [app]. f_equal. by apply IH.
Qed.

(** Tools registered one after the other under names that differ are held
    in the order of their registration. *)
Lemma registrations_items (tools : list Tool) :
  NoDup (name <$> tools) ->
  items (registrations tools) = (fun tool => (name tool, tool)) <$> tools.
Proof.
  unfold registrations.
  assert (forall (d : dict Tool),
            NoDup ((items d).*1 ++ (name <$> tools)) ->
            items (fold_left (fun d tool => <[name tool := tool]> d) tools d) =
              items d ++ ((fun tool => (name tool, tool)) <$> tools)) as Hgen.
  { induction tools as [|tool rest IH]; intros d Hnd.
    - by rewrite app_nil_r.
    - cbn [fold_left fmap list_fmap]. rewrite IH.
      + unfold insert, dict_insert, dict_set. cbn [items].
        rewrite assign_fresh.
        * by rewrite <- app_assoc.
        * apply NoDup_app in Hnd as (_ & Hnot & _). intros Hin.
          apply (Hnot _ Hin). apply list_elem_of_here.
      + unfold insert, dict_insert, dict_set. cbn [items].
        rewrite assign_fresh.
        * rewrite fmap_app. cbn [fmap list_fmap fst]. rewrite <- app_assoc.
          exact Hnd.
        * apply NoDup_app in Hnd as (_ & Hnot & _). intros Hin.
          apply (Hnot _ Hin). apply list_elem_of_here. }
  intros Hnd. rewrite (Hgen ∅); [done|]. exact Hnd.
Qed.

Section PerformArgs.

Variable json_dumps : value -> string.
Variable get_final_value : Content -> string.
Variable Client : Type.

#[local] Abbreviation _chat_perform_args :=
  (OpenAI._chat_perform_args json_dumps get_final_value Client).

Lemma chat_perform_args_spec self stream turns tools dm kw args :
  _chat_perform_args self stream turns tools dm kw = Ok args ->
  (forall k v, default ∅ kw !! k = Some v ->
     k <> "tools" -> k <> "response_format" -> args !! k = Some v) /\
  (dm <> None -> args !! "tools" = None /\ is_Some (args !! "response_format")) /\
  (dm = None -> (items tools).*2 <> [] ->
     args !! "tools" = Some (VList (schema <$> (items tools).*2))) /\
  (stream = true -> is_Some (args !! "stream_options")).
Proof.
  unfold OpenAI._chat_perform_args. unfold SubmitInputArgs, BaseModel in *.
  destruct (OpenAI._as_message_param _ _ turns) as [msgs|e]; [|done].
  set (base := default ∅ kw ∪ _).
  unfold dict_values.
  remember (map schema (items tools).*2) as schemas eqn:Hschemas.
  set (with_tools := match schemas with [] => base | _ => <["tools" := VList schemas]> base end).
  match goal with
  | |- Ok (if _ && bool_decide (?f !! _ = None) then _ else _) = _ -> _ =>
      set (full := f)
  end.
  intros [= <-].
  assert (forall k v, default ∅ kw !! k = Some v -> base !! k = Some v) as Hbase.
  { intros k v Hk. unfold base. by apply lookup_union_Some_l. }
  assert (forall k v, default ∅ kw !! k = Some v -> k <> "tools" ->
            with_tools !! k = Some v) as Hwith.
  { intros k v Hk Hne. unfold with_tools. destruct schemas; [by apply Hbase|].
    rewrite lookup_insert_ne by congruence. by apply Hbase. }
  assert (forall k v, default ∅ kw !! k = Some v -> k <> "tools" ->
            k <> "response_format" -> full !! k = Some v) as Hfull.
  { intros k v Hk Hne Hne'. unfold full. destruct dm as [params|]; [|by apply Hwith].
    rewrite lookup_delete_ne by congruence. rewrite lookup_insert_ne by congruence.
    by apply Hwith. }
  split; [|split; [|split]].
  - intros k v Hk Hne Hne'.
    destruct (stream && bool_decide (full !! "stream_options" = None)) eqn:Hso;
      [|by apply Hfull].
    destruct (decide (k = "stream_options")) as [->|Hne''].
    + apply andb_true_iff in Hso as [_ Hso]. apply bool_decide_eq_true in Hso.
      rewrite (Hfull _ _ Hk) in Hso; done.
    + rewrite lookup_insert_ne by congruence. by apply Hfull.
  - intros Hdm. destruct dm as [params|]; [|done].
    assert (full !! "tools" = None /\ is_Some (full !! "response_format")) as [Ht Hr].
    { unfold full. split; [by apply lookup_delete_eq|].
      rewrite lookup_delete_ne by congruence. rewrite lookup_insert_eq. by eexists. }
    destruct (stream && bool_decide (full !! "stream_options" = None));
      [|done].
    rewrite !lookup_insert_ne by congruence. done.
  - intros -> Hsome.
    assert (full !! "tools" = Some (VList schemas)) as Ht.
    { unfold full, with_tools.
      destruct (items tools).*2; [done|]. subst schemas. cbn [map].
      by rewrite lookup_insert_eq. }
    destruct (stream && bool_decide (full !! "stream_options" = None));
      [|by rewrite Ht, Hschemas].
    rewrite lookup_insert_ne by congruence. by rewrite Ht, Hschemas.
  - intros ->. cbn [andb].
    destruct (bool_decide (full !! "stream_options" = None)) eqn:Hso.
    + rewrite lookup_insert_eq. by eexists.
    + apply bool_decide_eq_false in Hso.
      destruct (full !! "stream_options"); [by eexists|done].
Qed.

(** X21.  In the arguments that [_chat_perform_args] builds for the client:
    an entry of the caller's [kwargs] is passed on as given, also over the
    defaults for "stream", "messages", "model" and "seed", unless its key is
    "tools" or "response_format"; with a data model there is no "tools"
    entry and there is a "response_format" entry; without one, when tools
    have been registered under names that differ, the "tools" entry lists
    their schemas in the order of registration; and a streamed request
    always has a "stream_options" entry. *)
Theorem chat_perform_args_entries self stream turns tools kw :
  (forall dm args k v,
     _chat_perform_args self stream turns tools dm kw = Ok args ->
     default ∅ kw !! k = Some v ->
     k <> "tools" -> k <> "response_format" -> args !! k = Some v) /\
  (forall params args,
     _chat_perform_args self stream turns tools (Some params) kw = Ok args ->
     args !! "tools" = None /\ is_Some (args !! "response_format")) /\
  (forall registered args,
     _chat_perform_args self stream turns tools None kw = Ok args ->
     tools = registrations registered ->
     NoDup (name <$> registered) -> registered <> [] ->
     args !! "tools" = Some (VList (schema <$> registered))) /\
  (forall dm args,
     _chat_perform_args self stream turns tools dm kw = Ok args ->
     stream = true -> is_Some (args !! "stream_options")).
Proof.
  split; [|split; [|split]].
  - intros dm args k v Hargs. by apply (chat_perform_args_spec _ _ _ _ _ _ _ Hargs).
  - intros params args Hargs. by apply (chat_perform_args_spec _ _ _ _ _ _ _ Hargs).
  - intros registered args Hargs -> Hnd Hsome.
    apply chat_perform_args_spec in Hargs as (_ & _ & Htools & _).
    rewrite (registrations_items registered Hnd) in Htools.
    rewrite <- list_fmap_compose in Htools.
    assert (forall l : list Tool,
              (snd ∘ (fun tool => (name tool, tool))) <$> l = l) as Hid.
    { induction l as [|t rest IH]; [done|]. cbn. by rewrite IH. }
    rewrite Hid in Htools. apply Htools; [done|]. exact Hsome.
  - intros dm args Hargs. by apply (chat_perform_args_spec _ _ _ _ _ _ _ Hargs).
Qed.

End PerformArgs.

(** ** Tool schemas *)

Lemma type_dict_property (ty : string) (desc : option string)
    (kwargs : gmap string value) :
  kwargs !! "type" = None -> kwargs !! "description" = None ->
  ty ∈ json_type_names ->
  schema_property (type_dict ty desc kwargs).
Proof.
  intros Hty Hdesc Hin. unfold type_dict. eexists _, ty, _.
  split; [reflexivity|]. split; [|split; [exact Hin|]].
  - rewrite lookup_union_r by done. by simplify_map_eq.
  - rewrite lookup_union_r by done. by simplify_map_eq.
Qed.

Lemma json_type_name_in (ty : string) :
  bool_decide (ty ∈ json_type_names) = true -> ty ∈ json_type_names.
Proof. apply bool_decide_eq_true. Qed.

Section SchemaFacts.

Variable get_type_hints : string -> result (list (string * pyobj)).

(** The exceptions of [type_to_json_schema]. *)
#[local] Abbreviation schema_error :=
  (fun e : exception =>
     e = Exception "AssertionError" "" \/
     (exists str, e = Exception "ValueError" ("Unsupported type: " +:+ str)) \/
     class_of e = "RecursionError" \/
     (exists cls, get_type_hints cls = Raise e)).

Lemma type_to_json_schema_shape (depth : nat) (t : pyobj) (desc : option string) :
  match type_to_json_schema get_type_hints depth t desc with
  | Ok s => schema_property s
  | Raise e => schema_error e
  end.
Proof.
  revert t desc. induction depth as [|depth IH]; intros t desc;
    [right; right; by left|].
  destruct t as [args|args|args|cls| | | | | | | |s|str];
    cbn [type_to_json_schema];
    try (apply type_dict_property; [done|done|by apply json_type_name_in]);
    try (right; left; by eauto).
  - destruct args as [|a0 [|a1 [|a2 rest]]]; try (by left).
    destruct (truthy desc); [by left|].
    destruct a1; try (by left). apply IH.
  - destruct args as [|a0 [|a1 rest]]; try (by left).
    specialize (IH a0 None).
    destruct (type_to_json_schema get_type_hints depth a0 None) as [items|e]; [|exact IH].
    apply type_dict_property; [done|done|by apply json_type_name_in].
  - destruct args as [|a0 [|a1 [|a2 rest]]]; try (by left).
    destruct a0; try (by left).
    specialize (IH a1 None).
    destruct (type_to_json_schema get_type_hints depth a1 None) as [schema|e]; [|exact IH].
    apply type_dict_property; [done|done|by apply json_type_name_in].
  - destruct (get_type_hints cls) as [anns|e] eqn:Hcls;
      [|right; right; right; by exists cls].
    match goal with
    | |- match match ?f anns ∅ with _ => _ end with _ => _ end =>
        assert (forall acc,
                  match f anns acc with
                  | Ok _ => True
                  | Raise e => schema_error e
                  end) as Hprops
    end.
    { clear Hcls. induction anns as [|[k v] rest IHrest]; intros acc; [done|].
      specialize (IH v None).
      destruct (type_to_json_schema get_type_hints depth v None) as [schema|e]; [|exact IH].
      by apply IHrest. }
    specialize (Hprops ∅).
    match goal with
    | |- match match ?x with _ => _ end with _ => _ end => destruct x as [props|e]
    end; [|exact Hprops].
    apply type_dict_property; [done|done|by apply json_type_name_in].
Qed.

(** X22.  Whatever the annotation and the description, a result of
    [type_to_json_schema] is a dict with one of the seven JSON type names
    under "type" and a string under "description"; when it raises, the
    exception is an [AssertionError] (a malformed [Annotated], [list[...]]
    or [dict[...]]), the [ValueError] "Unsupported type: ...", a
    [RecursionError] (an annotation nested beyond the recursion limit, as
    that of a [TypedDict] class that occurs in its own hints), or the
    exception that [get_type_hints] raised on a [TypedDict] class. *)
Theorem type_to_json_schema_result (depth : nat) (t : pyobj) (desc : option string) :
  match type_to_json_schema get_type_hints depth t desc with
  | Ok s => schema_property s
  | Raise e =>
      e = Exception "AssertionError" "" \/
      (exists str, e = Exception "ValueError" ("Unsupported type: " +:+ str)) \/
      class_of e = "RecursionError" \/
      (exists cls, get_type_hints cls = Raise e)
  end.
Proof.
  apply type_to_json_schema_shape.
Qed.

(** X23.  [type_to_json_schema] returns a schema on an annotation built,
    within the recursion limit, from [dict], [list], [str], [int], [float],
    [bool] and [NoneType] with [list[T]], [dict[str, T]], [Annotated[T,
    "..."]] and [TypedDict] classes whose hints resolve to such annotations;
    for an [Annotated] at the top this needs the description passed in to
    be [None] or empty. *)
Theorem supported_type_has_schema (depth : nat) (t : pyobj) (desc : option string) :
  supported get_type_hints depth t = true ->
  match t with Annotated _ => truthy desc = false | _ => True end ->
  exists s, type_to_json_schema get_type_hints depth t desc = Ok s.
Proof.
  revert t desc. induction depth as [|depth IH]; intros t desc Hsup Hdesc; [done|].
  destruct t as [args|args|args|cls| | | | | | | |s|str];
    cbn [type_to_json_schema]; cbn [supported] in Hsup; try done; try (by eauto).
  - destruct args as [|a0 [|a1 rest]]; try done.
    destruct a1 as [| | | | | | | | | | |s|]; try (by destruct rest).
    destruct rest as [|a2 rest]; [|done].
    rewrite Hdesc. apply IH; by destruct a0.
  - destruct args as [|a0 [|a1 rest]]; try done.
    destruct (IH a0 None Hsup) as [items ->]; [by destruct a0|].
    by eauto.
  - destruct args as [|a0 rest]; [done|].
    destruct a0; try done.
    destruct rest as [|a1 [|a2 rest]]; try done.
    destruct (IH a1 None Hsup) as [schema ->]; [by destruct a1|]. by eauto.
  - destruct (get_type_hints cls) as [anns|e]; [|done].
    match goal with
    | |- exists s, match ?f anns ∅ with _ => _ end = _ =>
        assert (forall acc, exists props, f anns acc = Ok props) as Hprops
    end.
    { induction anns as [|[k v] rest IHrest]; intros acc; [by eauto|].
      cbn [forallb snd] in Hsup. apply andb_true_iff in Hsup as [Hsv Hsrest].
      destruct (IH v None Hsv) as [schema ->]; [by destruct v|].
      by apply IHrest. }
    destruct (Hprops ∅) as [props ->]. by eauto.
Qed.

Lemma schema_properties_spec depth items param_desc acc props :
  schema_properties get_type_hints depth items param_desc acc = Ok props ->
  (forall k, is_Some (props !! k) <->
             is_Some (acc !! k) \/ (k <> "return" /\ k ∈ items.*1)) /\
  (forall k v, props !! k = Some v -> acc !! k = Some v \/ schema_property v).
Proof.
  revert acc. induction items as [|[k0 v0] rest IH]; intros acc.
  - intros [= <-]. split.
    + intros k. split; [by left|]. intros [?|[_ Hin]]; [done|].
      by apply elem_of_nil in Hin.
    + intros k v Hk. by left.
  - cbn [schema_properties fmap list_fmap fst].
    destruct (bool_decide (k0 <> "return")) eqn:Hret.
    + apply bool_decide_eq_true in Hret.
      pose proof (type_to_json_schema_shape depth v0 (param_desc !! k0)) as Hv0.
      destruct (type_to_json_schema get_type_hints depth v0 (param_desc !! k0))
        as [schema|e]; [|done].
      intros Hrest. destruct (IH _ Hrest) as [Hdom Hall]. split.
      * intros k. rewrite Hdom, lookup_insert_is_Some, elem_of_cons.
        split.
        -- intros [[->|[? ?]]|[? ?]]; by eauto.
        -- intros [?|[? [->|?]]]; [|by eauto|by eauto].
           destruct (decide (k0 = k)); by eauto.
      * intros k v Hk. destruct (Hall k v Hk) as [Hacc|?]; [|by right].
        destruct (decide (k0 = k)) as [->|Hne].
        -- rewrite lookup_insert_eq in Hacc. injection Hacc as <-. by right.
        -- rewrite lookup_insert_ne in Hacc by done. by left.
    + apply bool_decide_eq_false in Hret.
      intros Hrest. destruct (IH _ Hrest) as [Hdom Hall]. split; [|exact Hall].
      intros k. rewrite Hdom, elem_of_cons. split.
      * intros [?|[? ?]]; by eauto.
      * intros [?|[? [->|?]]]; [by eauto| |by eauto].
        exfalso. by apply Hret.
Qed.

(** The schema that [func_to_schema] builds around the properties. *)
Lemma func_to_schema_inv depth func name description parameter_descriptions s :
  func_to_schema get_type_hints depth func name description parameter_descriptions
    = Ok s ->
  exists props,
    schema_properties get_type_hints depth (annotations func)
      (default ∅ parameter_descriptions) ∅ = Ok props /\
    s = VDict
          {[ "type" := VStr "function";
             "function" :=
               VDict
                 {[ "name" := VStr (or_str name (__name__ func));
                    "description" :=
                      VStr (or_str (or_else description (__doc__ func)) "");
                    "parameters" :=
                      VDict
                        {[ "type" := VStr "object";
                           "properties" := VDict props;
                           "required" :=
                             VList (VStr <$> required_names (parameters func)) ]} ]} ]}.
Proof.
  unfold func_to_schema.
  destruct (schema_properties _ _ _ _ _) as [props|e]; [|done].
  intros [= <-]. by exists props.
Qed.

(** X24.  In the schema that [func_to_schema] builds, the function is named
    by the [name] given or, when that is [None] or empty, by the function's
    [__name__]; "required" lists, in the order of the signature, the
    parameters that have no default and are neither [*args] nor [**kwargs],
    whether they have a type hint or not; "properties" has an entry exactly
    for the type hints other than "return", and every entry is a dict with a
    JSON type name and a description string. *)
Theorem func_to_schema_parameters depth func name description
    parameter_descriptions s :
  func_to_schema get_type_hints depth func name description parameter_descriptions
    = Ok s ->
  exists d f p props,
    s = VDict d /\
    d !! "function" = Some (VDict f) /\
    f !! "name" = Some (VStr (or_str name (__name__ func))) /\
    f !! "parameters" = Some (VDict p) /\
    p !! "required" =
      Some (VList (VStr <$> (param_name <$> List.filter is_required (parameters func)))) /\
    p !! "properties" = Some (VDict props) /\
    (forall k, is_Some (props !! k) <->
               k <> "return" /\ k ∈ (annotations func).*1) /\
    (forall k v, props !! k = Some v -> schema_property v).
Proof.
  intros Hs. apply func_to_schema_inv in Hs as (props & Hprops & ->).
  apply schema_properties_spec in Hprops as [Hdom Hall].
  eexists _, _, _, props. split; [reflexivity|].
  split; [by simplify_map_eq|]. split; [by simplify_map_eq|].
  split; [by simplify_map_eq|]. split; [by simplify_map_eq|].
  split; [by simplify_map_eq|]. split.
  - intros k. rewrite Hdom. split; [|by right].
    intros [Hempty|?]; [|done]. rewrite lookup_empty in Hempty. by destruct Hempty.
  - intros k v Hk. destruct (Hall k v Hk) as [Hempty|?]; [|done].
    by rewrite lookup_empty in Hempty.
Qed.

(** X25.  [ToolDef] raises exactly when [func_to_schema] does, with the same
    exception; otherwise the tool holds the function, whether it is async
    and the schema, and its name is the [name] given or, when that is
    [None] or empty, the function's [__name__]. *)
Theorem tool_def_name depth tool nm description parameter_descriptions :
  match ToolDef get_type_hints depth tool nm description parameter_descriptions,
        func_to_schema get_type_hints depth tool nm description
          parameter_descriptions with
  | Ok t, Ok s =>
      name t = or_str nm (__name__ tool) /\
      schema t = s /\
      on_call (func t) = call tool /\
      func_name (func t) = Some (__name__ tool) /\
      _is_async t = is_async_callable tool
  | Raise e, Raise e' => e = e'
  | _, _ => False
  end.
Proof.
  unfold ToolDef.
  destruct (func_to_schema get_type_hints depth tool nm description
              parameter_descriptions) as [s|e] eqn:Hs; [|done].
  apply func_to_schema_inv in Hs as (props & _ & ->).
  by simplify_map_eq.
Qed.

End SchemaFacts.

Lemma supported_type_has_schema_witness :
  exists s,
    type_to_json_schema example_hints 5
      (DictOf [StrClass;
               ListOf [Annotated [TypedDictClass "Place"; StrValue "A stop"]]])
      (Some "Where and when") = Ok s.
Proof.
  apply (supported_type_has_schema example_hints 5
           (DictOf [StrClass;
                    ListOf [Annotated [TypedDictClass "Place"; StrValue "A stop"]]])
           (Some "Where and when")).
  - reflexivity.
  - exact I.
Defined.

(** The two classes that no recursion limit and no description make into a
    schema: the one that occurs in its own hints, and the one whose hint
    does not resolve. *)
Example type_to_json_schema_classes :
  (forall depth desc,
     type_to_json_schema example_hints depth (TypedDictClass "Node") desc =
       Raise RecursionError) /\
  (forall depth desc,
     type_to_json_schema example_hints (S depth) (TypedDictClass "Broken") desc =
       Raise (Exception "NameError" "name 'Missing' is not defined")).
Proof.
  split; [|done].
  assert (forall depth,
            (forall desc,
               type_to_json_schema example_hints depth (TypedDictClass "Node") desc =
                 Raise RecursionError) /\
            (forall desc,
               type_to_json_schema example_hints (S depth) (TypedDictClass "Node")
                 desc = Raise RecursionError)) as Hboth.
  { induction depth as [|depth [IH0 IH1]]; [by split|].
    split; [exact IH1|]. intros desc.
    change (type_to_json_schema example_hints (S (S depth)) (TypedDictClass "Node") desc)
      with (match
              match type_to_json_schema example_hints (S depth) StrClass None with
              | Ok schema =>
                  match type_to_json_schema example_hints (S depth)
                          (ListOf [TypedDictClass "Node"]) None with
                  | Ok schema' =>
                      Ok (<["children" := schema']> (<["label" := schema]> ∅))
                  | Raise e => Raise e
                  end
              | Raise e => Raise e
              end
            with
            | Ok properties =>
                Ok (type_dict "object" desc {[ "properties" := VDict properties ]})
            | Raise e => Raise e
            end).
    cbn [type_to_json_schema]. by rewrite IH0. }
  intros depth. apply Hboth.
Qed.

Lemma func_to_schema_parameters_witness :
  exists d f p props,
    weather_schema = VDict d /\
    d !! "function" = Some (VDict f) /\
    f !! "name" = Some (VStr (or_str None (__name__ weather_function))) /\
    f !! "parameters" = Some (VDict p) /\
    p !! "required" =
      Some (VList (VStr <$> (param_name <$>
                               List.filter is_required (parameters weather_function)))) /\
    p !! "properties" = Some (VDict props) /\
    (forall k, is_Some (props !! k) <->
               k <> "return" /\ k ∈ (annotations weather_function).*1) /\
    (forall k v, props !! k = Some v -> schema_property v).
Proof.
  apply (func_to_schema_parameters example_hints 3 weather_function None None None
           weather_schema).
  vm_compute. reflexivity.
Defined.

(** ** Instances of the further properties *)

Lemma system_prompt_set_then_get_witness :
  let c := counted_system_chat in
  system_prompt (final (set_system_prompt (Some "Be brief.") c)) = Some "Be brief." /\
  get_turns false (final (set_system_prompt (Some "Be brief.") c)) = get_turns false c /\
  system_prompt (final (set_system_prompt None c)) = None /\
  get_turns false (final (set_system_prompt None c)) = get_turns false c.
Proof.
  intros c. apply (system_prompt_set_then_get c "Be brief.").
  apply system_first_tail. simpl. by constructor.
Defined.

Lemma set_turns_drops_system_prompt_witness :
  let c := counted_system_chat in
  let turns := [Turn_of_str user "Hi"; Turn_of_str assistant "Hello"] in
  system_prompt (final (set_turns turns c)) = None /\
  forall include_system_prompt,
    get_turns include_system_prompt (final (set_turns turns c)) = turns.
Proof.
  intros c turns. apply (set_turns_drops_system_prompt c turns). reflexivity.
Defined.

Lemma get_turns_without_system_witness :
  let c := two_part_system_chat in
  Forall (fun t => role t <> system) (get_turns false c) /\
  get_turns true c =
    match system_prompt c, _turns c with
    | Some _, t0 :: _ => t0 :: get_turns false c
    | _, _ => get_turns false c
    end.
Proof.
  intros c. apply (get_turns_without_system c).
  apply system_first_tail. simpl. repeat constructor. done.
Defined.

Lemma async_tool_blocks_chat_witness :
  let P := Stub.stub_provider (Stub.script_of one_tool_round) in
  let c' := final (register_tool async_echo_tool greeted_chat) in
  let e := ValueError "Cannot use async tools in a synchronous chat" in
  (forall U echo stream dm kw,
     _submit_turns U echo stream dm kw c' = Run [] (Raise e) c') /\
  (forall fuel args echo stream kw,
     chat (S fuel) args echo stream kw c' = Run [] (Raise e) c') /\
  (forall args dm echo stream,
     extract_data args dm echo stream c' = Run [] (Raise e) c').
Proof.
  intros P. apply (async_tool_blocks_chat async_echo_tool greeted_chat). reflexivity.
Defined.

Lemma tool_results_match_requests_witness :
  let U' := Turn_of_contents user
              [ContentToolResult "call_1" VNone (Some "Unknown tool");
               ContentToolResult "call_2" VNone (Some "Unknown tool")] in
  role U' = user /\
  forallb is_tool_result (contents U') = true /\
  omap result_id (contents U') =
    (fun r => r.1.1) <$>
      tool_requests
        [ContentText "Let me check.";
         ContentToolRequest "call_1" "weather" (VDict {[ "city" := VStr "Paris" ]});
         ContentToolRequest "call_2" "time" VNone].
Proof.
  intros U'.
  apply (tool_results_match_requests two_requests_chat
           (Turn_of_contents assistant
              [ContentText "Let me check.";
               ContentToolRequest "call_1" "weather" (VDict {[ "city" := VStr "Paris" ]});
               ContentToolRequest "call_2" "time" VNone]) U').
  - reflexivity.
  - reflexivity.
Defined.

Lemma tool_results_as_messages_witness :
  let results := [ContentToolResult "call_1" (VInt 21) None;
                  ContentToolResult "call_2" VNone (Some "Unknown tool")] in
  exists msgs,
    OpenAI._as_message_param Fixture.json_dumps Fixture.get_final_value
      [Turn_of_contents user results] = Ok msgs /\
    Forall2 (fun x m =>
               exists d, m = VDict d /\
                 d !! "role" = Some (VStr "tool") /\
                 d !! "tool_call_id" = VStr <$> result_id x /\
                 d !! "content" = Some (VStr (Fixture.get_final_value x))) results msgs.
Proof.
  intros results.
  apply (tool_results_as_messages Fixture.json_dumps Fixture.get_final_value results).
  reflexivity.
Defined.

Lemma unsendable_round_refused_witness :
  let P := Fixture.provider Fixture.hello Fixture.hello_chunks in
  let U := Turn_of_str user "Now a dog" in
  let e := ValueError ("Don't know how to handle content type "
                       +:+ "<class 'chatlas._content.ContentImageRemote'>"
                       +:+ " for role='assistant'.") in
  _submit_turns U EchoAll true None None image_answer_chat =
    Run [] (Raise e) image_answer_chat.
Proof.
  intros P U e.
  apply (unsendable_round_refused Fixture.json_loads Fixture.json_dumps
           Fixture.get_final_value Merge.merge_dicts unit
           (Fixture.create Fixture.hello)
           (Fixture.create_stream Fixture.hello_chunks)
           U EchoAll true None None image_answer_chat e).
  - split; [reflexivity|]. intros _. reflexivity.
  - reflexivity.
Defined.

Lemma token_usage_after_round_witness :
  let P := Fixture.provider Fixture.hello Fixture.hello_chunks in
  let U := Turn_of_str user "Hi" in
  token_usage (final (_submit_turns U EchoNone false None None Fixture.chat0)) =
    completion_tokens_of Fixture.hello.
Proof.
  intros P U.
  apply (token_usage_after_round Fixture.json_loads Fixture.json_dumps
           Fixture.get_final_value Merge.merge_dicts unit
           (Fixture.create Fixture.hello)
           (Fixture.create_stream Fixture.hello_chunks)
           U EchoNone None None Fixture.chat0 Fixture.hello).
  - vm_compute. reflexivity.
  - reflexivity.
Defined.

Lemma empty_stream_raises_witness :
  let P := Fixture.provider Fixture.hello [] in
  let U := Turn_of_str user "Hi" in
  outcome (_submit_turns U EchoNone true None None Fixture.chat0) =
    Raise (TypeError "'NoneType' object is not subscriptable") /\
  yielded (_submit_turns U EchoNone true None None Fixture.chat0) = [] /\
  _turns (final (_submit_turns U EchoNone true None None Fixture.chat0)) =
    _turns Fixture.chat0.
Proof.
  intros P U.
  apply (empty_stream_raises Fixture.json_loads Fixture.json_dumps
           Fixture.get_final_value Merge.merge_dicts unit
           (Fixture.create Fixture.hello) (Fixture.create_stream [])
           U EchoNone None None Fixture.chat0).
  - split; [reflexivity|]. intros H. discriminate H.
  - reflexivity.
Defined.

Lemma extract_data_parses_content_witness :
  let P := OpenAI.provider_instance example_loads Fixture.json_dumps
             Fixture.get_final_value Merge.merge_dicts unit
             (Fixture.create json_answer)
             (Fixture.create_stream [json_answer_chunk]) in
  let args : list (Content + string) := [inr "Two numbers"] in
  outcome (extract_data args ∅ EchoNone false Fixture.chat0) =
    Ok (VList [VInt 1; VInt 2]) /\
  yielded (extract_data args ∅ EchoNone false Fixture.chat0) = [] /\
  exists A requests,
    contents A = ContentJson (VList [VInt 1; VInt 2]) :: requests /\
    count_json requests = 0 /\
    _turns (final (extract_data args ∅ EchoNone false Fixture.chat0)) =
      _turns Fixture.chat0 ++ [user_turn args; A].
Proof.
  intros P args.
  apply (extract_data_parses_content example_loads Fixture.json_dumps
           Fixture.get_final_value Merge.merge_dicts unit
           (Fixture.create json_answer)
           (Fixture.create_stream [json_answer_chunk])
           args ∅ EchoNone Fixture.chat0 json_answer
           (OpenAI.mkChoice None (Some (OpenAI.mkMessage (Some "[1, 2]") None))
              (Some "stop"))
           [] (OpenAI.mkMessage (Some "[1, 2]") None)).
  - reflexivity.
  - reflexivity.
  - reflexivity.
  - reflexivity.
  - intros calls call f a s cls msg H. discriminate H.
Defined.

(** The same call when the text of the answer is malformed: the exception
    of the parser reaches the caller, and nothing is recorded. *)
Example extract_data_malformed :
  let P := OpenAI.provider_instance example_loads Fixture.json_dumps
             Fixture.get_final_value Merge.merge_dicts unit
             (Fixture.create malformed_answer) (Fixture.create_stream []) in
  let r := extract_data [inr "Which city?"] ∅ EchoNone false Fixture.chat0 in
  outcome r =
    Raise (Exception "JSONDecodeError"
             "Expecting property name enclosed in double quotes: line 1 column 2 (char 1)") /\
  _turns (final r) = _turns Fixture.chat0.
Proof. intros P r. split; reflexivity. Qed.

Lemma as_turn_tool_requests_witness :
  let m :=
    OpenAI.mkMessage None
      (Some [OpenAI.mkToolCall "call_1"
               (Some (OpenAI.mkFunction "weather" (Some "{city: Paris")));
             OpenAI.mkToolCall "call_2" None]) in
  (forall A, OpenAI._as_turn example_loads tool_call_answer false = Ok A ->
     Forall2 (requested_by example_loads)
       (filter (fun call => is_Some (OpenAI.tc_function call))
          (default [] (OpenAI.tool_calls m)))
       (tool_requests (contents A))) /\
  (arguments_decodable example_loads m ->
   (false = true ->
    forall s, OpenAI.content m = Some s -> exists v, example_loads s = Ok v) ->
   exists A, OpenAI._as_turn example_loads tool_call_answer false = Ok A).
Proof.
  intros m.
  apply (as_turn_tool_requests example_loads tool_call_answer false
           (OpenAI.mkChoice None (Some m) (Some "tool_calls")) [] m).
  - reflexivity.
  - reflexivity.
Defined.

(** The turn of that completion, evaluated: the malformed arguments of the
    first call have become an empty dict, the call without a function has
    given no request, and the token counts are those under [x_groq]. *)
Example tool_call_answer_turn :
  exists payload,
    OpenAI._as_turn example_loads tool_call_answer false =
      Ok (mkTurn assistant [ContentToolRequest "call_1" "weather" (VDict ∅)]
            (Some (20, 7)%Z) (Some "tool_calls") payload).
Proof. eexists. reflexivity. Qed.

Lemma as_turn_raises_only_on_bad_json_witness :
  let e := Exception "JSONDecodeError"
             "Expecting property name enclosed in double quotes: line 1 column 2 (char 1)" in
  let m := OpenAI.mkMessage (Some "{city: Paris") None in
  (true = true /\
   exists s, OpenAI.content m = Some s /\ example_loads s = Raise e) \/
  (exists calls call f a s,
     OpenAI.tool_calls m = Some calls /\ call ∈ calls /\
     OpenAI.tc_function call = Some f /\
     OpenAI.fn_arguments f = Some (String a s) /\
     example_loads (String a s) = Raise e /\
     class_of e <> "JSONDecodeError").
Proof.
  intros e m.
  apply (as_turn_raises_only_on_bad_json example_loads malformed_answer true e
           (OpenAI.mkChoice None (Some m) (Some "stop")) [] m).
  - reflexivity.
  - reflexivity.
  - reflexivity.
Defined.

(** A tool call whose arguments are nested too deep makes [_as_turn] raise:
    the [RecursionError] of the parser is no [JSONDecodeError]. *)
Example as_turn_deep_arguments :
  OpenAI._as_turn example_loads
    (OpenAI.mkCompletion "chatcmpl-5"
       [OpenAI.mkChoice None
          (Some (OpenAI.mkMessage None
                   (Some [OpenAI.mkToolCall "call_1"
                            (Some (OpenAI.mkFunction "weather" (Some deep_json)))])))
          (Some "tool_calls")]
       1700000004 "gpt-4o-mini" "chat.completion" None None)
    false =
  Raise (Exception "RecursionError"
           "maximum recursion depth exceeded while decoding a JSON array from a unicode string").
Proof. reflexivity. Qed.

Lemma chat_perform_args_entries_witness :
  let self := OpenAI.mkProvider "gpt-4o-mini" None tt in
  let kw : option SubmitInputArgs := Some {[ "temperature" := VInt 0 ]} in
  let tools := registrations [zeta_tool; alpha_tool] in
  let turns := [Turn_of_str user "Hi"] in
  (exists args,
     OpenAI._chat_perform_args Fixture.json_dumps Fixture.get_final_value unit
       self true turns tools None kw = Ok args /\
     args !! "temperature" = Some (VInt 0) /\
     args !! "tools" = Some (VList [schema zeta_tool; schema alpha_tool]) /\
     is_Some (args !! "stream_options")) /\
  (exists args,
     OpenAI._chat_perform_args Fixture.json_dumps Fixture.get_final_value unit
       self true turns tools (Some ∅) kw = Ok args /\
     args !! "tools" = None /\ is_Some (args !! "response_format")).
Proof.
  intros self kw tools turns.
  destruct (chat_perform_args_entries Fixture.json_dumps Fixture.get_final_value
              unit self true turns tools kw) as (Hkw & Hdm & Htools & Hstream).
  split.
  - eexists. split; [reflexivity|]. split; [|split].
    + apply (Hkw None _ "temperature" (VInt 0)); done.
    + apply (Htools [zeta_tool; alpha_tool]); [done|done| |done].
      apply NoDup_cons. split; [|apply NoDup_singleton].
      intros Hin. apply list_elem_of_singleton in Hin. discriminate Hin.
    + by apply (Hstream None).
  - eexists. split; [reflexivity|]. by apply (Hdm ∅).
Defined.

Lemma streamed_round_yields_chunks_witness :
  let P := Stub.stub_provider failing_script in
  let U := Turn_of_str user "Hi" in
  let s := SCons (Turn_of_str assistant "Hel") (SRaise connection_error) in
  yielded (_submit_turns U EchoNone true None None greeted_chat) = stream_texts s /\
  forall e, stream_result s None = Raise e ->
    outcome (_submit_turns U EchoNone true None None greeted_chat) = Raise e /\
    _turns (final (_submit_turns U EchoNone true None None greeted_chat)) =
      _turns greeted_chat.
Proof.
  intros P U s.
  apply (streamed_round_yields_chunks U EchoNone None None greeted_chat s).
  - split; [reflexivity|]. intros H. discriminate H.
  - reflexivity.
Defined.

(** ** The system prompt across calls *)

Section SystemPromptKept.

Context {PS Completion Chunk Dict : Type}.
Context {P : Provider PS Completion Chunk Dict}.
Implicit Types (c : Chat PS) (U A : Turn).

(** A run of the loop on a user turn keeps every property of the history
    that a round on a user turn keeps. *)
Lemma chat_impl_preserves (Q : list Turn -> Prop) :
  (forall U echo stream kw c,
     role U = user -> Q (_turns c) ->
     Q (_turns (final (_submit_turns U echo stream None kw c)))) ->
  forall fuel U echo stream kw c,
    role U = user -> Q (_turns c) ->
    Q (_turns (final (_chat_impl fuel (Some U) echo stream kw c))).
Proof.
  intros HQ. induction fuel as [|fuel IH]; intros U echo stream kw c HU Hc; [done|].
  remember (_chat_impl (S fuel) (Some U) echo stream kw c) as r eqn:Hr.
  rewrite chat_impl_unfold in Hr. unfold bind in Hr.
  pose proof (HQ U echo stream kw c HU Hc) as Hround.
  destruct (outcome (_submit_turns U echo stream None kw c)) as [[]|e].
  - destruct (invoke_tools_shape (final (_submit_turns U echo stream None kw c)))
      as (next & Hinv & Hnext).
    rewrite Hinv in Hr. cbn [outcome final yielded] in Hr.
    destruct next as [[U'|]|e].
    + subst r. cbn [final]. apply IH; [|done].
      by destruct Hnext as (results & -> & _).
    + rewrite chat_impl_None in Hr. by subst r.
    + by subst r.
  - by subst r.
Qed.

Lemma system_prompt_turns c c' :
  _turns c = _turns c' -> system_prompt c = system_prompt c'.
Proof. unfold system_prompt. by intros ->. Qed.

Lemma system_prompt_extended c c' U (more : list Turn) :
  role U = user -> _turns c' = _turns c ++ U :: more ->
  system_prompt c' = system_prompt c.
Proof.
  unfold system_prompt. intros HU ->.
  destruct (_turns c) as [|t0 rest]; [|done]. simpl.
  unfold is_system. by rewrite bool_decide_eq_false_2 by congruence.
Qed.

Lemma round_keeps_system_prompt U echo stream dm kw c :
  role U = user ->
  system_prompt (final (_submit_turns U echo stream dm kw c)) = system_prompt c.
Proof.
  intros HU.
  destruct (submit_turns_history U echo stream dm kw c)
    as [[Hsame _]|(A & _ & _ & Hturns)].
  - by apply system_prompt_turns.
  - by apply (system_prompt_extended _ _ U [A]).
Qed.

(** X27.  Whatever the provider answers and however the call ends, [chat]
    and [extract_data] leave the system prompt as it was. *)
Theorem chat_keeps_system_prompt c args echo stream :
  (forall fuel kw,
     system_prompt (final (chat fuel args echo stream kw c)) = system_prompt c) /\
  (forall data_model,
     system_prompt (final (extract_data args data_model echo stream c)) =
       system_prompt c).
Proof.
  split.
  - intros fuel kw. unfold chat.
    assert (forall U echo' stream' kw' c0,
              role U = user ->
              (forall c', _turns c' = _turns c0 -> system_prompt c' = system_prompt c) ->
              forall c', _turns c' =
                           _turns (final (_submit_turns U echo' stream' None kw' c0)) ->
                         system_prompt c' = system_prompt c) as Hround.
    { intros U echo' stream' kw' c0 HU Hc0 c' Hc'.
      rewrite (system_prompt_turns c' _ Hc').
      rewrite round_keeps_system_prompt by done. by apply Hc0. }
    apply (chat_impl_preserves
             (fun turns => forall c', _turns c' = turns ->
                                      system_prompt c' = system_prompt c)
             Hround fuel (user_turn args) echo stream kw c); try done.
    intros c' Hc'. by apply system_prompt_turns.
  - intros data_model. unfold extract_data, bind.
    pose proof (round_keeps_system_prompt (user_turn args) echo stream
                  (Some data_model) None c eq_refl) as Hround.
    destruct (outcome (_submit_turns _ _ _ _ _ c)) as [[]|e]; [|done].
    cbn [get outcome final yielded].
    destruct (get_last_turn assistant _) as [turn|]; [|done].
    destruct (bool_decide _); [done|]. by destruct (json_items _).
Qed.

End SystemPromptKept.

Section SystemFirstKept.

Variable json_loads : string -> result value.
Variable json_dumps : value -> string.
Variable get_final_value : Content -> string.
Variable merge_dicts :
  OpenAI.ChatCompletion -> OpenAI.ChatCompletion -> OpenAI.ChatCompletion.
Variable Client : Type.
Variable create :
  gmap string value -> Client -> result OpenAI.ChatCompletion * Client.
Variable create_stream :
  gmap string value -> Client ->
  result (Stream OpenAI.ChatCompletionChunk) * Client.

#[local] Instance openai_kept :
  Provider (OpenAI.OpenAIProvider Client) OpenAI.ChatCompletion
    OpenAI.ChatCompletionChunk OpenAI.ChatCompletion :=
  OpenAI.provider_instance json_loads json_dumps get_final_value merge_dicts
    Client create create_stream.

Implicit Types (c : Chat (OpenAI.OpenAIProvider Client)) (U A : Turn).

Lemma round_keeps_system_first U echo stream dm kw c :
  role U = user -> system_first (_turns c) ->
  system_first (_turns (final (_submit_turns U echo stream dm kw c))).
Proof.
  intros HU Hinv.
  destruct (submit_turns_history U echo stream dm kw c)
    as [[-> _]|(A & Hturn & _ & ->)]; [done|].
  apply (round_turn_role json_loads json_dumps get_final_value merge_dicts Client
           create create_stream) in Hturn.
  apply system_first_app; [done|]. repeat constructor; congruence.
Qed.

(** X28.  On a history with at most one system turn, at index 0, a [chat]
    or [extract_data] call against the OpenAI provider leaves a history
    with at most one system turn, at index 0, over any number of tool
    rounds and however the call ends. *)
Theorem chat_keeps_system_first c args echo stream :
  system_first (_turns c) ->
  (forall fuel kw,
     system_first (_turns (final (chat fuel args echo stream kw c)))) /\
  (forall data_model,
     system_first (_turns (final (extract_data args data_model echo stream c)))).
Proof.
  intros Hinv. split.
  - intros fuel kw. unfold chat.
    apply (chat_impl_preserves system_first); try done.
    intros U echo' stream' kw' c0 HU Hc0. by apply round_keeps_system_first.
  - intros data_model. unfold extract_data, bind.
    pose proof (round_keeps_system_first (user_turn args) echo stream
                  (Some data_model) None c eq_refl Hinv) as Hround.
    destruct (outcome (_submit_turns _ _ _ _ _ c)) as [[]|e]; [|done].
    cbn [get outcome final yielded].
    destruct (get_last_turn assistant _) as [turn|]; [|done].
    destruct (bool_decide _); [done|]. by destruct (json_items _).
Qed.

End SystemFirstKept.

Lemma chat_keeps_system_first_witness :
  let P := Fixture.provider Fixture.hello Fixture.hello_chunks in
  let args : list (Content + string) := [inr "Hi"] in
  (forall fuel kw,
     system_first (_turns (final (chat fuel args EchoText true kw Fixture.chat0)))) /\
  (forall data_model,
     system_first
       (_turns (final (extract_data args data_model EchoText true Fixture.chat0)))).
Proof.
  intros P args.
  apply (chat_keeps_system_first Fixture.json_loads Fixture.json_dumps
           Fixture.get_final_value Merge.merge_dicts unit
           (Fixture.create Fixture.hello)
           (Fixture.create_stream Fixture.hello_chunks)
           Fixture.chat0 args EchoText true).
  apply system_first_tail. simpl. by constructor.
Defined.
